(** * cool-ai: the iterative multi-expert analysis orchestrator

    A shallow embedding of [src/core/expert.py], [src/core/chain.py] and
    [src/core/iteration.py], and the properties of the orchestrator stated
    over it.

    Conventions of the embedding:
    - a Python [str] is the list of its code points ([list N]): [len], slicing
      and [count] work on code points, as in Python;
    - a Python [int] is a [Z]; the consensus score, a Python [float], is an
      exact rational ([Q]): the model leaves binary64 rounding out;
    - code that may raise returns a [result];
    - the outside world (model backend, search providers, the experts
      directory, [json.loads], [str.lower]) is a parameter of the model. *)

From Stdlib Require Import String Ascii.
From Stdlib Require Import ZArith NArith QArith Qminmax.
From Stdlib Require Import List Bool Lia Permutation Sorted.
From Stdlib Require DecimalString.
Import ListNotations.
Close Scope Q_scope.

Set Implicit Arguments.
Set Warnings "-register-all".

(** * Python built-ins used by the sources *)

Module Py.

(** A string is the sequence of its Unicode code points. *)
Definition str := list N.

(** An ASCII-only literal of the sources. *)
Definition lit (s : string) : str := map N_of_ascii (list_ascii_of_string s).

Definition str_eqb (a b : str) : bool :=
  if list_eq_dec N.eq_dec a b then true else false.

(** Exceptions.  [ProviderError] stands for whatever an external provider
    (model backend, search plugin) raises.  [ExpertAnalysisFailed] is the
    round-level error of the specification's taxonomy; no code path of the
    sources constructs it. *)
Inductive exn : Type :=
| ValueError (msg : str)
| TypeError (msg : str)
| AttributeError (msg : str)
| ProviderError (tag : N)
| ExpertAnalysisFailed (expert_name : str) (cause : exn).

Inductive result (A : Type) : Type :=
| Ok (a : A)
| Raise (e : exn).
Arguments Ok {A} a.
Arguments Raise {A} e.

Definition bind {A B} (r : result A) (k : A -> result B) : result B :=
  match r with
  | Ok a => k a
  | Raise e => Raise e
  end.

Notation "x <- r ;; k" := (bind r (fun x => k))
  (at level 61, r at next level, right associativity).

(** [s[:n]] on a list or a string. *)
Definition slice_to {A} (n : Z) (l : list A) : list A :=
  if (0 <=? n)%Z then firstn (Z.to_nat n) l
  else firstn (length l - Z.to_nat (- n)) l.

(** [s[a:b]] for [0 <= a]. *)
Definition slice {A} (a b : Z) (l : list A) : list A :=
  skipn (Z.to_nat a) (slice_to b l).

(** [s.startswith(p)]. *)
Fixpoint prefixb (p s : str) : bool :=
  match p, s with
  | [], _ => true
  | _ :: _, [] => false
  | a :: p', b :: s' => N.eqb a b && prefixb p' s'
  end.

(** [sub in s]. *)
Fixpoint contains (sub s : str) : bool :=
  prefixb sub s ||
  match s with
  | [] => false
  | _ :: s' => contains sub s'
  end.

(** [s.find(sub)] for a non-empty [sub]: lowest index of an occurrence,
    [-1] when there is none. *)
Fixpoint find (sub s : str) : Z :=
  if prefixb sub s then 0%Z
  else match s with
       | [] => (-1)%Z
       | _ :: s' => let i := find sub s' in
                    if (i <? 0)%Z then (-1)%Z else (i + 1)%Z
       end.

(** [s.rfind(sub)] for a non-empty [sub]: highest index of an occurrence,
    [-1] when there is none. *)
Fixpoint rfind (sub s : str) : Z :=
  match s with
  | [] => if prefixb sub [] then 0%Z else (-1)%Z
  | _ :: s' => let i := rfind sub s' in
               if (0 <=? i)%Z then (i + 1)%Z
               else if prefixb sub s then 0%Z else (-1)%Z
  end.

(** [s.count(sub)]: the number of non-overlapping occurrences, scanning from
    the left.  [skip] is the number of characters still covered by the last
    occurrence counted. *)
Fixpoint count_from (sub s : str) (skip : nat) : nat :=
  match s with
  | [] => 0
  | _ :: s' =>
      match skip with
      | S k => count_from sub s' k
      | O => if prefixb sub s
             then S (count_from sub s' (length sub - 1))
             else count_from sub s' 0
      end
  end.

Definition count (s sub : str) : nat :=
  match sub with
  | [] => S (length s)
  | _ :: _ => count_from sub s 0
  end.

(** [c.isspace()]. *)
Definition isspace (c : N) : bool :=
  ((9 <=? c) && (c <=? 13) || (28 <=? c) && (c <=? 32) ||
   (c =? 133) || (c =? 160) || (c =? 5760) ||
   (8192 <=? c) && (c <=? 8202) ||
   (c =? 8232) || (c =? 8233) || (c =? 8239) || (c =? 8287) ||
   (c =? 12288))%N.

(** [s.split()]: the maximal runs of non-whitespace characters.  [cur] is the
    run being read. *)
Fixpoint split_from (s cur : str) : list str :=
  match s with
  | [] => match cur with [] => [] | _ => [cur] end
  | c :: s' =>
      if isspace c
      then match cur with
           | [] => split_from s' []
           | _ => cur :: split_from s' []
           end
      else split_from s' (cur ++ [c])
  end.

Definition split (s : str) : list str := split_from s [].

(** [sep.join(parts)]. *)
Fixpoint join (sep : str) (parts : list str) : str :=
  match parts with
  | [] => []
  | [p] => p
  | p :: rest => p ++ sep ++ join sep rest
  end.

(** [str.lower] on strings whose cased characters are ASCII letters. *)
Definition ascii_lower (s : str) : str :=
  map (fun c => if ((65 <=? c) && (c <=? 90))%N then (c + 32)%N else c) s.

(** [l.sort(key=key)]: a stable ascending sort.  A stable sort has one
    possible result, so insertion stands for Python's merge sort. *)
Section Sort.
Variable A : Type.
Variable key : A -> Z.

Fixpoint insert_by (x : A) (l : list A) : list A :=
  match l with
  | [] => [x]
  | y :: l' => if (key x <=? key y)%Z then x :: y :: l'
               else y :: insert_by x l'
  end.

Fixpoint sort_by (l : list A) : list A :=
  match l with
  | [] => []
  | x :: l' => insert_by x (sort_by l')
  end.
End Sort.

(** An insertion-ordered [dict] with string keys: the bindings in insertion
    order, each key once. *)
Definition dict (V : Type) := list (str * V).

(** [d[k] = v]: an existing key keeps its place. *)
Fixpoint dict_set {V} (k : str) (v : V) (d : dict V) : dict V :=
  match d with
  | [] => [(k, v)]
  | (k', v') :: d' => if str_eqb k k' then (k, v) :: d'
                      else (k', v') :: dict_set k v d'
  end.

(** [d.get(k)]. *)
Fixpoint dict_get {V} (k : str) (d : dict V) : option V :=
  match d with
  | [] => None
  | (k', v) :: d' => if str_eqb k k' then Some v else dict_get k d'
  end.

(** [list(d.values())]. *)
Definition dict_values {V} (d : dict V) : list V := map snd d.

(** Truth value of a dict or list: non-empty. *)
Definition nonempty {A} (l : list A) : bool :=
  match l with [] => false | _ :: _ => true end.

End Py.

Import Py.

(** * [src/core/expert.py]: the expert catalog *)

Module ExpertCatalog.

Record ExpertMetadata : Type := {
  emoji : str;
  priority : Z;
  domains : list str
}.

Record Expert : Type := {
  name : str;
  description : str;
  metadata : ExpertMetadata;
  system_prompt : str;
  source_path : option str
}.

Section Matching.
(** [str.lower], the Unicode lower-casing of the interpreter. *)
Variable lower : str -> str.

(** [Expert.matches_query]: the two loops return [True] at the first hit. *)
Definition matches_query (self : Expert) (query : str) : bool :=
  let query_lower := lower query in
  existsb (fun domain => contains (lower domain) query_lower)
          (domains (metadata self))
  || existsb (fun word => (3 <? length word)%nat && contains word query_lower)
             (split (lower (description self))).
End Matching.

(** The experts directory as [load_all] sees it.  An entry of the directory is
    skipped when it is not a directory or holds no [EXPERT.md]; otherwise
    [parse_expert_file] returns an expert or raises. *)
Inductive dir_entry : Type :=
| NotADir
| NoExpertFile
| ExpertFile (parsed : result Expert).

(** [experts_dir.exists()] is false, or [experts_dir.iterdir()] lists the
    entries in this order. *)
Inductive experts_dir : Type :=
| Missing
| Directory (entries : list dir_entry).

Record ExpertLoader : Type := {
  dir : experts_dir;
  _cache : dict Expert
}.

(** The loop of [load_all] over the directory: a parsed expert is stored in
    the cache under its name and appended to [experts]; an entry whose parse
    raises is reported and skipped. *)
Fixpoint scan (entries : list dir_entry) (cache : dict Expert)
         (experts : list Expert) : dict Expert * list Expert :=
  match entries with
  | [] => (cache, experts)
  | ExpertFile (Ok expert) :: rest =>
      scan rest (dict_set (name expert) expert cache) (experts ++ [expert])
  | _ :: rest => scan rest cache experts
  end.

(** [ExpertLoader.load_all]: the list returned and the loader afterwards. *)
Definition load_all (self : ExpertLoader) (reload : bool)
  : list Expert * ExpertLoader :=
  if nonempty (_cache self) && negb reload
  then (dict_values (_cache self), self)
  else
    match dir self with
    | Missing => ([], {| dir := dir self; _cache := [] |})
    | Directory entries =>
        let '(cache, experts) := scan entries [] [] in
        (sort_by (fun x => priority (metadata x)) experts,
         {| dir := dir self; _cache := cache |})
    end.

(** [ExpertLoader.get_expert]. *)
Definition get_expert (self : ExpertLoader) (nm : str)
  : option Expert * ExpertLoader :=
  let self' := if nonempty (_cache self) then self
               else snd (load_all self false) in
  (dict_get nm (_cache self'), self').

(** [ExpertLoader.find_relevant_experts]. *)
Definition find_relevant_experts (lower : str -> str) (self : ExpertLoader)
           (query : str) (max_experts : Z) : list Expert * ExpertLoader :=
  let '(all_experts, self') := load_all self false in
  let scored :=
    map (fun expert =>
           if matches_query lower expert query
           then (expert, priority (metadata expert))
           else (expert, (priority (metadata expert) + 100)%Z))
        all_experts in
  let scored := sort_by snd scored in
  (map fst (slice_to max_experts scored), self').

End ExpertCatalog.

(** * [src/core/chain.py]: one call of the analysis chain *)

Module Chain.
Import ExpertCatalog.

(** The [timestamp] that [AnalysisResult] takes from the clock is left out;
    progress messages ([log]) are output only and left out as well. *)
Record SearchResult : Type := {
  title : str;
  url : str;
  snippet : str;
  content : option str
}.

Record ExpertAnalysis : Type := {
  expert_name : str;
  expert_emoji : str;
  analysis : str;
  key_points : list str
}.

Record AnalysisResult : Type := {
  question : str;
  search_results : list SearchResult;
  expert_analyses : list ExpertAnalysis;
  consensus : str;
  iteration_count : Z
}.

(** The arguments of the [@dataclass] decorator that decide hashing. *)
Record dataclass_options : Type := {
  dc_eq : bool;
  dc_frozen : bool;
  dc_unsafe_hash : bool
}.

(** [@dataclass] without arguments, as on [SearchResult]. *)
Definition plain_dataclass : dataclass_options :=
  {| dc_eq := true; dc_frozen := false; dc_unsafe_hash := false |}.

(** Whether instances have a [__hash__]: with [eq] and without [frozen] or
    [unsafe_hash] the decorator sets [__hash__] to [None]. *)
Definition dataclass_hashable (o : dataclass_options) : bool :=
  dc_unsafe_hash o || negb (dc_eq o) || dc_frozen o.

Definition SearchResult_eq_dec (a b : SearchResult) : {a = b} + {a <> b}.
Proof.
  decide equality; try apply (list_eq_dec N.eq_dec).
  decide equality; apply (list_eq_dec N.eq_dec).
Defined.

(** [list(set(results))] on search results.  Building the set hashes every
    element, so it raises on the first element of an unhashable class; the
    empty list needs no hash.  (For a hashable class the order of the result
    would be the set's; first occurrences stand for it.) *)
Definition list_set (results : list SearchResult)
  : result (list SearchResult) :=
  match results with
  | [] => Ok []
  | _ :: _ =>
      if dataclass_hashable plain_dataclass
      then Ok (nodup SearchResult_eq_dec results)
      else Raise (TypeError (lit "unhashable type: 'SearchResult'"))
  end.

(** [asyncio.gather] over the tasks, with the default [return_exceptions=False]:
    the values of all tasks in the order of the tasks, or the exception of
    the task that fails first.  [order] lists the tasks in the order in which
    they complete; a failed task missing from it is found in task order. *)
Fixpoint collect {A} (tasks : list (result A)) : result (list A) :=
  match tasks with
  | [] => Ok []
  | Ok a :: rest => bind (collect rest) (fun l => Ok (a :: l))
  | Raise e :: _ => Raise e
  end.

Fixpoint first_raised {A} (order : list nat) (tasks : list (result A))
  : option exn :=
  match order with
  | [] => None
  | i :: order' =>
      match nth_error tasks i with
      | Some (Raise e) => Some e
      | _ => first_raised order' tasks
      end
  end.

Definition gather {A} (order : list nat) (tasks : list (result A))
  : result (list A) :=
  match collect tasks with
  | Ok values => Ok values
  | Raise e0 =>
      Raise (match first_raised order tasks with
             | Some e => e
             | None => e0
             end)
  end.

(** [enumerate]. *)
Definition enumerate {A} (l : list A) : list (nat * A) :=
  combine (seq 0 (length l)) l.

(** The message of the error raised when no expert is available. *)
Definition no_experts_message : str :=
  [27809; 26377; 25214; 21040; 21487; 29992; 30340; 19987; 23478]%N.

(** Heading of the market-data section of the context. *)
Definition stock_header : str :=
  [35; 35; 32; 128202; 32; 23454; 26102; 34892; 24773; 25968; 25454; 10;
   10]%N.

(** Heading of the search section of the context. *)
Definition search_header : str :=
  [35; 35; 32; 128269; 32; 25628; 32034; 32467; 26524; 10; 10]%N.

(** The placeholder used when there is no context at all. *)
Definition no_context : str :=
  [26242; 26080; 39069; 22806; 32972; 26223; 20449; 24687]%N.

(** Appended to the question for the supplemental search. *)
Definition supplement_suffix : str :=
  [32; 35814; 32454; 20998; 26512; 32; 26368; 26032; 25968; 25454]%N.

(** Ends the heading of an analysis in the consensus prompt. *)
Definition analysis_heading_suffix : str :=
  [32; 30340; 20998; 26512; 58; 10]%N.

(** The consensus prompt up to the question. *)
Definition consensus_prompt_head : str :=
  [20320; 26159; 19968; 20301; 36164; 28145; 30340; 20998; 26512; 24635;
   32467; 19987; 23478; 12290; 35831; 32508; 21512; 20197; 19979; 22810;
   20301; 19987; 23478; 30340; 20998; 26512; 65292; 32473; 20986; 26368;
   32456; 30340; 32508; 21512; 32467; 35770; 12290; 10; 10; 35; 35; 32;
   21407; 22987; 38382; 39064; 10]%N.

(** The consensus prompt between the question and the analyses. *)
Definition consensus_prompt_middle : str :=
  [10; 10; 35; 35; 32; 21508; 19987; 23478; 20998; 26512; 10]%N.

(** The consensus prompt after the analyses. *)
Definition consensus_prompt_tail : str :=
  [10; 10; 35; 35; 32; 32508; 21512; 35201; 27714; 10; 49; 46; 32; 25214;
   20986; 21508; 19987; 23478; 35266; 28857; 30340; 20849; 35782; 28857; 10;
   50; 46; 32; 25351; 20986; 23384; 22312; 20998; 27495; 30340; 22320; 26041;
   24182; 32473; 20986; 21028; 26029; 10; 51; 46; 32; 32508; 21512; 24418;
   25104; 26368; 32456; 32467; 35770; 21644; 24314; 35758; 10; 52; 46; 32;
   32473; 20986; 39118; 38505; 25552; 31034; 10; 10; 35831; 32473; 20986;
   20320; 30340; 32508; 21512; 32467; 35770; 65306]%N.

Record AnalysisChain : Type := {
  expert_loader : ExpertLoader;
  max_iterations : Z
}.

Section Run.
Variable lower : str -> str.

(** The world outside the chain.  [plugin_search k query engine] is the
    [k]-th call of [plugin_manager.search] of the run;
    [llm_analyze i t question prompt context] is the call of
    [llm_manager.analyze_with_expert] for task [t] of round [i];
    [completion i] is the order in which the tasks of round [i] end. *)
Variable HAS_STOCK_PLUGIN : bool.
Variable get_stock_context : str -> result str.
Variable plugin_search : nat -> str -> option str -> result (list SearchResult).
Variable llm_analyze : nat -> nat -> str -> str -> str -> result str.
Variable llm_generate : str -> result str.
Variable completion : nat -> list nat.

(** [AnalysisChain.search]: a failing provider gives no results. *)
Definition search (k : nat) (query : str) (important : bool)
  : list SearchResult :=
  let engine := if important then Some (lit "tavily") else None in
  match plugin_search k query engine with
  | Ok results => results
  | Raise _ => []
  end.

(** [AnalysisChain.analyze_with_expert]. *)
Definition analyze_with_expert (i t : nat) (expert : Expert)
           (question context : str) : result ExpertAnalysis :=
  analysis <- llm_analyze i t question (system_prompt expert) context ;;
  Ok {| expert_name := name expert;
        expert_emoji := emoji (metadata expert);
        analysis := analysis;
        key_points := [] |}.

(** [AnalysisChain.generate_consensus]. *)
Definition generate_consensus (question : str)
           (analyses : list ExpertAnalysis) : result str :=
  let analyses_text :=
    join [10; 10]%N
         (map (fun a => lit "### " ++ expert_emoji a ++ lit " " ++
                        expert_name a ++ analysis_heading_suffix ++
                        analysis a)
              analyses) in
  llm_generate (consensus_prompt_head ++ question ++
                consensus_prompt_middle ++ analyses_text ++
                consensus_prompt_tail).

(** The experts named by the caller: unknown names are dropped.  (The
    comprehension calls [get_expert] twice for a name, with the same
    answer both times.) *)
Fixpoint lookup_names (loader : ExpertLoader) (names : list str)
  : list Expert * ExpertLoader :=
  match names with
  | [] => ([], loader)
  | nm :: rest =>
      let '(found, loader1) := get_expert loader nm in
      let '(others, loader2) := lookup_names loader1 rest in
      (match found with
       | Some expert => expert :: others
       | None => others
       end, loader2)
  end.

(** A search result as it appears in the context. *)
Definition format_result (r : SearchResult) : str :=
  lit "**" ++ title r ++ lit "**" ++ [10]%N ++ snippet r.

(** Lines 251-255 of [run]: one fan-out of the analysis over the experts,
    all with the same question and context. *)
Definition run_round (i : nat) (experts : list Expert)
           (question context : str) : result (list ExpertAnalysis) :=
  gather (completion i)
         (map (fun '(t, expert) =>
                 analyze_with_expert i t expert question context)
              (enumerate experts)).

Record round_state : Type := {
  all_analyses : list ExpertAnalysis;
  found : list SearchResult;
  context : str
}.

(** The body of the [for] loop of [run], for the values [its] of
    [iteration] that are left. *)
Fixpoint rounds (self : AnalysisChain) (experts : list Expert)
         (question : str) (its : list nat) (st : round_state)
  : result round_state :=
  match its with
  | [] => Ok st
  | iteration :: rest =>
      analyses <- run_round iteration experts question (context st) ;;
      let st :=
        if (Z.of_nat iteration <? max_iterations self - 1)%Z
        then
          let supplement_query := question ++ supplement_suffix in
          let new_results := search (S iteration) supplement_query true in
          if nonempty new_results
          then {| all_analyses := analyses;
                  found := found st ++ slice_to 3 new_results;
                  context := context st ++ [10; 10]%N ++
                             join [10; 10]%N
                                  (map format_result
                                       (slice_to 3 new_results)) |}
          else {| all_analyses := analyses;
                  found := found st;
                  context := context st |}
        else {| all_analyses := analyses;
                found := found st;
                context := context st |} in
      rounds self experts question rest st
  end.

(** [AnalysisChain.run]: the result, and the chain with the cache of its
    loader as the call leaves it. *)
Definition run (self : AnalysisChain) (question : str)
           (expert_names : option (list str))
  : result AnalysisResult * AnalysisChain :=
  let '(experts, loader) :=
    match expert_names with
    | Some ((_ :: _) as names) => lookup_names (expert_loader self) names
    | _ => find_relevant_experts lower (expert_loader self) question 4
    end in
  let self' := {| expert_loader := loader;
                  max_iterations := max_iterations self |} in
  if negb (nonempty experts)
  then (Raise (ValueError no_experts_message), self')
  else
    let stock_context :=
      if HAS_STOCK_PLUGIN
      then match get_stock_context question with
           | Ok s => s
           | Raise _ => []
           end
      else [] in
    let search_results := search 0 question false in
    let search_context :=
      join [10; 10]%N (map format_result (slice_to 5 search_results)) in
    let context := [] in
    let context :=
      if nonempty stock_context
      then context ++ stock_header ++ stock_context ++ [10; 10]%N
      else context in
    let context :=
      if nonempty search_context
      then context ++ search_header ++ search_context
      else context in
    let context := if nonempty context then context else no_context in
    (st <- rounds self experts question
                  (seq 0 (Z.to_nat (max_iterations self)))
                  {| all_analyses := [];
                     found := search_results;
                     context := context |} ;;
     consensus <- generate_consensus question (all_analyses st) ;;
     Ok {| question := question;
           search_results := found st;
           expert_analyses := all_analyses st;
           consensus := consensus;
           iteration_count := max_iterations self |},
     self').

End Run.

End Chain.

(** * [src/core/iteration.py]: the iteration controller *)

Module Iteration.
Import ExpertCatalog Chain.

(** What [json.loads] can return. *)
Inductive pyfloat : Type :=
| Finite (q : Q)
| Infinite (negative : bool)
| NaN.

Inductive json : Type :=
| JNone
| JBool (b : bool)
| JInt (z : Z)
| JFloat (f : pyfloat)
| JStr (s : str)
| JList (items : list json)
| JDict (d : dict json).

(** The truth value of a decoded value, as [not v] tests it. *)
Definition truthy (v : json) : bool :=
  match v with
  | JNone => false
  | JBool b => b
  | JInt z => negb (z =? 0)%Z
  | JFloat (Finite q) => negb (Qeq_bool q 0)
  | JFloat _ => true
  | JStr s => nonempty s
  | JList items => nonempty items
  | JDict d => nonempty d
  end.

(** The system prompt of the gap critic. *)
Definition gap_prompt : str :=
  [20320; 26159; 19968; 20301; 30740; 31350; 26041; 27861; 19987; 23478;
   65292; 36127; 36131; 35782; 21035; 20998; 26512; 20013; 30340; 20449;
   24687; 32570; 21475; 12290; 10; 10; 35831; 20998; 26512; 21508; 19987;
   23478; 30340; 24847; 35265; 65292; 25214; 20986; 65306; 10; 49; 46; 32;
   21738; 20123; 35266; 28857; 23384; 22312; 20998; 27495; 65311; 10; 50; 46;
   32; 21738; 20123; 20449; 24687; 36824; 19981; 22815; 20805; 20998; 65311;
   10; 51; 46; 32; 38656; 35201; 34917; 20805; 25628; 32034; 20160; 20040;
   20869; 23481; 65311; 10; 10; 35831; 29992; 74; 83; 79; 78; 26684; 24335;
   36755; 20986; 65306; 10; 123; 10; 32; 32; 34; 103; 97; 112; 115; 34; 58;
   32; 91; 34; 32570; 21475; 49; 34; 44; 32; 34; 32570; 21475; 50; 34; 93;
   44; 10; 32; 32; 34; 113; 117; 101; 114; 105; 101; 115; 34; 58; 32; 91; 34;
   34917; 20805; 25628; 32034; 49; 34; 44; 32; 34; 34917; 20805; 25628;
   32034; 50; 34; 93; 10; 125]%N.

(** The gap query up to the question. *)
Definition gap_query_head : str :=
  [21407; 22987; 38382; 39064; 65306]%N.

(** The gap query between the question and the analyses. *)
Definition gap_query_middle : str :=
  [10; 10; 21508; 19987; 23478; 20998; 26512; 65306; 10]%N.

(** The gap query after the analyses. *)
Definition gap_query_tail : str :=
  [10; 10; 35831; 35782; 21035; 20449; 24687; 32570; 21475; 21644; 38656;
   35201; 34917; 20805; 30340; 25628; 32034; 12290]%N.

(** Placed between the question and the supplemental queries. *)
Definition supplement_heading : str :=
  [10; 10; 34917; 20805; 20449; 24687; 38656; 27714; 65306]%N.

Definition agreement_keywords : list str :=
  [ [21516; 24847]%N;
    [19968; 33268]%N;
    [30456; 20284]%N;
    [25903; 25345]%N;
    [35748; 21516]%N;
    lit "agree";
    lit "similar" ].

Definition disagreement_keywords : list str :=
  [ [19981; 21516; 24847]%N;
    [20998; 27495]%N;
    [21453; 23545]%N;
    [36136; 30097]%N;
    lit "disagree";
    lit "differ" ].

(** The prompt of [_identify_gaps]: each analysis cut to 500 characters. *)
Definition gap_query (query : str) (analyses : list ExpertAnalysis) : str :=
  let analyses_text :=
    join [10; 10]%N
         (map (fun a => lit "**" ++ expert_name a ++ lit "**: " ++
                        slice_to 500 (analysis a) ++ lit "...")
              analyses) in
  gap_query_head ++ query ++ gap_query_middle ++ analyses_text ++
  gap_query_tail.

Record IterativeAnalyzer : Type := {
  max_iterations : Z;
  consensus_threshold : Q
}.

(** [IterativeAnalyzer.__init__]: [max_iterations or config.max_iterations]
    takes the configured value when the argument is [None] or [0]. *)
Definition __init__ (max_iterations : option Z) (config_max_iterations : Z)
           (consensus_threshold : Q) : IterativeAnalyzer :=
  {| max_iterations :=
       match max_iterations with
       | Some m => if (m =? 0)%Z then config_max_iterations else m
       | None => config_max_iterations
       end;
     consensus_threshold := consensus_threshold |}.

(** How a run ended.  The code returns the result only; the terminal state is
    recorded here to state which [return] was taken. *)
Inductive terminal : Type :=
| CONSENSUS_REACHED
| NO_NEW_QUERIES
| BUDGET_EXHAUSTED.

(** What a run did: the calls of [chain.run] that returned, the [return]
    reached ([None] when an exception left the loop before any), the search
    results accumulated, and what [run] returned or raised. *)
Record outcome : Type := {
  rounds_executed : nat;
  state : option terminal;
  accumulated : list SearchResult;
  returned : result (option AnalysisResult)
}.

Section Controller.
Variable lower : str -> str.

(** The world outside the controller: [json.loads] ([None] when it
    raises), the [k]-th call of [chain.run], and the call of
    [llm.generate] made after round [k]. *)
Variable json_loads : str -> option json.
Variable chain_run : nat -> str -> option (list str) -> result AnalysisResult.
Variable llm_generate : nat -> str -> str -> result str.

(** Lines 93-110 of [_identify_gaps]: the parsing of the response.  Every
    exception raised inside the [try] is caught: a failing [json.loads],
    and the [AttributeError] of [data.get] when the value decoded is not a
    dict. *)
Definition parse_gaps (response : str) : json * json :=
  let start := find (lit "{") response in
  let end_ := (rfind (lit "}") response + 1)%Z in
  if (0 <=? start)%Z && (start <? end_)%Z
  then
    match json_loads (slice start end_ response) with
    | Some (JDict data) =>
        (match dict_get (lit "gaps") data with
         | Some v => v
         | None => JList []
         end,
         match dict_get (lit "queries") data with
         | Some v => v
         | None => JList []
         end)
    | _ => (JList [JStr (slice_to 200 response)], JList [])
    end
  else (JList [], JList []).

(** [IterativeAnalyzer._identify_gaps]: the response of the model goes
    through [parse_gaps]; an exception of [llm.generate] is not caught. *)
Definition _identify_gaps (k : nat) (query : str)
           (analyses : list ExpertAnalysis) : result (json * json) :=
  response <- llm_generate k (gap_query query analyses) gap_prompt ;;
  Ok (parse_gaps response).

(** The two inner loops of [_calculate_consensus] for one text. *)
Definition count_all (text : str) (keywords : list str) (total : nat)
  : nat :=
  fold_left (fun total kw => total + count text kw) keywords total.

(** The outer loop: [(total_agreement, total_disagreement)] after it. *)
Fixpoint keyword_totals (analyses : list ExpertAnalysis)
         (total_agreement total_disagreement : nat) : nat * nat :=
  match analyses with
  | [] => (total_agreement, total_disagreement)
  | a :: rest =>
      let text := lower (analysis a) in
      keyword_totals rest
        (count_all text agreement_keywords total_agreement)
        (count_all text disagreement_keywords total_disagreement)
  end.

(** [IterativeAnalyzer._calculate_consensus]. *)
Definition _calculate_consensus (analyses : list ExpertAnalysis) : Q :=
  if (length analyses <? 2)%nat then 1%Q
  else
    let '(total_agreement, total_disagreement) :=
      keyword_totals analyses 0 0 in
    if (total_agreement + total_disagreement =? 0)%nat then (7 # 10)%Q
    else
      let score :=
        (inject_Z (Z.of_nat total_agreement) /
         inject_Z (Z.of_nat (total_agreement + total_disagreement + 1)))%Q in
      Qmin 1 (Qmax 0 ((1 # 2) + score * (1 # 2)))%Q.

(** The two assignments before each [return result]: the count of rounds,
    then the accumulated results through [list(set(...))]. *)
Definition finish (r : AnalysisResult) (iteration : Z)
           (all_search_results : list SearchResult)
  : result (option AnalysisResult) :=
  deduplicated <- list_set all_search_results ;;
  Ok (Some {| question := question r;
              search_results := deduplicated;
              expert_analyses := expert_analyses r;
              consensus := consensus r;
              iteration_count := iteration |}).

(** ['; '.join(supplemental_queries[:2])] on a decoded value: a list must
    hold strings, a string is joined character by character, and a value
    that cannot be sliced raises ([TypeError]; for a dict, [KeyError] in
    interpreters where a slice is hashable). *)
Fixpoint strings (items : list json) : result (list str) :=
  match items with
  | [] => Ok []
  | JStr s :: rest => bind (strings rest) (fun l => Ok (s :: l))
  | _ :: _ => Raise (TypeError (lit "sequence item: expected str instance"))
  end.

Definition join_top2 (supplemental_queries : json) : result str :=
  match supplemental_queries with
  | JList items =>
      parts <- strings (slice_to 2 items) ;;
      Ok (join (lit "; ") parts)
  | JStr s => Ok (join (lit "; ") (map (fun c => [c]) (slice_to 2 s)))
  | _ => Raise (TypeError (lit "object is not subscriptable"))
  end.

(** Lines 208-212 of [run], behind the loop: the last result, if there is
    one, gets the count of rounds and the accumulated results. *)
Definition after_loop (k : nat) (iteration : Z)
           (all_search_results : list SearchResult)
           (result_ : option AnalysisResult) : outcome :=
  {| rounds_executed := k;
     state := Some BUDGET_EXHAUSTED;
     accumulated := all_search_results;
     returned := match result_ with
                 | Some r => finish r iteration all_search_results
                 | None => Ok None
                 end |}.

(** The [while] loop of [run].  [fuel] bounds the number of rounds still
    to run; [k] counts the calls of [chain.run] that returned. *)
Fixpoint loop (self : IterativeAnalyzer) (query : str)
         (experts : option (list str)) (fuel : nat) (k : nat)
         (iteration : Z) (current_query : str)
         (all_search_results : list SearchResult)
         (result_ : option AnalysisResult) : outcome :=
  match fuel with
  | O => after_loop k iteration all_search_results result_
  | S fuel' =>
      if (iteration <? max_iterations self)%Z
      then
        let iteration := (iteration + 1)%Z in
        match chain_run k current_query experts with
        | Raise e =>
            {| rounds_executed := k; state := None;
               accumulated := all_search_results; returned := Raise e |}
        | Ok r =>
            let all_search_results :=
              all_search_results ++ search_results r in
            let consensus_score :=
              _calculate_consensus (expert_analyses r) in
            if Qle_bool (consensus_threshold self) consensus_score
            then
              {| rounds_executed := S k;
                 state := Some CONSENSUS_REACHED;
                 accumulated := all_search_results;
                 returned := finish r iteration all_search_results |}
            else if (iteration <? max_iterations self)%Z
            then
              match _identify_gaps k query (expert_analyses r) with
              | Raise e =>
                  {| rounds_executed := S k; state := None;
                     accumulated := all_search_results;
                     returned := Raise e |}
              | Ok (gaps, supplemental_queries) =>
                  if negb (truthy supplemental_queries)
                  then
                    {| rounds_executed := S k;
                       state := Some NO_NEW_QUERIES;
                       accumulated := all_search_results;
                       returned := finish r iteration all_search_results |}
                  else
                    match join_top2 supplemental_queries with
                    | Raise e =>
                        {| rounds_executed := S k; state := None;
                           accumulated := all_search_results;
                           returned := Raise e |}
                    | Ok digest =>
                        loop self query experts fuel' (S k) iteration
                             (query ++ supplement_heading ++ digest)
                             all_search_results (Some r)
                    end
              end
            else
              loop self query experts fuel' (S k) iteration current_query
                   all_search_results (Some r)
        end
      else after_loop k iteration all_search_results result_
  end.

(** [IterativeAnalyzer.run]: the loop never needs more than
    [max_iterations] rounds of fuel (see [loop_fuel]). *)
Definition run (self : IterativeAnalyzer) (query : str)
           (experts : option (list str)) : outcome :=
  loop self query experts (Z.to_nat (max_iterations self)) 0 0 query []
       None.

End Controller.

End Iteration.

Import ExpertCatalog Chain.

(** * Predicates used to state the properties *)

(** [sub] occurs in [s]. *)
Definition Substring (sub s : str) : Prop :=
  exists pre post, s = pre ++ sub ++ post.

(** The expert is relevant to the query: a domain keyword occurs in the
    query, or a word of the description longer than 3 characters does, all
    in lower case. *)
Definition Matches (lower : str -> str) (e : Expert) (query : str) : Prop :=
  (exists d, In d (domains (metadata e)) /\
             Substring (lower d) (lower query)) \/
  (exists w, In w (split (lower (description e))) /\
             (3 < length w)%nat /\ Substring w (lower query)).

(** The score [find_relevant_experts] sorts an expert by. *)
Definition effective_key (lower : str -> str) (query : str) (e : Expert) : Z :=
  if matches_query lower e query then priority (metadata e)
  else (priority (metadata e) + 100)%Z.

(** Ascending by [key]. *)
Definition ascending {A} (key : A -> Z) (l : list A) : Prop :=
  StronglySorted (fun a b => (key a <= key b)%Z) l.

(** The elements of [l] with key [k], in the order of [l]. *)
Definition with_key {A} (key : A -> Z) (k : Z) (l : list A) : list A :=
  filter (fun a => (key a =? k)%Z) l.

(** The response has a ['{'] and its last ['}'] lies behind the first
    ['{']. *)
Definition has_braces (response : str) : Prop :=
  (0 <= find (lit "{") response)%Z /\
  (find (lit "{") response < rfind (lit "}") response + 1)%Z.

(** The text from the first ['{'] to the last ['}']. *)
Definition delimited (response : str) : str :=
  slice (find (lit "{") response) (rfind (lit "}") response + 1) response.

(** The response holds a JSON object between its first ['{'] and its last
    ['}']. *)
Definition Parseable (json_loads : str -> option Iteration.json)
           (response : str) : Prop :=
  has_braces response /\
  exists d, json_loads (delimited response) = Some (Iteration.JDict d).

(** The occurrences of [kw] counted over the analyses of a round. *)
Definition occurrences (lower : str -> str) (kw : str)
           (analyses : list ExpertAnalysis) : nat :=
  list_sum (map (fun a => count (lower (analysis a)) kw) analyses).

(** The calls of [chain.run] numbered [k], [k + 1], ... were made with the
    queries [queries], in this order, and returned [results]. *)
Fixpoint Called (chain_run : nat -> str -> option (list str) ->
                             result AnalysisResult)
         (experts : option (list str)) (k : nat) (queries : list str)
         (results : list AnalysisResult) : Prop :=
  match queries, results with
  | [], [] => True
  | q :: queries', r :: results' =>
      chain_run k q experts = Ok r /\
      Called chain_run experts (S k) queries' results'
  | _, _ => False
  end.

(** * Data of the examples *)

(** The two experts of the selection example, with any description. *)
Definition expert_A (description : str) : Expert :=
  {| name := lit "A"; description := description;
     metadata := {| emoji := []; priority := 1; domains := [lit "stock"] |};
     system_prompt := []; source_path := None |}.

Definition expert_B (description : str) : Expert :=
  {| name := lit "B"; description := description;
     metadata := {| emoji := []; priority := 2; domains := [lit "policy"] |};
     system_prompt := []; source_path := None |}.

(** A loader over a directory that holds these experts, not yet scanned. *)
Definition catalog_of (experts : list Expert) : ExpertLoader :=
  {| dir := Directory (map (fun e => ExpertFile (Ok e)) experts);
     _cache := [] |}.

Definition by_priority (e : Expert) : Z := priority (metadata e).

(** An analysis with the given text. *)
Definition analysis_of (text : str) : ExpertAnalysis :=
  {| expert_name := []; expert_emoji := []; analysis := text;
     key_points := [] |}.



Definition one_hit : SearchResult :=
  {| title := lit "T"; url := lit "http://t"; snippet := lit "S";
     content := None |}.

(** A chain whose every call returns the same hits and two analyses without
    any keyword. *)
Definition canned_chain (hits : list SearchResult) (k : nat) (q : str)
           (experts : option (list str)) : result AnalysisResult :=
  Ok {| question := q;
        search_results := hits;
        expert_analyses := [analysis_of (lit "up"); analysis_of (lit "down")];
        consensus := lit "mixed";
        iteration_count := 3 |}.

(** A model that answers the gap critic with the same text every time. *)
Definition canned_llm (response : str) (k : nat) (prompt system : str)
  : result str :=
  Ok response.

(** A decoder that rejects every text. *)
Definition no_json (text : str) : option Iteration.json := None.

(** * Further definitions: the catalog as a scan leaves it *)

(** [ExpertLoader.__init__]: the cache starts empty. *)
Definition new_loader (d : experts_dir) : ExpertLoader :=
  {| dir := d; _cache := [] |}.

(** The experts of the entries whose [EXPERT.md] parses, in the order of the
    directory. *)
Definition parsed (entries : list dir_entry) : list Expert :=
  flat_map (fun entry => match entry with
                         | ExpertFile (Ok expert) => [expert]
                         | _ => []
                         end) entries.

(** The experts a scan of the directory finds. *)
Definition catalog (d : experts_dir) : list Expert :=
  match d with
  | Missing => []
  | Directory entries => parsed entries
  end.

(** The expert with this name that comes last in a list. *)
Definition last_named (nm : str) (experts : list Expert) : option Expert :=
  List.find (fun e => str_eqb nm (name e)) (rev experts).

(** * [src/core/plugin.py]: the plugin manager *)

Module Plugins.

(** A plugin instance: its [name], whether it is an instance of
    [SearchPlugin] and of [ExportPlugin], and what its [search] and [export]
    methods answer.  [search k query max_results] is the answer to the
    [k]-th search of a run, [export content metadata] the answer for a
    content and the metadata given as a dict of strings. *)
Record Plugin : Type := {
  name : str;
  is_search : bool;
  is_export : bool;
  plugin_search : nat -> str -> Z -> result (list SearchResult);
  plugin_export : str -> dict str -> result str
}.

Record PluginManager : Type := {
  _plugins : dict Plugin;
  _search_plugins : dict Plugin;
  _export_plugins : dict Plugin
}.

(** [PluginManager.__init__]. *)
Definition empty : PluginManager :=
  {| _plugins := []; _search_plugins := []; _export_plugins := [] |}.

(** [PluginManager.register]. *)
Definition register (self : PluginManager) (plugin : Plugin)
  : PluginManager :=
  let plugins := dict_set (name plugin) plugin (_plugins self) in
  if is_search plugin
  then {| _plugins := plugins;
          _search_plugins :=
            dict_set (name plugin) plugin (_search_plugins self);
          _export_plugins := _export_plugins self |}
  else if is_export plugin
  then {| _plugins := plugins;
          _search_plugins := _search_plugins self;
          _export_plugins :=
            dict_set (name plugin) plugin (_export_plugins self) |}
  else {| _plugins := plugins;
          _search_plugins := _search_plugins self;
          _export_plugins := _export_plugins self |}.

(** [PluginManager.get_plugin], [get_search_plugin], [get_export_plugin]. *)
Definition get_plugin (self : PluginManager) (nm : str) : option Plugin :=
  dict_get nm (_plugins self).

Definition get_search_plugin (self : PluginManager) (nm : str)
  : option Plugin :=
  dict_get nm (_search_plugins self).

Definition get_export_plugin (self : PluginManager) (nm : str)
  : option Plugin :=
  dict_get nm (_export_plugins self).

(** [PluginManager.list_search_plugins], [list_export_plugins]. *)
Definition list_search_plugins (self : PluginManager) : list str :=
  map fst (_search_plugins self).

Definition list_export_plugins (self : PluginManager) : list str :=
  map fst (_export_plugins self).

(** [PluginManager.search]: the engine named, or the first search plugin
    registered when no engine (or the empty name) is given. *)
Definition search (self : PluginManager) (k : nat) (query : str)
           (engine : option str) (max_results : Z)
  : result (list SearchResult) :=
  match engine with
  | Some ((_ :: _) as engine) =>
      match get_search_plugin self engine with
      | Some plugin => plugin_search plugin k query max_results
      | None =>
          Raise (ValueError (lit "Search plugin '" ++ engine ++
                             lit "' not found"))
      end
  | _ =>
      match dict_values (_search_plugins self) with
      | [] => Raise (ValueError (lit "No search plugins registered"))
      | plugin :: _ => plugin_search plugin k query max_results
      end
  end.

(** [PluginManager.export]: [metadata or {}]. *)
Definition export (self : PluginManager) (content format_name : str)
           (metadata : option (dict str)) : result str :=
  match get_export_plugin self format_name with
  | Some plugin =>
      plugin_export plugin content
                    (match metadata with Some m => m | None => [] end)
  | None =>
      Raise (ValueError (lit "Export plugin '" ++ format_name ++
                         lit "' not found"))
  end.

(** The manager after registering the plugins in this order. *)
Definition register_all (plugins : list Plugin) : PluginManager :=
  fold_left register plugins empty.

End Plugins.

(** [AnalysisChain.search] over a plugin manager: [max_results] takes its
    default, 10. *)
Definition chain_search (pm : Plugins.PluginManager) (k : nat) (query : str)
           (important : bool) : list SearchResult :=
  Chain.search (fun k query engine => Plugins.search pm k query engine 10)
               k query important.

(** Lines 199-206 of [AnalysisChain.run]: the experts of a call. *)
Definition selected_experts (lower : str -> str) (self : AnalysisChain)
           (question : str) (expert_names : option (list str))
  : list Expert :=
  fst (match expert_names with
       | Some ((_ :: _) as names) => lookup_names (expert_loader self) names
       | _ => find_relevant_experts lower (expert_loader self) question 4
       end).

(** Lines 229-242 of [AnalysisChain.run]: the context of the first round,
    from the quotes and the results of the first search. *)
Definition first_context (stock_context : str)
           (search_results : list SearchResult) : str :=
  let search_context :=
    join [10; 10]%N (map format_result (slice_to 5 search_results)) in
  let context := [] in
  let context :=
    if nonempty stock_context
    then context ++ stock_header ++ stock_context ++ [10; 10]%N
    else context in
  let context :=
    if nonempty search_context
    then context ++ search_header ++ search_context
    else context in
  if nonempty context then context else no_context.

(** Lines 264-268 of [AnalysisChain.run]: the results that the supplemental
    search of round [i] adds, none in the last round. *)
Definition supplement (plugin_search : nat -> str -> option str ->
                                       result (list SearchResult))
           (self : AnalysisChain) (question : str) (i : nat)
  : list SearchResult :=
  if (Z.of_nat i <? Chain.max_iterations self - 1)%Z
  then slice_to 3 (Chain.search plugin_search (S i)
                                (question ++ supplement_suffix) true)
  else [].

(** * [plugins/data/stock.py]: the stock code of a question *)

Module Stock.

(** [StockDataPlugin.STOCK_ALIASES], in the order of the source. *)
Definition STOCK_ALIASES : dict str :=
  [ (lit "spacex", lit "us.RKLB");
    (lit "tesla", lit "us.TSLA");
    ([29305; 26031; 25289]%N, lit "us.TSLA");
    ([33150; 35759]%N, lit "hk00700");
    ([38463; 37324; 24052; 24052]%N, lit "hk09988");
    ([33541; 21488]%N, lit "sh600519");
    ([36149; 24030; 33541; 21488]%N, lit "sh600519");
    ([20013; 22269; 24179; 23433]%N, lit "sh601318");
    ([25307; 21830; 38134; 34892]%N, lit "sh600036");
    ([23425; 24503; 26102; 20195]%N, lit "sz300750") ].

(** [c] is one of the characters of the class [[0-9]]. *)
Definition is_digit (c : N) : bool := ((48 <=? c) && (c <=? 57))%N.

(** The text begins with [n] digits. *)
Fixpoint digits_at (n : nat) (s : str) : bool :=
  match n with
  | O => true
  | S n' => match s with
            | [] => false
            | c :: s' => is_digit c && digits_at n' s'
            end
  end.

(** [re.search] for a pattern made of the letters [prefix] and [n] digits:
    the leftmost match. *)
Fixpoint search_code (prefix : str) (n : nat) (s : str) : option str :=
  if prefixb prefix s && digits_at n (skipn (length prefix) s)
  then Some (firstn (length prefix + n) s)
  else match s with
       | [] => None
       | _ :: s' => search_code prefix n s'
       end.

(** [re.search] for the pattern of 5 or 6 digits: the leftmost match, with
    the sixth digit when there is one. *)
Fixpoint search_number (s : str) : option str :=
  if digits_at 5 s
  then Some (if digits_at 6 s then firstn 6 s else firstn 5 s)
  else match s with
       | [] => None
       | _ :: s' => search_number s'
       end.

(** [code.isdigit()] on a match of one of the patterns, which holds ASCII
    letters and digits only. *)
Definition isdigit (code : str) : bool :=
  nonempty code && forallb is_digit code.

(** Lines 56-63: a bare number gets the prefix of its market. *)
Definition complete (code : str) : str :=
  if isdigit code
  then
    if (length code =? 5)%nat then lit "hk" ++ code
    else if prefixb (lit "6") code then lit "sh" ++ code
    else if prefixb (lit "0") code || prefixb (lit "3") code
    then lit "sz" ++ code
    else code
  else code.

(** The loop over the patterns: the first pattern that matches decides. *)
Definition search_patterns (query_lower : str) : option str :=
  match search_code (lit "sh") 6 query_lower with
  | Some code => Some (complete code)
  | None =>
      match search_code (lit "sz") 6 query_lower with
      | Some code => Some (complete code)
      | None =>
          match search_code (lit "hk") 5 query_lower with
          | Some code => Some (complete code)
          | None =>
              match search_number query_lower with
              | Some code => Some (complete code)
              | None => None
              end
          end
      end
  end.

(** [StockDataPlugin._parse_stock_code]: the aliases are looked for in the
    query as it is, the patterns in the query in lower case. *)
Definition _parse_stock_code (lower : str -> str) (query : str)
  : option str :=
  let query_lower := lower query in
  match List.find (fun '(alias, code) => contains alias query)
                  STOCK_ALIASES with
  | Some (_, code) => Some code
  | None => search_patterns query_lower
  end.

Section Data.
(** The data of a code: the request to the quote service and the parsing of
    its answer (lines 81-95 of [get_stock_data]; [None] when they fail), and
    [format_stock_info]. *)
Variable D : Type.
Variable fetch : str -> option D.
Variable format_stock_info : D -> result str.

(** [StockDataPlugin.get_stock_data]. *)
Definition get_stock_data (lower : str -> str) (query : str) : option D :=
  match _parse_stock_code lower query with
  | Some ((_ :: _) as code) => fetch code
  | _ => None
  end.

(** [get_stock_context]. *)
Definition get_stock_context (lower : str -> str) (query : str)
  : result str :=
  match get_stock_data lower query with
  | Some data => format_stock_info data
  | None => Ok []
  end.

End Data.

End Stock.

(** * [src/core/chain.py]: the report *)

(** [str(n)] for an integer. *)
Definition str_of_Z (z : Z) : str :=
  lit (DecimalString.NilZero.string_of_int (Z.to_int z)).

(** The title line of the report. *)
Definition md_title : str :=
  [35; 32; 20998; 26512; 25253; 21578]%N.

(** Opens the line of the question. *)
Definition md_question : str :=
  [42; 42; 38382; 39064; 42; 42; 58; 32]%N.

(** Opens the line of the time of the analysis. *)
Definition md_time : str :=
  [42; 42; 20998; 26512; 26102; 38388; 42; 42; 58; 32]%N.

(** Opens the line of the count of rounds. *)
Definition md_iterations : str :=
  [42; 42; 36845; 20195; 27425; 25968; 42; 42; 58; 32]%N.

(** The heading of the consensus. *)
Definition md_consensus : str :=
  [35; 35; 32; 32508; 21512; 32467; 35770]%N.

(** The heading of the analyses. *)
Definition md_experts : str :=
  [35; 35; 32; 19987; 23478; 20998; 26512]%N.

(** The heading of the references. *)
Definition md_references : str :=
  [35; 35; 32; 21442; 32771; 36164; 26009]%N.

(** The reference lines of [to_markdown], numbered from [i]. *)
Fixpoint reference_lines (i : Z) (results : list SearchResult) : list str :=
  match results with
  | [] => []
  | r :: rest =>
      (str_of_Z i ++ lit ". [" ++ title r ++ lit "](" ++ url r ++ lit ")")
      :: reference_lines (i + 1) rest
  end.

(** The list [lines] of [AnalysisResult.to_markdown]; [timestamp] is the
    time of the result as [strftime] prints it. *)
Definition to_markdown_lines (timestamp : str) (self : AnalysisResult)
  : list str :=
  [ md_title; [];
    md_question ++ question self; [];
    md_time ++ timestamp; [];
    md_iterations ++ str_of_Z (iteration_count self); [];
    lit "---"; [];
    md_consensus; [];
    consensus self; [];
    lit "---"; [];
    md_experts; [] ]
  ++ flat_map (fun a => [ lit "### " ++ expert_emoji a ++ lit " " ++
                          expert_name a; [];
                          analysis a; [] ])
              (expert_analyses self)
  ++ [ lit "---"; []; md_references; [] ]
  ++ reference_lines 1 (slice_to 5 (search_results self)).

(** [AnalysisResult.to_markdown]. *)
Definition to_markdown (timestamp : str) (self : AnalysisResult) : str :=
  join [10]%N (to_markdown_lines timestamp self).

(** * [src/ui/app.py]: the analysis of the interface *)

(** Opens the line of the address of a result in the context of the interface. *)
Definition link_mark : str :=
  [10; 128279; 32]%N.

(** [l[a:]]. *)
Definition slice_from {A} (a : Z) (l : list A) : list A :=
  if (0 <=? a)%Z then skipn (Z.to_nat a) l
  else skipn (length l - Z.to_nat (- a)) l.

(** Lines 503-512 of [_run_analysis_async]: the context of all rounds, from
    the quotes and the results of the search. *)
Definition interface_context (stock_context : str)
           (search_results : list SearchResult) : str :=
  let search_context :=
    join [10; 10]%N
         (map (fun r => lit "**" ++ title r ++ lit "**" ++ [10]%N ++
                        snippet r ++ link_mark ++ url r)
              (slice_to 5 search_results)) in
  let context := [] in
  let context :=
    if nonempty stock_context
    then context ++ stock_header ++ stock_context ++ [10; 10]%N
    else context in
  let context :=
    if nonempty search_context
    then context ++ search_header ++ search_context
    else context in
  context.

Section Interface.
Variable lower : str -> str.
(** The world outside, as for the chain; the calls of the model of a round
    are made one after the other. *)
Variable get_stock_context : str -> result str.
Variable plugin_search : nat -> str -> option str -> result (list SearchResult).
Variable llm_analyze : nat -> nat -> str -> str -> str -> result str.
Variable llm_generate : str -> result str.

(** The two nested loops of [_run_analysis_async]: the first call that
    raises ends them. *)
Fixpoint analyze_rounds (experts : list Expert) (question context : str)
         (its : list nat) (all_analyses : list ExpertAnalysis)
  : result (list ExpertAnalysis) :=
  match its with
  | [] => Ok all_analyses
  | iteration :: rest =>
      analyses <- collect (map (fun '(t, expert) =>
                                  analyze_with_expert llm_analyze iteration t
                                    expert question context)
                               (enumerate experts)) ;;
      analyze_rounds experts question context rest
                     (all_analyses ++ analyses)
  end.

(** [_run_analysis_async]: the result (without the attribute [stock_data]
    that the function adds to it) and the chain afterwards. *)
Definition _run_analysis_async (chain : AnalysisChain) (question : str)
           (selected_experts : list str)
  : result AnalysisResult * AnalysisChain :=
  let '(experts, loader) :=
    match selected_experts with
    | _ :: _ => lookup_names (expert_loader chain) selected_experts
    | [] => find_relevant_experts lower (expert_loader chain) question 4
    end in
  let chain' := {| expert_loader := loader;
                   Chain.max_iterations := Chain.max_iterations chain |} in
  if negb (nonempty experts)
  then (Raise (ValueError no_experts_message), chain')
  else
    let stock_context :=
      match get_stock_context question with
      | Ok s => s
      | Raise _ => []
      end in
    let search_results := Chain.search plugin_search 0 question false in
    let search_context :=
      join [10; 10]%N
           (map (fun r => lit "**" ++ title r ++ lit "**" ++ [10]%N ++
                          snippet r ++ link_mark ++ url r)
                (slice_to 5 search_results)) in
    let context := [] in
    let context :=
      if nonempty stock_context
      then context ++ stock_header ++ stock_context ++ [10; 10]%N
      else context in
    let context :=
      if nonempty search_context
      then context ++ search_header ++ search_context
      else context in
    (all_analyses <- analyze_rounds experts question context
                       (seq 0 (Z.to_nat (Chain.max_iterations chain))) [] ;;
     let last := slice_from (- Z.of_nat (length experts)) all_analyses in
     consensus <- generate_consensus llm_generate question last ;;
     Ok {| question := question;
           search_results := search_results;
           expert_analyses := last;
           consensus := consensus;
           iteration_count := Chain.max_iterations chain |},
     chain').

End Interface.

(** * Data of further examples *)

(** A chain over the catalog of A and B that runs two rounds. *)
Definition example_chain : AnalysisChain :=
  {| expert_loader := catalog_of [expert_B []; expert_A []];
     Chain.max_iterations := 2 |}.

(** A search provider that answers every search with the same hit. *)
Definition one_hit_search (k : nat) (query : str) (engine : option str)
  : result (list SearchResult) :=
  Ok [one_hit].

(** A search plugin named [nm] that answers every search with [hits]. *)
Definition search_plugin (nm : str) (hits : list SearchResult)
  : Plugins.Plugin :=
  {| Plugins.name := nm;
     Plugins.is_search := true;
     Plugins.is_export := false;
     Plugins.plugin_search := fun _ _ _ => Ok hits;
     Plugins.plugin_export := fun _ _ => Ok [] |}.

(** An export plugin named [nm] that returns the content as it is. *)
Definition export_plugin (nm : str) : Plugins.Plugin :=
  {| Plugins.name := nm;
     Plugins.is_search := false;
     Plugins.is_export := true;
     Plugins.plugin_search := fun _ _ _ => Ok [];
     Plugins.plugin_export := fun content _ => Ok content |}.

(** A model whose every call fails. *)
Definition failing_llm (k : nat) (prompt system : str) : result str :=
  Raise (ProviderError 3).

(** A chain that answers as [canned_chain] on the queries that begin with
    [question] and fails on every other query. *)
Definition picky_chain (question : str) (k : nat) (q : str)
           (experts : option (list str)) : result AnalysisResult :=
  if prefixb question q then canned_chain [] k q experts
  else Raise (ProviderError 9).


(** * Facts about the built-ins *)

Section StringFacts.

Lemma str_eqb_eq (a b : str) : str_eqb a b = true <-> a = b.
Proof.
  unfold str_eqb. destruct (list_eq_dec N.eq_dec a b); split; congruence.
Qed.

Lemma prefixb_app (p s : str) :
  prefixb p s = true <-> exists post, s = p ++ post.
Proof.
  revert s. induction p as [|a p IH]; intros s; simpl.
  - split; [intros _; now exists s | reflexivity].
  - destruct s as [|b s].
    + split; [discriminate | intros [post H]; discriminate].
    + rewrite andb_true_iff, N.eqb_eq, IH. split.
      * intros [-> [post ->]]. now exists post.
      * intros [post H]. injection H as -> ->. split; [reflexivity | now exists post].
Qed.

Lemma contains_Substring (sub s : str) :
  contains sub s = true <-> Substring sub s.
Proof.
  unfold Substring. induction s as [|c s IH].
  - simpl. rewrite orb_false_r, prefixb_app. split.
    + intros [post H]. now exists [], post.
    + intros [pre [post H]]. destruct pre; [now exists post | discriminate].
  - simpl. rewrite orb_true_iff, prefixb_app, IH. split.
    + intros [[post H] | [pre [post H]]].
      * now exists [], post.
      * exists (c :: pre), post. simpl. now rewrite H.
    + intros [pre [post H]]. destruct pre as [|c' pre].
      * left. now exists post.
      * right. injection H as _ H. now exists pre, post.
Qed.

(** [find] answers a position exactly when the text occurs. *)
Lemma find_nonneg (sub s : str) :
  (0 <= find sub s)%Z <-> contains sub s = true.
Proof.
  induction s as [|c s IH]; simpl.
  - destruct (prefixb sub []); simpl; split; (lia || congruence).
  - destruct (prefixb sub (c :: s)); simpl; [split; (lia || reflexivity)|].
    rewrite <- IH.
    destruct (Z.ltb_spec (find sub s) 0); split; lia.
Qed.

End StringFacts.

Section SortFacts.
Variable A : Type.
Variable key : A -> Z.

Lemma insert_by_perm (x : A) (l : list A) :
  Permutation (insert_by key x l) (x :: l).
Proof.
  induction l as [|y l IH]; simpl.
  - reflexivity.
  - destruct (key x <=? key y)%Z.
    + reflexivity.
    + rewrite IH. apply perm_swap.
Qed.

Lemma sort_by_perm (l : list A) : Permutation (sort_by key l) l.
Proof.
  induction l as [|x l IH]; simpl.
  - reflexivity.
  - rewrite insert_by_perm. now apply perm_skip.
Qed.

Lemma insert_by_ascending (x : A) (l : list A) :
  ascending key l -> ascending key (insert_by key x l).
Proof.
  unfold ascending. induction l as [|y l IH]; simpl; intros Hs.
  - constructor; [constructor | constructor].
  - destruct (key x <=? key y)%Z eqn:E.
    + apply Z.leb_le in E. constructor; [exact Hs|].
      inversion Hs as [|? ? _ Hall]; subst.
      constructor; [exact E|].
      eapply Forall_impl; [|exact Hall]. simpl. intros; lia.
    + apply Z.leb_gt in E.
      inversion Hs as [|? ? Hs' Hall]; subst.
      constructor; [now apply IH|].
      eapply Permutation_Forall; [symmetry; apply insert_by_perm|].
      constructor; [lia | exact Hall].
Qed.

Lemma sort_by_ascending (l : list A) : ascending key (sort_by key l).
Proof.
  induction l as [|x l IH]; simpl.
  - constructor.
  - now apply insert_by_ascending.
Qed.

Lemma insert_by_with_key (k : Z) (x : A) (l : list A) :
  with_key key k (insert_by key x l) = with_key key k (x :: l).
Proof.
  unfold with_key. induction l as [|y l IH]; simpl.
  - reflexivity.
  - destruct (key x <=? key y)%Z eqn:E; simpl.
    + reflexivity.
    + apply Z.leb_gt in E. rewrite IH. simpl.
      destruct (key x =? k)%Z eqn:Ex, (key y =? k)%Z eqn:Ey;
        try reflexivity.
      apply Z.eqb_eq in Ex, Ey. lia.
Qed.

(** The sort is stable: elements of equal key keep their order. *)
Lemma sort_by_stable (k : Z) (l : list A) :
  with_key key k (sort_by key l) = with_key key k l.
Proof.
  induction l as [|x l IH]; simpl.
  - reflexivity.
  - rewrite insert_by_with_key. unfold with_key in *. simpl.
    now rewrite IH.
Qed.

Lemma insert_by_pair (x : A) (l : list A) :
  insert_by snd (x, key x) (map (fun a => (a, key a)) l)
  = map (fun a => (a, key a)) (insert_by key x l).
Proof.
  induction l as [|y l IH]; simpl.
  - reflexivity.
  - destruct (key x <=? key y)%Z; simpl; [reflexivity | now rewrite IH].
Qed.

(** Sorting the pairs by their score sorts the elements by it. *)
Lemma sort_by_pair (l : list A) :
  sort_by snd (map (fun a => (a, key a)) l)
  = map (fun a => (a, key a)) (sort_by key l).
Proof.
  induction l as [|x l IH]; simpl.
  - reflexivity.
  - now rewrite IH, insert_by_pair.
Qed.

Lemma map_fst_firstn_pair (n : nat) (l : list A) :
  map fst (firstn n (map (fun a => (a, key a)) l)) = firstn n l.
Proof.
  rewrite <- firstn_map, map_map. simpl. now rewrite map_id.
Qed.

End SortFacts.

(** * The expert catalog *)

Section CatalogFacts.
Variable lower : str -> str.

Lemma matches_query_Matches (e : Expert) (query : str) :
  matches_query lower e query = true <-> Matches lower e query.
Proof.
  unfold matches_query, Matches.
  rewrite orb_true_iff, !existsb_exists. split.
  - intros [[d [Hd Hc]] | [w [Hw Hc]]].
    + left. exists d. now rewrite <- contains_Substring.
    + right. exists w. apply andb_true_iff in Hc as [Hl Hc].
      apply Nat.ltb_lt in Hl. now rewrite <- contains_Substring.
  - intros [[d [Hd Hc]] | [w [Hw [Hl Hc]]]].
    + left. exists d. now rewrite contains_Substring.
    + right. exists w. split; [exact Hw|].
      apply andb_true_iff. split; [now apply Nat.ltb_lt|].
      now rewrite contains_Substring.
Qed.

Lemma effective_key_cases (query : str) (e : Expert) :
  (Matches lower e query ->
   effective_key lower query e = priority (metadata e)) /\
  (~ Matches lower e query ->
   effective_key lower query e = (priority (metadata e) + 100)%Z).
Proof.
  unfold effective_key.
  destruct (matches_query lower e query) eqn:E.
  - split; [reflexivity|]. intros H. exfalso. apply H.
    now apply matches_query_Matches.
  - split; [|reflexivity]. intros H.
    apply matches_query_Matches in H. congruence.
Qed.

(** [find_relevant_experts] is the stable sort of the catalog by the
    effective key, cut by the slice [[:max_experts]]. *)
Lemma find_relevant_experts_sorted (self : ExpertLoader) (query : str)
      (max_experts : Z) :
  fst (find_relevant_experts lower self query max_experts)
  = slice_to max_experts
      (sort_by (effective_key lower query) (fst (load_all self false))).
Proof.
  unfold find_relevant_experts.
  destruct (load_all self false) as [all_experts self']. simpl.
  rewrite (map_ext _ (fun a => (a, effective_key lower query a))).
  2:{ intros a. unfold effective_key.
      now destruct (matches_query lower a query). }
  rewrite sort_by_pair. unfold slice_to.
  rewrite !length_map.
  destruct (0 <=? max_experts)%Z; apply map_fst_firstn_pair.
Qed.

End CatalogFacts.

(** C6. [find_relevant_experts] (the specification's [select_relevant])
    returns the first [limit] records of the catalog sorted stably and
    ascending by the effective key: the result of the sort is a permutation
    of the catalog, ascending by the key, and keeps the catalog's order among
    experts of equal key; the key is the priority of an expert that matches
    the query and the priority plus 100 otherwise.  For A (priority 1, domain
    stock) and B (priority 2, domain policy), in either directory order, the
    query [stock outlook] with limit 2 selects A and then B. *)
Theorem find_relevant_experts_spec (lower : str -> str) (self : ExpertLoader)
        (query : str) (limit : Z) :
  (0 <= limit)%Z ->
  let catalog := fst (load_all self false) in
  let key := effective_key lower query in
  (exists sorted,
      fst (find_relevant_experts lower self query limit)
      = firstn (Z.to_nat limit) sorted /\
      Permutation sorted catalog /\
      ascending key sorted /\
      (forall k, with_key key k sorted = with_key key k catalog)) /\
  (forall e,
      (Matches lower e query -> key e = priority (metadata e)) /\
      (~ Matches lower e query -> key e = (priority (metadata e) + 100)%Z)) /\
  (forall dA dB,
      fst (find_relevant_experts ascii_lower
             (catalog_of [expert_A dA; expert_B dB]) (lit "stock outlook") 2)
      = [expert_A dA; expert_B dB] /\
      fst (find_relevant_experts ascii_lower
             (catalog_of [expert_B dB; expert_A dA]) (lit "stock outlook") 2)
      = [expert_A dA; expert_B dB]).
Proof.
  intros Hlimit catalog key. split; [|split].
  - exists (sort_by key catalog). split; [|split; [|split]].
    + unfold catalog, key. rewrite find_relevant_experts_sorted.
      unfold slice_to. apply Z.leb_le in Hlimit. now rewrite Hlimit.
    + apply sort_by_perm.
    + apply sort_by_ascending.
    + intros k. apply sort_by_stable.
  - intros e. apply effective_key_cases.
  - intros dA dB.
    assert (HA : effective_key ascii_lower (lit "stock outlook") (expert_A dA)
                 = 1%Z).
    { unfold effective_key, matches_query. reflexivity. }
    assert (HB : (effective_key ascii_lower (lit "stock outlook") (expert_B dB)
                  = 2 \/
                  effective_key ascii_lower (lit "stock outlook") (expert_B dB)
                  = 102)%Z).
    { unfold effective_key.
      destruct (matches_query ascii_lower (expert_B dB) (lit "stock outlook"));
        [left | right]; reflexivity. }
    split; rewrite find_relevant_experts_sorted; unfold catalog_of, load_all;
      simpl; rewrite ?HA; destruct HB as [HB | HB]; rewrite HB; reflexivity.
Qed.

Lemma find_relevant_experts_spec_witness :
  (0 <= 1)%Z /\
  exists sorted,
    fst (find_relevant_experts ascii_lower
           (catalog_of [expert_B []; expert_A []]) (lit "stock outlook") 1)
    = firstn 1 sorted /\
    Permutation sorted [expert_A []; expert_B []].
Proof.
  assert (H : (0 <= 1)%Z) by lia.
  split; [exact H|].
  destruct (find_relevant_experts_spec ascii_lower
              (catalog_of [expert_B []; expert_A []]) (lit "stock outlook")
              H) as [[sorted [H1 [H2 _]]] _].
  exists sorted. split; [exact H1 | exact H2].
Defined.

(** A scan, forced by [reload] or by an empty cache, returns the experts
    ascending by priority. *)
Lemma load_all_scan_ascending (self : ExpertLoader) (reload : bool) :
  nonempty (_cache self) && negb reload = false ->
  ascending by_priority (fst (load_all self reload)).
Proof.
  intros H. unfold load_all. rewrite H.
  destruct (dir self) as [|entries]; simpl.
  - constructor.
  - destruct (scan entries [] []) as [cache experts]. simpl.
    apply sort_by_ascending.
Qed.

(** A call served from the cache returns the values of the cache in the
    order of insertion. *)
Lemma load_all_cached (self : ExpertLoader) :
  nonempty (_cache self) = true ->
  load_all self false = (dict_values (_cache self), self).
Proof.
  intros H. unfold load_all. now rewrite H.
Qed.

(** C4. With B (priority 2) listed before A (priority 1) in the directory,
    the first call of [load_all] scans and returns A, B; the second call is
    served from the cache and returns B, A, which is not ascending by
    priority. *)
Theorem load_all_cached_not_ascending :
  let loader := catalog_of [expert_B []; expert_A []] in
  let first := load_all loader false in
  let second := load_all (snd first) false in
  fst first = [expert_A []; expert_B []] /\
  fst second = [expert_B []; expert_A []] /\
  ~ ascending by_priority (fst second).
Proof.
  simpl. split; [reflexivity | split; [reflexivity|]].
  intros H. inversion H as [|? ? _ Hall]; subst.
  inversion Hall as [|? ? Hle _]; subst.
  unfold by_priority in Hle. simpl in Hle. lia.
Qed.

(** * The consensus score *)

Section CountFacts.

Lemma count_from_skip (sub s : str) (k : nat) :
  count_from sub s k = count_from sub (skipn k s) 0.
Proof.
  revert k. induction s as [|c s IH]; intros k.
  - now destruct k.
  - destruct k as [|k]; [reflexivity|]. simpl. apply IH.
Qed.

Lemma count_from_miss (sub : str) (c : N) (s : str) :
  prefixb sub (c :: s) = false ->
  count_from sub (c :: s) 0 = count_from sub s 0.
Proof. intros H. simpl count_from. simpl in H. now rewrite H. Qed.

Lemma count_from_hit (sub : str) (c : N) (s : str) :
  prefixb sub (c :: s) = true ->
  count_from sub (c :: s) 0
  = S (count_from sub (skipn (length sub - 1) s) 0).
Proof.
  intros H. simpl count_from. simpl in H. rewrite H.
  now rewrite count_from_skip.
Qed.

Lemma prefixb_split (p s : str) :
  prefixb p s = true -> s = p ++ skipn (length p) s.
Proof.
  intros H. apply prefixb_app in H as [post ->].
  now rewrite skipn_app, skipn_all, Nat.sub_diag.
Qed.

Let agree := lit "agree".
Let disagree := lit "disagree".

(** Scanning a text for [disagree] never counts more than scanning it for
    [agree]: an occurrence of [disagree] holds one of [agree], and the two
    scans meet again behind it. *)
Lemma count_from_disagree_agree (n : nat) (s : str) :
  length s <= n ->
  count_from disagree s 0 <= count_from agree s 0.
Proof.
  revert s. induction n as [|n IH]; intros s Hn.
  - destruct s; [simpl; lia | simpl in Hn; lia].
  - destruct s as [|c s]; [simpl; lia|].
    destruct (prefixb disagree (c :: s)) eqn:Ed.
    + apply prefixb_split in Ed. simpl in Ed.
      injection Ed as -> Ed. rewrite Ed. cbn.
      apply le_n_S. apply IH.
      rewrite Ed in Hn. simpl in Hn.
      repeat (rewrite ?length_skipn in *; simpl in * ). lia.
    + rewrite (count_from_miss _ _ _ Ed).
      destruct (prefixb agree (c :: s)) eqn:Ea.
      * apply prefixb_split in Ea. simpl in Ea.
        injection Ea as -> Ea. rewrite Ea. cbn.
        apply le_S. apply IH.
        rewrite Ea in Hn. simpl in Hn. lia.
      * rewrite (count_from_miss _ _ _ Ea). apply IH.
        simpl in Hn. lia.
Qed.

Lemma count_disagree_agree (text : str) :
  count text (lit "disagree") <= count text (lit "agree").
Proof.
  apply (count_from_disagree_agree (n := length text)). lia.
Qed.

End CountFacts.

Section ConsensusFacts.
Import Iteration.
Variable lower : str -> str.

Lemma count_all_sum (text : str) (keywords : list str) (total : nat) :
  count_all text keywords total
  = total + list_sum (map (count text) keywords).
Proof.
  unfold count_all. revert total.
  induction keywords as [|kw kws IH]; intros total; simpl.
  - lia.
  - rewrite IH. lia.
Qed.

Lemma count_le_count_all (text kw : str) (keywords : list str) :
  In kw keywords -> count text kw <= count_all text keywords 0.
Proof.
  rewrite count_all_sum. simpl.
  induction keywords as [|kw' kws IH]; simpl; intros Hin.
  - contradiction.
  - destruct Hin as [-> | Hin]; [lia | specialize (IH Hin); lia].
Qed.

Lemma keyword_totals_sums (analyses : list ExpertAnalysis) (a d : nat) :
  keyword_totals lower analyses a d
  = (a + list_sum (map (fun x => count_all (lower (analysis x))
                                   agreement_keywords 0) analyses),
     d + list_sum (map (fun x => count_all (lower (analysis x))
                                   disagreement_keywords 0) analyses)).
Proof.
  revert a d.
  induction analyses as [|x l IH]; intros a d; cbn [keyword_totals map].
  - unfold list_sum. cbn [fold_right]. f_equal; lia.
  - rewrite IH.
    rewrite (count_all_sum _ agreement_keywords a).
    rewrite (count_all_sum _ disagreement_keywords d).
    rewrite (count_all_sum _ agreement_keywords 0).
    rewrite (count_all_sum _ disagreement_keywords 0).
    unfold list_sum. cbn [fold_right]. f_equal; lia.
Qed.

Lemma list_sum_le {A} (f g : A -> nat) (l : list A) :
  (forall x, f x <= g x) ->
  list_sum (map f l) <= list_sum (map g l).
Proof.
  intros H. induction l as [|x l IH]; simpl; [lia|].
  specialize (H x). lia.
Qed.

(** The ratio [a / (a + d + 1)] of the heuristic lies in [[0, 1)]. *)
Lemma ratio_bounds (a d : nat) :
  (0 <= inject_Z (Z.of_nat a) / inject_Z (Z.of_nat (a + d + 1)) /\
   inject_Z (Z.of_nat a) / inject_Z (Z.of_nat (a + d + 1)) < 1)%Q.
Proof.
  rewrite Nat.add_1_r.
  unfold Qdiv, Qmult, Qinv, Qle, Qlt, inject_Z. simpl.
  split; lia.
Qed.

Lemma clamp_id (x : Q) :
  (0 <= x)%Q -> (x <= 1)%Q -> (Qmin 1 (Qmax 0 x) == x)%Q.
Proof.
  intros H0 H1.
  rewrite Q.min_r.
  - now apply Q.max_r.
  - apply Q.max_lub; [discriminate | exact H1].
Qed.

(** The shape of the score of two or more analyses. *)
Lemma _calculate_consensus_shape (analyses : list ExpertAnalysis) :
  2 <= length analyses ->
  let a := fst (keyword_totals lower analyses 0 0) in
  let d := snd (keyword_totals lower analyses 0 0) in
  let ratio :=
    (inject_Z (Z.of_nat a) / inject_Z (Z.of_nat (a + d + 1)))%Q in
  (a + d = 0 /\ _calculate_consensus lower analyses = (7 # 10)%Q) \/
  (a + d <> 0 /\
   (_calculate_consensus lower analyses == (1 # 2) + ratio * (1 # 2))%Q).
Proof.
  intros Hlen a d ratio. unfold _calculate_consensus.
  destruct (Nat.ltb_spec (length analyses) 2) as [H | _]; [lia|].
  fold a d. destruct (keyword_totals lower analyses 0 0) as [a' d'] eqn:E.
  simpl in a, d. subst a d.
  destruct (Nat.eqb_spec (a' + d') 0) as [H0 | H0].
  - left. now split.
  - right. split; [exact H0|].
    destruct (ratio_bounds a' d') as [Hr0 Hr1]. fold ratio in Hr0, Hr1.
    apply clamp_id.
    + apply (Qle_trans _ ((1 # 2) + 0 * (1 # 2))); [discriminate|].
      apply Qplus_le_r. apply Qmult_le_compat_r; [exact Hr0 | discriminate].
    + apply (Qle_trans _ ((1 # 2) + 1 * (1 # 2))); [|discriminate].
      apply Qplus_le_r. apply Qmult_le_compat_r;
        [now apply Qlt_le_weak | discriminate].
Qed.

Lemma _calculate_consensus_lt_1 (analyses : list ExpertAnalysis) :
  2 <= length analyses ->
  (_calculate_consensus lower analyses < 1)%Q.
Proof.
  intros Hlen.
  destruct (_calculate_consensus_shape analyses Hlen)
    as [[_ ->] | [_ ->]]; [reflexivity|].
  destruct (ratio_bounds (fst (keyword_totals lower analyses 0 0))
                         (snd (keyword_totals lower analyses 0 0)))
    as [_ Hr1].
  apply (Qlt_le_trans _ ((1 # 2) + 1 * (1 # 2))); [|discriminate].
  apply Qplus_lt_r. apply Qmult_lt_compat_r; [reflexivity | exact Hr1].
Qed.

End ConsensusFacts.

(** C5. For fewer than 2 analyses the consensus score is exactly 1.0. *)
Theorem calculate_consensus_trivial (lower : str -> str)
        (analyses : list ExpertAnalysis) :
  length analyses < 2 ->
  Iteration._calculate_consensus lower analyses = 1%Q.
Proof.
  intros H. unfold Iteration._calculate_consensus.
  apply Nat.ltb_lt in H. now rewrite H.
Qed.

Lemma calculate_consensus_trivial_witness :
  1 < 2 /\
  Iteration._calculate_consensus ascii_lower
    [analysis_of (lit "we disagree")] = 1%Q.
Proof.
  assert (H : 1 < 2) by lia.
  split; [exact H|].
  apply (calculate_consensus_trivial ascii_lower
           [analysis_of (lit "we disagree")] H).
Defined.

(** C9. The keywords are counted as substrings of the lower-cased text, so a
    text holds [agree] at least as often as [disagree]; over a round, the
    agreement total and the disagreement total are both at least the number
    of occurrences of [disagree].  Two analyses that read [disagree] give
    agreement 2, disagreement 2 and the score 0.7. *)
Theorem disagree_counts_as_agree (lower : str -> str)
        (analyses : list ExpertAnalysis) :
  (forall text, count text (lit "disagree") <= count text (lit "agree")) /\
  occurrences lower (lit "disagree") analyses
  <= fst (Iteration.keyword_totals lower analyses 0 0) /\
  occurrences lower (lit "disagree") analyses
  <= snd (Iteration.keyword_totals lower analyses 0 0) /\
  Iteration.keyword_totals ascii_lower
    [analysis_of (lit "disagree"); analysis_of (lit "disagree")] 0 0
  = (2, 2) /\
  (Iteration._calculate_consensus ascii_lower
     [analysis_of (lit "disagree"); analysis_of (lit "disagree")]
   == 7 # 10)%Q.
Proof.
  split; [exact count_disagree_agree|].
  rewrite keyword_totals_sums. cbn [fst snd Nat.add]. unfold occurrences.
  split; [|split; [|split]].
  - apply list_sum_le. intros x.
    etransitivity; [apply count_disagree_agree|].
    apply count_le_count_all. unfold Iteration.agreement_keywords.
    cbn [In]. tauto.
  - apply list_sum_le. intros x.
    apply count_le_count_all. unfold Iteration.disagreement_keywords.
    cbn [In]. tauto.
  - reflexivity.
  - reflexivity.
Qed.

(** * The iteration controller *)

Section ControllerFacts.
Import Iteration.
Variable lower : str -> str.
Variable json_loads : str -> option json.
Variable chain_run : nat -> str -> option (list str) -> result AnalysisResult.
Variable llm_generate : nat -> str -> str -> result str.

Local Abbreviation loop := (loop lower json_loads chain_run llm_generate).
Local Abbreviation run := (run lower json_loads chain_run llm_generate).

(** [list(set(...))] succeeds on the empty list only. *)
Lemma list_set_ok (results deduplicated : list SearchResult) :
  list_set results = Ok deduplicated -> results = [] /\ deduplicated = [].
Proof.
  destruct results as [|x l]; simpl.
  - intros H. injection H as <-. now split.
  - discriminate.
Qed.

Lemma list_set_raises (results : list SearchResult) :
  results <> [] ->
  list_set results
  = Raise (TypeError (lit "unhashable type: 'SearchResult'")).
Proof. destruct results; [congruence | reflexivity]. Qed.

Lemma finish_ok (r r' : AnalysisResult) (iteration : Z)
      (all_search_results : list SearchResult) :
  finish r iteration all_search_results = Ok (Some r') ->
  iteration_count r' = iteration /\ all_search_results = [] /\
  search_results r' = [] /\ expert_analyses r' = expert_analyses r.
Proof.
  unfold finish.
  destruct (list_set all_search_results) as [d|e] eqn:E; simpl;
    [|discriminate].
  apply list_set_ok in E as [-> ->].
  intros H. injection H as <-. simpl. auto.
Qed.

Lemma finish_raises (r : AnalysisResult) (iteration : Z)
      (all_search_results : list SearchResult) :
  all_search_results <> [] ->
  finish r iteration all_search_results
  = Raise (TypeError (lit "unhashable type: 'SearchResult'")).
Proof. intros H. unfold finish. now rewrite (list_set_raises H). Qed.

(** Opens the body of the loop into its branches. *)
Ltac open_loop self k iteration current_query experts query :=
  cbn [Iteration.loop];
  destruct (iteration <? max_iterations self)%Z eqn:Hguard;
  [ destruct (chain_run k current_query experts) as [r|e] eqn:Hchain;
    [ destruct (Qle_bool (consensus_threshold self)
                  (_calculate_consensus lower (expert_analyses r)))
               eqn:Hscore;
      [ | destruct (iteration + 1 <? max_iterations self)%Z eqn:Hmore;
          [ destruct (_identify_gaps json_loads llm_generate k query
                        (expert_analyses r))
              as [[gaps supplemental_queries]|e] eqn:Hgaps;
            [ destruct (negb (truthy supplemental_queries)) eqn:Hnone;
              [ | destruct (join_top2 supplemental_queries)
                    as [digest|e] eqn:Hjoin ]
            | ]
          | ] ]
    | ]
  | ].

(** The fuel given by [run] is enough: with at least [max_iterations -
    iteration] rounds of fuel the loop does not depend on the fuel, so it
    ends by its own test [iteration < max_iterations]. *)
Lemma loop_fuel (self : IterativeAnalyzer) (query : str)
      (experts : option (list str)) (fuel1 fuel2 k : nat) (iteration : Z)
      (current_query : str) (all_search_results : list SearchResult)
      (result_ : option AnalysisResult) :
  (max_iterations self - iteration <= Z.of_nat fuel1)%Z ->
  (max_iterations self - iteration <= Z.of_nat fuel2)%Z ->
  loop self query experts fuel1 k iteration current_query
       all_search_results result_
  = loop self query experts fuel2 k iteration current_query
         all_search_results result_.
Proof.
  revert fuel2 k iteration current_query all_search_results result_.
  induction fuel1 as [|fuel1 IH];
    intros fuel2 k iteration current_query all_search_results result_
           H1 H2.
  - destruct fuel2 as [|fuel2]; [reflexivity|]. cbn [Iteration.loop].
    destruct (Z.ltb_spec iteration (max_iterations self));
      [simpl in H1; lia | reflexivity].
  - destruct fuel2 as [|fuel2].
    + cbn [Iteration.loop].
      destruct (Z.ltb_spec iteration (max_iterations self));
        [simpl in H2; lia | reflexivity].
    + open_loop self k iteration current_query experts query;
        try reflexivity; apply IH; lia.
Qed.

(** What a run that returns a result has done.  The invariant: [iteration]
    is the number [k] of rounds completed, no round is started beyond the
    budget, and a result is held only after a round. *)
Lemma loop_returns (self : IterativeAnalyzer) (query : str)
      (experts : option (list str)) (fuel k : nat) (iteration : Z)
      (current_query : str) (all_search_results : list SearchResult)
      (result_ : option AnalysisResult) (final : AnalysisResult) :
  iteration = Z.of_nat k ->
  k = 0 \/ (iteration <= max_iterations self)%Z ->
  (result_ <> None -> 1 <= k) ->
  let out := loop self query experts fuel k iteration current_query
                  all_search_results result_ in
  returned out = Ok (Some final) ->
  (Z.of_nat (rounds_executed out) <= max_iterations self)%Z /\
  iteration_count final = Z.of_nat (rounds_executed out) /\
  1 <= rounds_executed out.
Proof.
  revert k iteration current_query all_search_results result_.
  assert (Hafter : forall k iteration all_search_results result_,
             iteration = Z.of_nat k ->
             k = 0 \/ (iteration <= max_iterations self)%Z ->
             (result_ <> None -> 1 <= k) ->
             let out := after_loop k iteration all_search_results result_ in
             returned out = Ok (Some final) ->
             (Z.of_nat (rounds_executed out) <= max_iterations self)%Z /\
             iteration_count final = Z.of_nat (rounds_executed out) /\
             1 <= rounds_executed out).
  { intros k iteration all_search_results result_ Hk Hmax Hres.
    unfold after_loop. simpl.
    destruct result_ as [r|]; [|discriminate].
    intros H. apply finish_ok in H as [Hc _].
    assert (1 <= k) by (apply Hres; discriminate). lia. }
  induction fuel as [|fuel IH];
    intros k iteration current_query all_search_results result_
           Hk Hmax Hres.
  - apply Hafter; assumption.
  - open_loop self k iteration current_query experts query;
      try (simpl; discriminate); try (apply Hafter; assumption).
    + simpl. intros H. apply finish_ok in H as [Hc _].
      apply Z.ltb_lt in Hguard. lia.
    + simpl. intros H. apply finish_ok in H as [Hc _].
      apply Z.ltb_lt in Hguard. lia.
    + apply Z.ltb_lt in Hguard. apply IH; [lia | lia | lia].
    + apply Z.ltb_lt in Hguard. apply IH; [lia | lia | lia].
Qed.

(** A terminal transition with results accumulated ends in the
    [TypeError] of [set]. *)
Lemma loop_dedup_raises (self : IterativeAnalyzer) (query : str)
      (experts : option (list str)) (fuel k : nat) (iteration : Z)
      (current_query : str) (all_search_results : list SearchResult)
      (result_ : option AnalysisResult) :
  (result_ = None -> all_search_results = []) ->
  let out := loop self query experts fuel k iteration current_query
                  all_search_results result_ in
  state out <> None ->
  accumulated out <> [] ->
  returned out = Raise (TypeError (lit "unhashable type: 'SearchResult'")).
Proof.
  revert k iteration current_query all_search_results result_.
  assert (Hafter : forall k iteration all_search_results result_,
             (result_ = None -> all_search_results = []) ->
             let out := after_loop k iteration all_search_results result_ in
             state out <> None ->
             accumulated out <> [] ->
             returned out
             = Raise (TypeError (lit "unhashable type: 'SearchResult'"))).
  { intros k iteration all_search_results result_ Hres.
    unfold after_loop. simpl. intros _ Hacc.
    destruct result_ as [r|]; [now apply finish_raises|].
    exfalso. now apply Hacc, Hres. }
  induction fuel as [|fuel IH];
    intros k iteration current_query all_search_results result_ Hres.
  - apply Hafter; assumption.
  - open_loop self k iteration current_query experts query;
      try (simpl; congruence); try (apply Hafter; assumption).
    + simpl. intros _ Hacc. now apply finish_raises.
    + simpl. intros _ Hacc. now apply finish_raises.
    + apply IH. discriminate.
    + apply IH. discriminate.
Qed.

(** With a threshold of 1.0 and two or more analyses in every round, no
    round ends the run by consensus. *)
Lemma loop_no_consensus (self : IterativeAnalyzer) (query : str)
      (experts : option (list str)) (fuel k : nat) (iteration : Z)
      (current_query : str) (all_search_results : list SearchResult)
      (result_ : option AnalysisResult) :
  (consensus_threshold self == 1)%Q ->
  (forall k q e r, chain_run k q e = Ok r ->
                   2 <= length (expert_analyses r)) ->
  state (loop self query experts fuel k iteration current_query
              all_search_results result_)
  <> Some CONSENSUS_REACHED.
Proof.
  intros Hthr Hsize.
  revert k iteration current_query all_search_results result_.
  induction fuel as [|fuel IH];
    intros k iteration current_query all_search_results result_.
  - simpl. discriminate.
  - open_loop self k iteration current_query experts query;
      try (simpl; discriminate); try apply IH.
    exfalso. apply Qle_bool_iff in Hscore. rewrite Hthr in Hscore.
    pose proof (Hsize _ _ _ _ Hchain) as Hlen.
    apply (_calculate_consensus_lt_1 lower) in Hlen.
    now apply (Qlt_not_le _ _ Hlen).
Qed.

(** [finish] changes the count of rounds and the search results only. *)
Lemma finish_keeps (r r' : AnalysisResult) (iteration : Z)
      (all_search_results : list SearchResult) :
  finish r iteration all_search_results = Ok (Some r') ->
  question r' = question r /\ consensus r' = consensus r /\
  expert_analyses r' = expert_analyses r.
Proof.
  unfold finish.
  destruct (list_set all_search_results) as [d|e]; simpl; [|discriminate].
  intros H. injection H as <-. simpl. auto.
Qed.

Lemma last_cons {A} (a d : A) (l : list A) : last (a :: l) d = last l a.
Proof.
  revert a d. induction l as [|b l IH]; intros a d; [reflexivity|].
  change (last (a :: b :: l) d) with (last (b :: l) d).
  now rewrite (IH b d), (IH b a).
Qed.

Lemma last_nth_error {A} (l : list A) (r : A) :
  last (map Some l) None = Some r -> nth_error l (length l - 1) = Some r.
Proof.
  induction l as [|a l IH]; [discriminate|].
  cbn [map]. rewrite last_cons. destruct l as [|b l].
  - simpl. intros H. now injection H as <-.
  - cbn [map]. rewrite (@last_cons _ (Some b) (Some a)).
    rewrite <- (@last_cons _ (Some b) None). intros H. apply IH in H.
    replace (length (a :: b :: l) - 1) with (S (length (b :: l) - 1))
      by (simpl; lia).
    exact H.
Qed.

(** The calls counted by a run are never fewer than those made before. *)
Lemma loop_rounds_ge (self : IterativeAnalyzer) (query : str)
      (experts : option (list str)) (fuel k : nat) (iteration : Z)
      (current_query : str) (all_search_results : list SearchResult)
      (result_ : option AnalysisResult) :
  k <= rounds_executed (loop self query experts fuel k iteration
                             current_query all_search_results result_).
Proof.
  revert k iteration current_query all_search_results result_.
  induction fuel as [|fuel IH];
    intros k iteration current_query all_search_results result_.
  - simpl. lia.
  - open_loop self k iteration current_query experts query;
      try (simpl; lia);
      (eapply Nat.le_trans; [|apply IH]); lia.
Qed.

(** The calls of [chain.run] behind a result: each of them was made with
    the query of its round and returned, the result comes from the last of
    them, and the run counts them all. *)
Lemma loop_calls (self : IterativeAnalyzer) (query : str)
      (experts : option (list str)) (fuel k : nat) (iteration : Z)
      (current_query : str) (all_search_results : list SearchResult)
      (result_ : option AnalysisResult) (final : AnalysisResult) :
  let out := loop self query experts fuel k iteration current_query
                  all_search_results result_ in
  returned out = Ok (Some final) ->
  exists queries results,
    Called chain_run experts k queries results /\
    rounds_executed out = k + length results /\
    (results <> [] -> hd_error queries = Some current_query) /\
    exists r,
      last (map Some results) result_ = Some r /\
      question final = question r /\ consensus final = consensus r /\
      expert_analyses final = expert_analyses r.
Proof.
  revert k iteration current_query all_search_results result_.
  assert (Hafter : forall k iteration current_query all_search_results
                          result_,
             let out := after_loop k iteration all_search_results result_ in
             returned out = Ok (Some final) ->
             exists queries results,
               Called chain_run experts k queries results /\
               rounds_executed out = k + length results /\
               (results <> [] -> hd_error queries = Some current_query) /\
               exists r,
                 last (map Some results) result_ = Some r /\
                 question final = question r /\
                 consensus final = consensus r /\
                 expert_analyses final = expert_analyses r).
  { intros k iteration current_query all_search_results result_.
    unfold after_loop. cbn [returned rounds_executed].
    destruct result_ as [r|]; [|discriminate].
    intros H. apply finish_keeps in H.
    exists [], []. split; [exact I|]. split; [simpl; lia|].
    split; [congruence|]. now exists r. }
  assert (Hend : forall k current_query result_ r iteration
                        all_search_results,
             chain_run k current_query experts = Ok r ->
             finish r iteration all_search_results = Ok (Some final) ->
             exists queries results,
               Called chain_run experts k queries results /\
               S k = k + length results /\
               (results <> [] -> hd_error queries = Some current_query) /\
               exists r',
                 last (map Some results) result_ = Some r' /\
                 question final = question r' /\
                 consensus final = consensus r' /\
                 expert_analyses final = expert_analyses r').
  { intros k current_query result_ r iteration all_search_results Hchain H.
    apply finish_keeps in H.
    exists [current_query], [r]. split; [now split|].
    split; [simpl; lia|]. split; [reflexivity|]. now exists r. }
  assert (Hstep : forall k current_query next_query result_ r out,
             chain_run k current_query experts = Ok r ->
             (exists queries results,
                 Called chain_run experts (S k) queries results /\
                 rounds_executed out = S k + length results /\
                 (results <> [] -> hd_error queries = Some next_query) /\
                 exists r',
                   last (map Some results) (Some r) = Some r' /\
                   question final = question r' /\
                   consensus final = consensus r' /\
                   expert_analyses final = expert_analyses r') ->
             exists queries results,
               Called chain_run experts k queries results /\
               rounds_executed out = k + length results /\
               (results <> [] -> hd_error queries = Some current_query) /\
               exists r',
                 last (map Some results) result_ = Some r' /\
                 question final = question r' /\
                 consensus final = consensus r' /\
                 expert_analyses final = expert_analyses r').
  { intros k current_query next_query result_ r out Hchain
           [queries [results [Hc [Hn [_ [r' [Hl Hf]]]]]]].
    exists (current_query :: queries), (r :: results).
    split; [now split|]. split; [simpl; lia|]. split; [reflexivity|].
    exists r'. split; [|exact Hf]. cbn [map]. now rewrite last_cons. }
  induction fuel as [|fuel IH];
    intros k iteration current_query all_search_results result_.
  - apply Hafter.
  - open_loop self k iteration current_query experts query;
      try (cbn [returned]; discriminate); try apply Hafter.
    + cbn [returned rounds_executed]. now apply Hend.
    + cbn [returned rounds_executed]. now apply Hend.
    + intros H. eapply Hstep; [exact Hchain|]. now apply IH.
    + intros H. eapply Hstep; [exact Hchain|]. now apply IH.
Qed.

(** A run that returns a result has made the calls it counts and no other:
    a provider of rounds that answers these calls in the same way gives the
    same run. *)
Lemma loop_agree (chain_run' : nat -> str -> option (list str) ->
                               result AnalysisResult)
      (self : IterativeAnalyzer) (query : str)
      (experts : option (list str)) (fuel k : nat) (iteration : Z)
      (current_query : str) (all_search_results : list SearchResult)
      (result_ : option AnalysisResult) (final : AnalysisResult) :
  let out := loop self query experts fuel k iteration current_query
                  all_search_results result_ in
  returned out = Ok (Some final) ->
  (forall j q, j < rounds_executed out ->
               chain_run' j q experts = chain_run j q experts) ->
  Iteration.loop lower json_loads chain_run' llm_generate self query experts
                 fuel k iteration current_query all_search_results result_
  = out.
Proof.
  revert k iteration current_query all_search_results result_.
  induction fuel as [|fuel IH];
    intros k iteration current_query all_search_results result_.
  - reflexivity.
  - open_loop self k iteration current_query experts query;
      intros Hret Hagree;
      try (cbn [returned] in Hret; discriminate); try reflexivity.
    + rewrite Hagree, Hchain by (cbn [rounds_executed]; lia).
      now rewrite Hscore.
    + rewrite Hagree, Hchain by (cbn [rounds_executed]; lia).
      now rewrite Hscore, Hgaps, Hnone.
    + rewrite Hagree, Hchain by (eapply Nat.lt_le_trans;
                                 [|apply loop_rounds_ge]; lia).
      rewrite Hscore, Hgaps, Hnone, Hjoin.
      now apply IH.
    + rewrite Hagree, Hchain by (eapply Nat.lt_le_trans;
                                 [|apply loop_rounds_ge]; lia).
      rewrite Hscore.
      now apply IH.
Qed.

(** Once a round has returned, a run does not return [None]. *)
Lemma loop_returns_none (self : IterativeAnalyzer) (query : str)
      (experts : option (list str)) (fuel k : nat) (iteration : Z)
      (current_query : str) (all_search_results : list SearchResult)
      (result_ : option AnalysisResult) :
  result_ <> None ->
  returned (loop self query experts fuel k iteration current_query
                 all_search_results result_)
  <> Ok None.
Proof.
  revert k iteration current_query all_search_results result_.
  assert (Hfinish : forall r iteration all_search_results,
             finish r iteration all_search_results <> Ok None).
  { intros r iteration all_search_results. unfold finish.
    destruct (list_set all_search_results); simpl; discriminate. }
  induction fuel as [|fuel IH];
    intros k iteration current_query all_search_results result_ Hres.
  - simpl. destruct result_; [apply Hfinish | congruence].
  - open_loop self k iteration current_query experts query;
      try (apply IH; discriminate);
      simpl; try discriminate; try apply Hfinish.
    destruct result_; [apply Hfinish | congruence].
Qed.

End ControllerFacts.

(** C7. A run that returns a result has executed at most [max_iterations]
    rounds, at least one, and the [iteration_count] of the result is the
    number of rounds executed.  The rounds executed are calls of
    [chain.run] that were made and returned: the first with the question,
    the result built from the last of them, and no call beyond them is
    made, so that a provider of rounds that answers these calls in the same
    way gives the same run. *)
Theorem run_iteration_count (lower : str -> str)
        (json_loads : str -> option Iteration.json)
        (chain_run : nat -> str -> option (list str) -> result AnalysisResult)
        (llm_generate : nat -> str -> str -> result str)
        (self : Iteration.IterativeAnalyzer) (query : str)
        (experts : option (list str)) (final : AnalysisResult) :
  let out := Iteration.run lower json_loads chain_run llm_generate self query
                           experts in
  Iteration.returned out = Ok (Some final) ->
  (Z.of_nat (Iteration.rounds_executed out)
   <= Iteration.max_iterations self)%Z /\
  iteration_count final = Z.of_nat (Iteration.rounds_executed out) /\
  1 <= Iteration.rounds_executed out /\
  (exists queries results,
      Called chain_run experts 0 queries results /\
      length results = Iteration.rounds_executed out /\
      hd_error queries = Some query /\
      exists r,
        nth_error results (Iteration.rounds_executed out - 1) = Some r /\
        question final = question r /\ consensus final = consensus r /\
        expert_analyses final = expert_analyses r) /\
  (forall chain_run',
      (forall j q, j < Iteration.rounds_executed out ->
                   chain_run' j q experts = chain_run j q experts) ->
      Iteration.run lower json_loads chain_run' llm_generate self query
                    experts
      = out).
Proof.
  intros out Hret.
  destruct (@loop_returns lower json_loads chain_run llm_generate self query
              experts (Z.to_nat (Iteration.max_iterations self)) 0 0%Z query
              [] None final eq_refl (or_introl eq_refl)
              ltac:(congruence) Hret) as [Hmax [Hcount Hone]].
  split; [exact Hmax|]. split; [exact Hcount|]. split; [exact Hone|]. split.
  - destruct (@loop_calls lower json_loads chain_run llm_generate self query
                experts (Z.to_nat (Iteration.max_iterations self)) 0 0%Z
                query [] None final Hret)
      as [queries [results [Hc [Hn [Hhd [r [Hl Hf]]]]]]].
    assert (Hn' : Iteration.rounds_executed out = length results)
      by exact Hn.
    exists queries, results. split; [exact Hc|].
    split; [now symmetry|]. split.
    + apply Hhd. intros ->. discriminate.
    + exists r. split; [|exact Hf]. rewrite Hn'. now apply last_nth_error.
  - intros chain_run' Hagree. unfold Iteration.run.
    now apply (@loop_agree lower json_loads chain_run llm_generate chain_run'
                 self query experts (Z.to_nat (Iteration.max_iterations self))
                 0 0%Z query [] None final).
Qed.

Lemma run_iteration_count_witness :
  exists final,
    Iteration.returned
      (Iteration.run ascii_lower no_json (canned_chain [])
         (canned_llm (lit "not json at all"))
         (Iteration.__init__ None 3 (4 # 5)) (lit "A-shares?") None)
    = Ok (Some final) /\
    iteration_count final = 1%Z /\
    exists r, canned_chain [] 0 (lit "A-shares?") None = Ok r /\
              expert_analyses final = expert_analyses r.
Proof.
  eexists. split; [vm_compute; reflexivity|].
  destruct (run_iteration_count ascii_lower no_json (canned_chain [])
              (canned_llm (lit "not json at all"))
              (Iteration.__init__ None 3 (4 # 5)) (lit "A-shares?") None
              eq_refl)
    as [_ [Hcount [_ [[queries [results [Hc [Hn [Hhd [r [Hr Hf]]]]]]] _]]]].
  split; [exact Hcount|].
  exists r. split; [|exact (proj2 (proj2 Hf))].
  destruct queries as [|q queries]; [discriminate Hhd|].
  injection Hhd as ->.
  destruct results as [|r0 results]; [destruct Hc|].
  destruct Hc as [Hc0 _]. rewrite Hc0. f_equal.
  vm_compute in Hr. now injection Hr as ->.
Defined.

(** C2. Every run that reaches a terminal transition with search results
    accumulated raises the [TypeError] of [set]: [SearchResult] is a plain
    dataclass and has no hash, so the deduplication fails whenever there is
    something to deduplicate, and no result is returned. *)
Theorem run_dedup_raises (lower : str -> str)
        (json_loads : str -> option Iteration.json)
        (chain_run : nat -> str -> option (list str) -> result AnalysisResult)
        (llm_generate : nat -> str -> str -> result str)
        (self : Iteration.IterativeAnalyzer) (query : str)
        (experts : option (list str)) :
  let out := Iteration.run lower json_loads chain_run llm_generate self query
                           experts in
  Iteration.state out <> None ->
  Iteration.accumulated out <> [] ->
  Iteration.returned out
  = Raise (TypeError (lit "unhashable type: 'SearchResult'")).
Proof.
  unfold Iteration.run. apply loop_dedup_raises. reflexivity.
Qed.

Lemma run_dedup_raises_witness :
  let out := Iteration.run ascii_lower no_json (canned_chain [one_hit])
               (canned_llm (lit "not json at all"))
               (Iteration.__init__ (Some 1%Z) 3 (1 # 2)) (lit "A-shares?")
               None in
  Iteration.state out = Some Iteration.CONSENSUS_REACHED /\
  Iteration.accumulated out = [one_hit] /\
  Iteration.returned out
  = Raise (TypeError (lit "unhashable type: 'SearchResult'")).
Proof.
  split; [reflexivity | split; [reflexivity|]].
  apply (run_dedup_raises ascii_lower no_json (canned_chain [one_hit])
           (canned_llm (lit "not json at all"))
           (Iteration.__init__ (Some 1%Z) 3 (1 # 2)) (lit "A-shares?") None).
  - vm_compute. discriminate.
  - vm_compute. discriminate.
Defined.

(** C8. The score of two or more analyses is below 1.0: it is 0.7 when no
    keyword occurs, and [0.5 + a/(a+d+1) * 0.5] with [a/(a+d+1) < 1]
    otherwise.  Hence with a threshold of 1.0 and two or more analyses in
    every round, no run ends by consensus. *)
Theorem consensus_below_one (lower : str -> str) :
  (forall analyses,
      2 <= length analyses ->
      let a := fst (Iteration.keyword_totals lower analyses 0 0) in
      let d := snd (Iteration.keyword_totals lower analyses 0 0) in
      let ratio :=
        (inject_Z (Z.of_nat a) / inject_Z (Z.of_nat (a + d + 1)))%Q in
      (Iteration._calculate_consensus lower analyses < 1)%Q /\
      (ratio < 1)%Q /\
      ((a + d = 0 /\
        Iteration._calculate_consensus lower analyses = (7 # 10)%Q) \/
       (a + d <> 0 /\
        (Iteration._calculate_consensus lower analyses
         == (1 # 2) + ratio * (1 # 2))%Q))) /\
  (forall json_loads chain_run llm_generate self query experts,
      (Iteration.consensus_threshold self == 1)%Q ->
      (forall k q e r, chain_run k q e = Ok r ->
                       2 <= length (expert_analyses r)) ->
      Iteration.state
        (Iteration.run lower json_loads chain_run llm_generate self query
                       experts)
      <> Some Iteration.CONSENSUS_REACHED).
Proof.
  split.
  - intros analyses Hlen a d ratio. split; [|split].
    + now apply _calculate_consensus_lt_1.
    + apply ratio_bounds.
    + now apply _calculate_consensus_shape.
  - intros json_loads chain_run llm_generate self query experts Hthr Hsize.
    unfold Iteration.run. now apply loop_no_consensus.
Qed.

Lemma consensus_below_one_witness :
  (Iteration._calculate_consensus ascii_lower
     [analysis_of (lit "I agree"); analysis_of (lit "agree, similar")]
   < 1)%Q /\
  Iteration.state
    (Iteration.run ascii_lower no_json (canned_chain [])
       (canned_llm (lit "not json at all"))
       (Iteration.__init__ (Some 2%Z) 3 1) (lit "A-shares?") None)
  <> Some Iteration.CONSENSUS_REACHED.
Proof.
  destruct (consensus_below_one ascii_lower) as [Hscore Hrun].
  split.
  - assert (Hlen : 2 <= length [analysis_of (lit "I agree");
                                 analysis_of (lit "agree, similar")])
      by (simpl; lia).
    exact (proj1 (Hscore _ Hlen)).
  - apply Hrun.
    + reflexivity.
    + intros k q e r H. injection H as <-. simpl. lia.
Defined.

(** C10, as stated, fails for a budget of 0 given to the constructor:
    [max_iterations or config.max_iterations] takes the configured budget
    in the place of 0, and with the default of 3 the run executes a round
    and returns a result. *)
Lemma run_zero_argument_counterexample :
  ~ (forall lower json_loads chain_run llm_generate config_max_iterations
            threshold query experts,
        let out := Iteration.run lower json_loads chain_run llm_generate
                     (Iteration.__init__ (Some 0%Z) config_max_iterations
                                         threshold)
                     query experts in
        Iteration.rounds_executed out = 0 /\
        Iteration.returned out = Ok None).
Proof.
  intros H.
  destruct (H ascii_lower no_json (canned_chain [])
              (canned_llm (lit "not json at all")) 3%Z (4 # 5)%Q
              (lit "A-shares?") None) as [Hrounds _].
  vm_compute in Hrounds. discriminate.
Qed.

(** C10. When the attribute [max_iterations] is 0 the run executes no round
    and returns [None], without raising.  The attribute is 0 exactly when
    the configured budget is 0 and the constructor got [None] or 0: a
    budget of 0 given to the constructor is replaced by the configured one,
    and when that is 1 or more and the first call of [chain.run] returns,
    the run executes a round and does not return [None]. *)
Theorem run_zero_budget (lower : str -> str)
        (json_loads : str -> option Iteration.json)
        (chain_run : nat -> str -> option (list str) -> result AnalysisResult)
        (llm_generate : nat -> str -> str -> result str)
        (max_iterations : option Z) (config_max_iterations : Z)
        (threshold : Q) (query : str) (experts : option (list str)) :
  let self := Iteration.__init__ max_iterations config_max_iterations
                                 threshold in
  let out := Iteration.run lower json_loads chain_run llm_generate self query
                           experts in
  (Iteration.max_iterations self = 0%Z ->
   Iteration.rounds_executed out = 0 /\ Iteration.returned out = Ok None) /\
  (Iteration.max_iterations self = 0%Z <->
   config_max_iterations = 0%Z /\
   (max_iterations = None \/ max_iterations = Some 0%Z)) /\
  (max_iterations = Some 0%Z ->
   Iteration.max_iterations self = config_max_iterations /\
   ((1 <= config_max_iterations)%Z ->
    forall r, chain_run 0 query experts = Ok r ->
              1 <= Iteration.rounds_executed out /\
              Iteration.returned out <> Ok None)).
Proof.
  intros self out. split; [|split].
  - intros H. unfold out, Iteration.run. rewrite H. simpl. now split.
  - unfold self, Iteration.__init__. cbn [Iteration.max_iterations].
    destruct max_iterations as [m|].
    + destruct (Z.eqb_spec m 0) as [->|Hm].
      * split; [intros ->; auto | now intros [-> _]].
      * split; [intros ->; congruence|].
        intros [_ [H|H]]; [discriminate | congruence].
    + split; [intros ->; auto | now intros [-> _]].
  - intros ->. split; [reflexivity|]. intros Hconfig r Hchain.
    unfold out, Iteration.run.
    assert (Hmax : Iteration.max_iterations self = config_max_iterations)
      by reflexivity.
    destruct (Z.to_nat (Iteration.max_iterations self)) as [|fuel] eqn:Efuel;
      [lia|].
    assert (Hfinish : forall r iteration all_search_results,
               Iteration.finish r iteration all_search_results <> Ok None).
    { intros r0 iteration all_search_results. unfold Iteration.finish.
      destruct (list_set all_search_results); simpl; discriminate. }
    cbn [Iteration.loop]. rewrite Hchain.
    destruct (0 <? Iteration.max_iterations self)%Z eqn:Hguard;
      [|apply Z.ltb_ge in Hguard; lia].
    repeat match goal with
           | |- context [if ?b then _ else _] => destruct b
           | |- context [match ?x with Ok _ => _ | Raise _ => _ end] =>
               destruct x as [[? ?]|?] || destruct x
           end;
      (split;
       [ try (cbn [Iteration.rounds_executed]; lia);
         (eapply Nat.le_trans; [|apply loop_rounds_ge]); lia
       | try (cbn [Iteration.returned]; first [discriminate | apply Hfinish]);
         apply loop_returns_none; discriminate ]).
Qed.

Lemma run_zero_budget_witness :
  Iteration.returned
    (Iteration.run ascii_lower no_json (canned_chain [one_hit])
       (canned_llm (lit "not json at all"))
       (Iteration.__init__ (Some 0%Z) 0 (4 # 5)) (lit "A-shares?") None)
  = Ok None /\
  1 <= Iteration.rounds_executed
         (Iteration.run ascii_lower no_json (canned_chain [one_hit])
            (canned_llm (lit "not json at all"))
            (Iteration.__init__ (Some 0%Z) 3 (4 # 5)) (lit "A-shares?")
            None).
Proof.
  split.
  - exact (proj2 (proj1 (run_zero_budget ascii_lower no_json
                           (canned_chain [one_hit])
                           (canned_llm (lit "not json at all"))
                           (Some 0%Z) 0 (4 # 5) (lit "A-shares?") None)
                        eq_refl)).
  - destruct (run_zero_budget ascii_lower no_json (canned_chain [one_hit])
                (canned_llm (lit "not json at all"))
                (Some 0%Z) 3 (4 # 5) (lit "A-shares?") None)
      as [_ [_ H]].
    destruct (H eq_refl) as [_ Hrun].
    exact (proj1 (Hrun ltac:(lia) _ eq_refl)).
Defined.

(** * The gap identifier *)

(** C1, as stated, fails: the response [not json at all] has no braces, the
    parse is not attempted, nothing is raised inside the [try], and the gap
    list stays empty instead of holding the truncated response. *)
Lemma parse_gaps_no_braces_counterexample :
  ~ (forall json_loads response,
        ~ Parseable json_loads response ->
        Iteration.parse_gaps json_loads response
        = (Iteration.JList [Iteration.JStr (slice_to 200 response)],
           Iteration.JList [])).
Proof.
  intros H.
  specialize (H no_json (lit "not json at all")).
  assert (Hno : ~ Parseable no_json (lit "not json at all")).
  { intros [_ [d Hd]]. discriminate. }
  apply H in Hno. vm_compute in Hno. discriminate.
Qed.

(** C1, amended.  When the model has answered and the answer holds no JSON
    object between its first opening and last closing brace,
    [_identify_gaps] does not raise and returns no supplemental query; the
    gaps are the single entry made of the first 200 characters of the
    response when the braces are there and the text between them fails to
    decode to an object, and no entry at all when the braces are missing. *)
Theorem identify_gaps_degrades
        (json_loads : str -> option Iteration.json)
        (llm_generate : nat -> str -> str -> result str)
        (k : nat) (query : str) (analyses : list ExpertAnalysis)
        (response : str) :
  llm_generate k (Iteration.gap_query query analyses) Iteration.gap_prompt
  = Ok response ->
  ~ Parseable json_loads response ->
  (has_braces response ->
   Iteration._identify_gaps json_loads llm_generate k query analyses
   = Ok (Iteration.JList [Iteration.JStr (slice_to 200 response)],
         Iteration.JList [])) /\
  (~ has_braces response ->
   Iteration._identify_gaps json_loads llm_generate k query analyses
   = Ok (Iteration.JList [], Iteration.JList [])) /\
  length (slice_to 200 response) <= 200.
Proof.
  intros Hllm Hno. unfold Iteration._identify_gaps. rewrite Hllm.
  cbn [bind]. unfold Iteration.parse_gaps.
  split; [|split].
  - intros Hb. pose proof Hb as [H0 H1].
    apply Z.leb_le in H0. apply Z.ltb_lt in H1. rewrite H0, H1.
    cbn [andb].
    destruct (json_loads _) as [v|] eqn:E; [|reflexivity].
    destruct v; try reflexivity.
    exfalso. apply Hno. split; [exact Hb|]. now exists d.
  - intros Hb.
    destruct ((0 <=? find (lit "{") response)%Z
              && (find (lit "{") response
                  <? rfind (lit "}") response + 1)%Z) eqn:E;
      [|reflexivity].
    exfalso. apply Hb. apply andb_true_iff in E as [H0 H1].
    apply Z.leb_le in H0. apply Z.ltb_lt in H1. now split.
  - unfold slice_to. cbn [Z.leb Z.compare].
    etransitivity; [apply firstn_le_length|]. vm_compute. lia.
Qed.

Lemma identify_gaps_degrades_witness :
  ~ Parseable no_json (lit "x {bad} y") /\
  has_braces (lit "x {bad} y") /\
  Iteration._identify_gaps no_json (canned_llm (lit "x {bad} y")) 0
    (lit "A-shares?") []
  = Ok (Iteration.JList [Iteration.JStr (lit "x {bad} y")],
        Iteration.JList []).
Proof.
  assert (Hno : ~ Parseable no_json (lit "x {bad} y")).
  { intros [_ [d Hd]]. discriminate. }
  assert (Hb : has_braces (lit "x {bad} y")).
  { split; vm_compute; [discriminate | reflexivity]. }
  split; [exact Hno | split; [exact Hb|]].
  exact (proj1 (@identify_gaps_degrades no_json
                  (canned_llm (lit "x {bad} y")) 0 (lit "A-shares?") []
                  (lit "x {bad} y") eq_refl Hno) Hb).
Defined.

(** * The round executor *)

Section RoundFacts.




Lemma In_combine_seq {A} (l : list A) (a t : nat) (x : A) :
  In (t, x) (combine (seq a (length l)) l) <->
  a <= t /\ nth_error l (t - a) = Some x.
Proof.
  revert a. induction l as [|y l IH]; intros a; simpl.
  - split; [contradiction|]. intros [_ H]. now destruct (t - a).
  - rewrite IH. split.
    + intros [H | [Hle Hn]].
      * injection H as <- <-. rewrite Nat.sub_diag. split; [lia | reflexivity].
      * split; [lia|]. replace (t - a) with (S (t - S a)) by lia.
        exact Hn.
    + intros [Hle Hn]. destruct (t - a) as [|m] eqn:E.
      * left. injection Hn as <-. f_equal. lia.
      * right. split; [lia|]. replace (t - S a) with m by lia. exact Hn.
Qed.

Lemma In_enumerate {A} (l : list A) (t : nat) (x : A) :
  In (t, x) (enumerate l) <-> nth_error l t = Some x.
Proof.
  unfold enumerate. rewrite In_combine_seq, Nat.sub_0_r.
  split; [tauto | split; [lia | assumption]].
Qed.


(** A round that raises ends the loop of [AnalysisChain.run]: the rounds
    left are not run and no analysis is kept. *)
Lemma rounds_propagates
      (plugin_search : nat -> str -> option str -> result (list SearchResult))
      (llm_analyze : nat -> nat -> str -> str -> str -> result str)
      (completion : nat -> list nat) (self : AnalysisChain)
      (experts : list Expert) (question : str) (iteration : nat)
      (rest : list nat) (st : round_state) (e : exn) :
  run_round llm_analyze completion iteration experts question (context st)
  = Raise e ->
  rounds plugin_search llm_analyze completion self experts question
         (iteration :: rest) st
  = Raise e.
Proof. intros H. cbn [rounds]. now rewrite H. Qed.

End RoundFacts.




(** * More on the expert catalog *)

Section DictFacts.
Variable V : Type.

Lemma str_eqb_refl (a : str) : str_eqb a a = true.
Proof. now apply str_eqb_eq. Qed.

Lemma str_eqb_sym (a b : str) : str_eqb a b = str_eqb b a.
Proof.
  destruct (str_eqb a b) eqn:E1, (str_eqb b a) eqn:E2; try reflexivity.
  - apply str_eqb_eq in E1. subst. now rewrite str_eqb_refl in E2.
  - apply str_eqb_eq in E2. subst. now rewrite str_eqb_refl in E1.
Qed.

(** Lookup after an assignment. *)
Lemma dict_get_set (nm k : str) (v : V) (d : dict V) :
  dict_get nm (dict_set k v d)
  = if str_eqb nm k then Some v else dict_get nm d.
Proof.
  induction d as [|[k' v'] d IH]; simpl.
  - reflexivity.
  - destruct (str_eqb k k') eqn:E; simpl.
    + apply str_eqb_eq in E. subst k'.
      now destruct (str_eqb nm k).
    + rewrite IH. destruct (str_eqb nm k') eqn:E'; [|reflexivity].
      apply str_eqb_eq in E'. subst k'.
      rewrite str_eqb_sym, E. reflexivity.
Qed.

Lemma dict_set_keys (k : str) (v : V) (d : dict V) :
  map fst (dict_set k v d)
  = if existsb (str_eqb k) (map fst d) then map fst d
    else map fst d ++ [k].
Proof.
  induction d as [|[k' v'] d IH]; simpl.
  - reflexivity.
  - destruct (str_eqb k k') eqn:E; simpl.
    + apply str_eqb_eq in E. now subst.
    + rewrite IH. now destruct (existsb (str_eqb k) (map fst d)).
Qed.

Lemma existsb_str_eqb (k : str) (l : list str) :
  existsb (str_eqb k) l = true <-> In k l.
Proof.
  rewrite existsb_exists. split.
  - intros [x [Hin E]]. apply str_eqb_eq in E. now subst.
  - intros Hin. exists k. split; [exact Hin | apply str_eqb_refl].
Qed.

Lemma dict_set_NoDup (k : str) (v : V) (d : dict V) :
  NoDup (map fst d) -> NoDup (map fst (dict_set k v d)).
Proof.
  intros H. rewrite dict_set_keys.
  destruct (existsb (str_eqb k) (map fst d)) eqn:E; [exact H|].
  apply NoDup_app; [exact H | repeat constructor; intros [] | ].
  intros x Hx [<- | []].
  apply existsb_str_eqb in Hx. congruence.
Qed.

Lemma dict_set_In (k : str) (v : V) (d : dict V) (k' : str) (v' : V) :
  In (k', v') (dict_set k v d) -> (k', v') = (k, v) \/ In (k', v') d.
Proof.
  induction d as [|[k0 v0] d IH]; simpl.
  - intros [H | []]. left. now symmetry.
  - destruct (str_eqb k k0); simpl.
    + intros [H | H]; [left; now symmetry | right; now right].
    + intros [H | H]; [right; now left|].
      destruct (IH H) as [H' | H']; [now left | right; now right].
Qed.

End DictFacts.

Section ScanFacts.

(** The cache a scan builds: the parsed experts assigned under their names,
    in the order of the directory. *)
Lemma scan_parsed (entries : list dir_entry) (cache : dict Expert)
      (experts : list Expert) :
  scan entries cache experts
  = (fold_left (fun c e => dict_set (name e) e c) (parsed entries) cache,
     experts ++ parsed entries).
Proof.
  revert cache experts.
  induction entries as [|entry entries IH]; intros cache experts; simpl.
  - now rewrite app_nil_r.
  - destruct entry as [| |[expert|e]]; simpl; rewrite IH; try reflexivity.
    now rewrite <- app_assoc.
Qed.

Lemma find_app {A} (f : A -> bool) (l1 l2 : list A) :
  List.find f (l1 ++ l2)
  = match List.find f l1 with
    | Some x => Some x
    | None => List.find f l2
    end.
Proof.
  induction l1 as [|x l1 IH]; simpl; [reflexivity|].
  now destruct (f x).
Qed.

Lemma cache_get (nm : str) (experts : list Expert) (cache : dict Expert) :
  dict_get nm (fold_left (fun c e => dict_set (name e) e c) experts cache)
  = match last_named nm experts with
    | Some e => Some e
    | None => dict_get nm cache
    end.
Proof.
  unfold last_named. revert cache.
  induction experts as [|e experts IH]; intros cache; simpl.
  - reflexivity.
  - rewrite IH, find_app, dict_get_set. simpl.
    destruct (List.find _ (rev experts)); [reflexivity|].
    now destruct (str_eqb nm (name e)).
Qed.

(** What a cache built by scans holds: every binding is an expert of the
    scan under its own name, no name twice, every name of the scan. *)
Lemma cache_invariant (experts : list Expert) (cache : dict Expert) :
  let cache' := fold_left (fun c e => dict_set (name e) e c) experts cache in
  (NoDup (map fst cache) -> NoDup (map fst cache')) /\
  (forall k v, In (k, v) cache' ->
               In (k, v) cache \/ (k = name v /\ In v experts)) /\
  (forall e, In e experts -> In (name e) (map fst cache')) /\
  (forall k, In k (map fst cache) -> In k (map fst cache')).
Proof.
  revert cache. induction experts as [|e experts IH]; intros cache; simpl.
  - repeat split; auto. intros e [].
  - destruct (IH (dict_set (name e) e cache)) as [H1 [H2 [H3 H4]]].
    assert (Hkeep : forall k, In k (map fst cache) ->
                              In k (map fst (dict_set (name e) e cache))).
    { intros k Hk. rewrite dict_set_keys.
      destruct (existsb _ _); [exact Hk | apply in_or_app; now left]. }
    assert (Hnew : In (name e) (map fst (dict_set (name e) e cache))).
    { rewrite dict_set_keys.
      destruct (existsb _ _) eqn:E.
      - now apply existsb_str_eqb.
      - apply in_or_app. right. now left. }
    repeat split.
    + intros Hnd. apply H1. now apply dict_set_NoDup.
    + intros k v Hin. destruct (H2 k v Hin) as [Hc | [Hk Hv]].
      * apply dict_set_In in Hc as [Hc | Hc].
        -- injection Hc as -> ->. right. split; [reflexivity | now left].
        -- now left.
      * right. split; [exact Hk | now right].
    + intros e' [<- | Hin]; [now apply H4 | now apply H3].
    + intros k Hk. now apply H4, Hkeep.
Qed.

Lemma load_all_new (d : experts_dir) (reload : bool) :
  load_all (new_loader d) reload
  = (sort_by by_priority (catalog d),
     {| dir := d;
        _cache := fold_left (fun c e => dict_set (name e) e c)
                            (catalog d) [] |}).
Proof.
  unfold load_all, new_loader. simpl.
  destruct d as [|entries]; simpl; [reflexivity|].
  now rewrite scan_parsed.
Qed.

End ScanFacts.

(** X1. A scan of the directory lists exactly the experts whose file
    parses: entries that are no directory, hold no file or fail to parse are
    left out; the list is ascending by priority, and experts of equal
    priority keep the order of the directory. *)
Theorem load_all_scan_lists_parsed (d : experts_dir) (reload : bool)
        (k : Z) :
  let listed := fst (load_all (new_loader d) reload) in
  Permutation listed (catalog d) /\
  ascending by_priority listed /\
  with_key by_priority k listed = with_key by_priority k (catalog d).
Proof.
  rewrite load_all_new. simpl. split; [|split].
  - apply sort_by_perm.
  - apply sort_by_ascending.
  - apply sort_by_stable.
Qed.

(** X2. On a new loader [get_expert] scans the directory and answers the
    expert of that name that comes last in the directory, whatever the
    priorities; it answers [None] exactly when no parsed expert has the
    name. *)
Theorem get_expert_last_named (d : experts_dir) (nm : str) :
  fst (get_expert (new_loader d) nm) = last_named nm (catalog d) /\
  (fst (get_expert (new_loader d) nm) = None <->
   ~ In nm (map name (catalog d))).
Proof.
  assert (H : fst (get_expert (new_loader d) nm) = last_named nm (catalog d)).
  { unfold get_expert. cbn [nonempty new_loader _cache].
    rewrite load_all_new. cbn [fst snd _cache].
    rewrite cache_get. now destruct (last_named nm (catalog d)). }
  split; [exact H|]. rewrite H. unfold last_named. split.
  - intros Hnone Hin. apply in_map_iff in Hin as [e [<- Hin]].
    apply in_rev in Hin.
    pose proof (find_none _ _ Hnone e Hin) as Hf. simpl in Hf.
    rewrite str_eqb_refl in Hf. discriminate.
  - intros Hno. destruct (List.find _ _) as [e|] eqn:E; [|reflexivity].
    exfalso. apply Hno. apply find_some in E as [Hin Heq].
    apply str_eqb_eq in Heq. subst nm.
    apply in_map. now apply in_rev.
Qed.

(** X3. After a scan, a call served from the cache lists one expert for
    each name of the scan: no name twice, every listed expert one of the
    scan, every name of the scan listed, and never more experts than the
    scan listed. *)
Theorem load_all_cached_names (d : experts_dir) :
  let scanned := load_all (new_loader d) false in
  let cached := fst (load_all (snd scanned) false) in
  NoDup (map name cached) /\
  (forall e, In e cached -> In e (fst scanned)) /\
  (forall e, In e (fst scanned) -> In (name e) (map name cached)) /\
  length cached <= length (fst scanned).
Proof.
  rewrite load_all_new. cbn [fst snd].
  set (cache := fold_left (fun c e => dict_set (name e) e c) (catalog d) []).
  destruct (cache_invariant (catalog d) []) as [Hnd [Hin [Hall _]]].
  fold cache in Hnd, Hin, Hall.
  assert (Hnames : map name (dict_values cache) = map fst cache).
  { unfold dict_values. rewrite map_map. apply map_ext_in.
    intros [k v] Hkv. destruct (Hin k v Hkv) as [[] | [-> _]]. reflexivity. }
  assert (Hsub : forall e, In e (dict_values cache) -> In e (catalog d)).
  { intros e He. unfold dict_values in He.
    apply in_map_iff in He as [[k v] [<- Hkv]].
    destruct (Hin k v Hkv) as [[] | [_ Hv]]. exact Hv. }
  assert (Hperm : Permutation (sort_by by_priority (catalog d)) (catalog d))
    by apply sort_by_perm.
  assert (Hcached :
            fst (load_all {| dir := d; _cache := cache |} false)
            = dict_values cache
            \/ (cache = [] /\ catalog d = [])).
  { destruct cache as [|b cache'] eqn:Ec.
    - right. split; [reflexivity|].
      destruct (catalog d) as [|e l]; [reflexivity|].
      exfalso. apply (Hall e). now left.
    - left. reflexivity. }
  destruct Hcached as [-> | [Hc Hd]].
  - repeat split.
    + rewrite Hnames. apply Hnd. constructor.
    + intros e He. apply (Permutation_in _ (Permutation_sym Hperm)).
      now apply Hsub.
    + intros e He. rewrite Hnames. apply Hall.
      now apply (Permutation_in _ Hperm).
    + rewrite <- (length_map name (dict_values cache)).
      rewrite (Permutation_length Hperm).
      rewrite <- (length_map name (catalog d)).
      apply NoDup_incl_length.
      * rewrite Hnames. apply Hnd. constructor.
      * intros nm Hnm. apply in_map_iff in Hnm as [e [<- He]].
        apply in_map. now apply Hsub.
  - unfold load_all. rewrite Hc. simpl.
    destruct d as [|entries]; simpl in *.
    + repeat split; try constructor; intros e [].
    + rewrite scan_parsed. rewrite Hd. simpl.
      repeat split; try constructor; intros e [].
Qed.

Section SelectionFacts.
Variable lower : str -> str.

Lemma slice_to_firstn {A} (n : Z) (l : list A) :
  exists m, slice_to n l = firstn m l.
Proof.
  unfold slice_to. destruct (0 <=? n)%Z; eexists; reflexivity.
Qed.

Lemma slice_to_length {A} (n : Z) (l : list A) :
  length (slice_to n l)
  = if (0 <=? n)%Z then Nat.min (Z.to_nat n) (length l)
    else length l - Z.to_nat (- n).
Proof.
  unfold slice_to. destruct (0 <=? n)%Z; rewrite length_firstn; lia.
Qed.

(** In a list ascending by a key, an element in front of another has a key
    that is not greater. *)
Lemma ascending_order {A} (key : A -> Z) (pre : list A) (a : A)
      (mid : list A) (b : A) (post : list A) :
  ascending key (pre ++ a :: mid ++ b :: post) -> (key a <= key b)%Z.
Proof.
  unfold ascending. induction pre as [|x pre IH]; simpl; intros H.
  - inversion H as [|? ? _ Hall]; subst.
    rewrite Forall_forall in Hall. apply Hall.
    apply in_or_app. right. now left.
  - inversion H; subst. now apply IH.
Qed.

End SelectionFacts.

(** X4. When every priority of the catalog lies between 0 and 99, no expert
    that misses the query is ranked before one that matches it, whatever the
    limit. *)
Theorem find_relevant_experts_matching_first (lower : str -> str)
        (self : ExpertLoader) (query : str) (max_experts : Z)
        (pre : list Expert) (a : Expert) (mid : list Expert) (b : Expert)
        (post : list Expert) :
  (forall e, In e (fst (load_all self false)) ->
             (0 <= priority (metadata e) <= 99)%Z) ->
  fst (find_relevant_experts lower self query max_experts)
  = pre ++ a :: mid ++ b :: post ->
  matches_query lower b query = true ->
  matches_query lower a query = true.
Proof.
  intros Hprio Hres Hb.
  rewrite find_relevant_experts_sorted in Hres.
  set (all_experts := fst (load_all self false)) in *.
  set (sorted := sort_by (effective_key lower query) all_experts) in *.
  destruct (slice_to_firstn max_experts sorted) as [m Hm].
  rewrite Hm in Hres.
  assert (Hsorted : ascending (effective_key lower query)
                              (pre ++ a :: mid ++ (b :: post)
                               ++ skipn m sorted)).
  { replace (pre ++ a :: mid ++ (b :: post) ++ skipn m sorted)
      with ((pre ++ a :: mid ++ b :: post) ++ skipn m sorted)
      by (repeat (rewrite <- ?app_assoc; simpl); reflexivity).
    rewrite <- Hres, firstn_skipn. apply sort_by_ascending. }
  simpl in Hsorted. apply ascending_order in Hsorted.
  assert (Hin : forall e, In e (pre ++ a :: mid ++ b :: post) ->
                          In e all_experts).
  { intros e He. rewrite <- Hres in He.
    apply (Permutation_in _ (sort_by_perm (effective_key lower query)
                                           all_experts)). fold sorted.
    rewrite <- (firstn_skipn m sorted). apply in_or_app. now left. }
  assert (Ha : In a all_experts).
  { apply Hin. apply in_or_app. right. now left. }
  assert (Hb' : In b all_experts).
  { apply Hin. apply in_or_app. right. right.
    apply in_or_app. right. now left. }
  apply Hprio in Ha. apply Hprio in Hb'.
  unfold effective_key in Hsorted. rewrite Hb in Hsorted.
  destruct (matches_query lower a query); [reflexivity | lia].
Qed.

Lemma find_relevant_experts_matching_first_witness :
  (forall e, In e (fst (load_all (catalog_of [expert_B []; expert_A []])
                                 false)) ->
             (0 <= priority (metadata e) <= 99)%Z) /\
  fst (find_relevant_experts ascii_lower (catalog_of [expert_B []; expert_A []])
         (lit "stock policy") 4)
  = [] ++ expert_A [] :: [] ++ expert_B [] :: [] /\
  matches_query ascii_lower (expert_B []) (lit "stock policy") = true /\
  matches_query ascii_lower (expert_A []) (lit "stock policy") = true.
Proof.
  assert (Hp : forall e,
             In e (fst (load_all (catalog_of [expert_B []; expert_A []])
                                 false)) ->
             (0 <= priority (metadata e) <= 99)%Z).
  { simpl. intros e [<- | [<- | []]]; simpl; lia. }
  assert (Hr : fst (find_relevant_experts ascii_lower
                      (catalog_of [expert_B []; expert_A []])
                      (lit "stock policy") 4)
               = [] ++ expert_A [] :: [] ++ expert_B [] :: [])
    by reflexivity.
  assert (Hb : matches_query ascii_lower (expert_B []) (lit "stock policy")
               = true) by reflexivity.
  split; [exact Hp | split; [exact Hr | split; [exact Hb|]]].
  exact (@find_relevant_experts_matching_first ascii_lower
           (catalog_of [expert_B []; expert_A []]) (lit "stock policy") 4
           [] (expert_A []) [] (expert_B []) [] Hp Hr Hb).
Defined.

(** X5. [find_relevant_experts] returns experts of the catalog only, and as
    many as the slice [[:max_experts]] leaves: at most [max_experts] of them,
    and for a negative [max_experts] all but the last [-max_experts] of the
    ranking. *)
Theorem find_relevant_experts_size (lower : str -> str)
        (self : ExpertLoader) (query : str) (max_experts : Z) :
  let all_experts := fst (load_all self false) in
  let found := fst (find_relevant_experts lower self query max_experts) in
  (forall e, In e found -> In e all_experts) /\
  length found
  = if (0 <=? max_experts)%Z
    then Nat.min (Z.to_nat max_experts) (length all_experts)
    else length all_experts - Z.to_nat (- max_experts).
Proof.
  intros all_experts found. unfold found.
  rewrite find_relevant_experts_sorted. fold all_experts.
  pose proof (sort_by_perm (effective_key lower query) all_experts) as Hperm.
  split.
  - intros e He.
    destruct (slice_to_firstn max_experts
                (sort_by (effective_key lower query) all_experts))
      as [m Hm].
    rewrite Hm in He. apply (Permutation_in _ Hperm).
    rewrite <- (firstn_skipn m (sort_by _ _)). apply in_or_app. now left.
  - rewrite slice_to_length. now rewrite (Permutation_length Hperm).
Qed.

(** X6. An expert with a domain keyword that is empty in lower case matches
    every query: the empty string occurs in every text. *)
Theorem matches_query_empty_domain (lower : str -> str) (self : Expert)
        (domain query : str) :
  In domain (domains (metadata self)) ->
  lower domain = [] ->
  matches_query lower self query = true.
Proof.
  intros Hin Hd. unfold matches_query. apply orb_true_iff. left.
  apply existsb_exists. exists domain. split; [exact Hin|].
  rewrite Hd. now destruct (lower query).
Qed.

Lemma matches_query_empty_domain_witness :
  In [] (domains (metadata
                    {| name := lit "any"; description := [];
                       metadata := {| emoji := []; priority := 1;
                                      domains := [[]] |};
                       system_prompt := []; source_path := None |})) /\
  ascii_lower [] = [] /\
  matches_query ascii_lower
    {| name := lit "any"; description := [];
       metadata := {| emoji := []; priority := 1; domains := [[]] |};
       system_prompt := []; source_path := None |}
    (lit "weather") = true.
Proof.
  assert (Hin : In [] (domains (metadata
                    {| name := lit "any"; description := [];
                       metadata := {| emoji := []; priority := 1;
                                      domains := [[]] |};
                       system_prompt := []; source_path := None |})))
    by (simpl; now left).
  assert (Hl : ascii_lower [] = []) by reflexivity.
  split; [exact Hin | split; [exact Hl|]].
  exact (@matches_query_empty_domain ascii_lower _ [] (lit "weather") Hin Hl).
Defined.

(** * More on the analysis chain *)

Section GatherFacts.

Lemma gather_ok {A} (order : list nat) (tasks : list (result A))
      (values : list A) :
  gather order tasks = Ok values <-> collect tasks = Ok values.
Proof.
  unfold gather. destruct (collect tasks); split; congruence.
Qed.

Lemma collect_ok {A} (tasks : list (result A)) (values : list A) :
  collect tasks = Ok values <-> Forall2 (fun t v => t = Ok v) tasks values.
Proof.
  revert values. induction tasks as [|t tasks IH]; intros values; simpl.
  - split.
    + intros H. injection H as <-. constructor.
    + intros H. now inversion H.
  - destruct t as [a|e].
    + destruct (collect tasks) as [l|e] eqn:E; simpl.
      * split.
        -- intros H. injection H as <-. constructor; [reflexivity|].
           now apply IH.
        -- intros H. inversion H as [|? v ? vs Hv Hvs]; subst.
           injection Hv as <-. apply IH in Hvs. now injection Hvs as <-.
      * split; [discriminate|].
        intros H. inversion H as [|? v ? vs Hv Hvs]; subst.
        apply IH in Hvs. discriminate.
    + split; [discriminate|].
      intros H. inversion H as [|? v ? vs Hv Hvs]; subst. discriminate.
Qed.

Lemma Forall2_map_l {A B C} (R : B -> C -> Prop) (f : A -> B)
      (l : list A) (l' : list C) :
  Forall2 R (map f l) l' <-> Forall2 (fun x y => R (f x) y) l l'.
Proof.
  revert l'. induction l as [|x l IH]; intros l'; simpl.
  - split; intros H; inversion H; constructor.
  - split; intros H; inversion H; subst; constructor; auto; now apply IH.
Qed.

Lemma Forall2_exists {A B} (R : A -> B -> Prop) (l : list A) :
  (forall x, In x l -> exists y, R x y) -> exists l', Forall2 R l l'.
Proof.
  induction l as [|x l IH]; intros H.
  - exists []. constructor.
  - destruct (H x (or_introl eq_refl)) as [y Hy].
    destruct IH as [l' Hl']; [intros x' Hx'; apply H; now right|].
    exists (y :: l'). now constructor.
Qed.

Lemma Forall2_nth_error {A B} (R : A -> B -> Prop) (l : list A)
      (l' : list B) (n : nat) (x : A) :
  Forall2 R l l' -> nth_error l n = Some x ->
  exists y, nth_error l' n = Some y /\ R x y.
Proof.
  intros H. revert n. induction H as [|a b l l' Hab _ IH]; intros n.
  - now destruct n.
  - destruct n as [|n]; simpl.
    + intros E. injection E as <-. now exists b.
    + apply IH.
Qed.

End GatherFacts.

Section ChainFacts.
Variable lower : str -> str.
Variable HAS_STOCK_PLUGIN : bool.
Variable get_stock_context : str -> result str.
Variable plugin_search : nat -> str -> option str -> result (list SearchResult).
Variable llm_analyze : nat -> nat -> str -> str -> str -> result str.
Variable llm_generate : str -> result str.
Variable completion : nat -> list nat.

Local Abbreviation run_round := (run_round llm_analyze completion).
Local Abbreviation rounds := (rounds plugin_search llm_analyze completion).
Local Abbreviation run :=
  (Chain.run lower HAS_STOCK_PLUGIN get_stock_context plugin_search
             llm_analyze llm_generate completion).

(** The analyses of a round that returns follow the experts one by one. *)
Lemma run_round_ok (i : nat) (experts : list Expert)
      (question context : str) (analyses : list ExpertAnalysis) :
  run_round i experts question context = Ok analyses <->
  Forall2 (fun '(t, expert) a =>
             analyze_with_expert llm_analyze i t expert question context
             = Ok a)
          (enumerate experts) analyses.
Proof.
  unfold Chain.run_round. rewrite gather_ok, collect_ok, Forall2_map_l.
  split; intros H; (eapply Forall2_impl; [|exact H]);
    intros [t expert] a; auto.
Qed.

Lemma analyze_with_expert_ok (i t : nat) (expert : Expert)
      (question context : str) (a : ExpertAnalysis) :
  analyze_with_expert llm_analyze i t expert question context = Ok a <->
  llm_analyze i t question (system_prompt expert) context = Ok (analysis a) /\
  expert_name a = name expert /\
  expert_emoji a = emoji (metadata expert) /\
  key_points a = [].
Proof.
  unfold analyze_with_expert.
  destruct (llm_analyze i t question (system_prompt expert) context)
    as [text|e]; simpl.
  - split.
    + intros H. injection H as <-. simpl. auto.
    + intros [H [Hn [He Hk]]]. injection H as ->.
      destruct a; simpl in *. now subst.
  - split; [discriminate | intros [H _]; discriminate].
Qed.

Lemma run_round_names (i : nat) (experts : list Expert)
      (question context : str) (analyses : list ExpertAnalysis) :
  run_round i experts question context = Ok analyses ->
  map expert_name analyses = map name experts /\
  map expert_emoji analyses = map (fun e => emoji (metadata e)) experts.
Proof.
  rewrite run_round_ok. unfold enumerate.
  generalize 0 as a. revert analyses.
  induction experts as [|e experts IH]; intros analyses a H; simpl in H.
  - inversion H. now split.
  - inversion H as [|? x ? xs Hx Hxs]; subst.
    apply analyze_with_expert_ok in Hx as [_ [Hn [He _]]].
    destruct (IH _ _ Hxs) as [IH1 IH2]. simpl.
    now rewrite Hn, He, IH1, IH2.
Qed.

(** The search results and the analyses after the rounds [its]. *)
Lemma rounds_ok (self : AnalysisChain) (experts : list Expert)
      (question : str) (its : list nat) (st st' : round_state) :
  rounds self experts question its st = Ok st' ->
  found st' = found st ++ flat_map (supplement plugin_search self question)
                                   its /\
  (its = [] -> st' = st) /\
  (its <> [] ->
   map expert_name (all_analyses st') = map name experts /\
   map expert_emoji (all_analyses st')
   = map (fun e => emoji (metadata e)) experts).
Proof.
  revert st. induction its as [|i its IH]; intros st; cbn [Chain.rounds].
  - intros H. injection H as <-. simpl. rewrite app_nil_r.
    repeat split; congruence.
  - destruct (run_round i experts question (context st)) as [analyses|e]
      eqn:Hround; [|discriminate].
    cbn [bind]. intros H. apply IH in H as [Hfound [Hnil Hcons]].
    apply run_round_names in Hround.
    assert (Hstep :
              forall st1,
                st1 = (if (Z.of_nat i <? Chain.max_iterations self - 1)%Z
                       then
                         if nonempty (Chain.search plugin_search (S i)
                                        (question ++ supplement_suffix) true)
                         then {| all_analyses := analyses;
                                 found := found st ++
                                   slice_to 3 (Chain.search plugin_search
                                     (S i) (question ++ supplement_suffix)
                                     true);
                                 context := context st ++ [10; 10]%N ++
                                   join [10; 10]%N
                                     (map format_result
                                        (slice_to 3
                                           (Chain.search plugin_search (S i)
                                              (question ++ supplement_suffix)
                                              true))) |}
                         else {| all_analyses := analyses;
                                 found := found st;
                                 context := context st |}
                       else {| all_analyses := analyses;
                               found := found st;
                               context := context st |}) ->
                found st1
                = found st ++ supplement plugin_search self question i /\
                all_analyses st1 = analyses).
    { intros st1 ->. unfold supplement.
      destruct (Z.of_nat i <? Chain.max_iterations self - 1)%Z.
      - destruct (Chain.search plugin_search (S i)
                    (question ++ supplement_suffix) true); simpl.
        + now rewrite app_nil_r.
        + now split.
      - simpl. now rewrite app_nil_r. }
    destruct (Hstep _ eq_refl) as [Hf Ha].
    split; [|split].
    + rewrite Hfound, Hf. simpl. now rewrite app_assoc.
    + discriminate.
    + intros _. destruct its as [|j its].
      * rewrite (Hnil eq_refl), Ha. exact Hround.
      * apply Hcons. discriminate.
Qed.

End ChainFacts.

Lemma nth_error_combine_seq {A} (l : list A) (a t : nat) :
  nth_error (combine (seq a (length l)) l) t
  = option_map (fun x => (a + t, x)) (nth_error l t).
Proof.
  revert a t. induction l as [|x l IH]; intros a t; simpl.
  - now destruct t.
  - destruct t as [|t]; simpl.
    + now rewrite Nat.add_0_r.
    + rewrite IH. destruct (nth_error l t); simpl; [|reflexivity].
      do 2 f_equal. lia.
Qed.

(** X7. When the generation call of every expert of a round returns, the
    round returns one analysis for each expert, in the order of the experts
    and not in the order in which the calls end: the analysis at the place of
    an expert carries the name and the emoji of that expert and the text the
    model returned for it. *)
Theorem run_round_one_per_expert
        (llm_analyze : nat -> nat -> str -> str -> str -> result str)
        (completion : nat -> list nat) (i : nat) (experts : list Expert)
        (question context : str) :
  (forall t expert,
      nth_error experts t = Some expert ->
      exists text,
        llm_analyze i t question (system_prompt expert) context = Ok text) ->
  exists analyses,
    run_round llm_analyze completion i experts question context
    = Ok analyses /\
    length analyses = length experts /\
    forall t expert,
      nth_error experts t = Some expert ->
      exists a,
        nth_error analyses t = Some a /\
        llm_analyze i t question (system_prompt expert) context
        = Ok (analysis a) /\
        expert_name a = name expert /\
        expert_emoji a = emoji (metadata expert).
Proof.
  intros Hall.
  destruct (Forall2_exists
              (fun '(t, expert) a =>
                 analyze_with_expert llm_analyze i t expert question context
                 = Ok a)
              (enumerate experts)) as [analyses HF].
  { intros [t expert] Hin. apply In_enumerate in Hin.
    destruct (Hall t expert Hin) as [text Htext].
    unfold analyze_with_expert. rewrite Htext. simpl. eexists. reflexivity. }
  exists analyses. split; [now apply run_round_ok|]. split.
  - apply Forall2_length in HF. rewrite <- HF. unfold enumerate.
    rewrite length_combine, length_seq. lia.
  - intros t expert Hn.
    assert (He : nth_error (enumerate experts) t = Some (t, expert)).
    { unfold enumerate. rewrite nth_error_combine_seq, Hn. reflexivity. }
    destruct (@Forall2_nth_error _ _ _ _ _ t (t, expert) HF He)
      as [a [Ha HR]].
    exists a. split; [exact Ha|].
    apply analyze_with_expert_ok in HR as [H1 [H2 [H3 _]]]. auto.
Qed.

Lemma run_round_one_per_expert_witness :
  exists analyses,
    run_round (fun _ t _ _ _ => Ok (lit "fine")) (fun _ => [1; 0]) 0
      [expert_A []; expert_B []] (lit "A-shares?") no_context
    = Ok analyses /\
    map expert_name analyses = [lit "A"; lit "B"].
Proof.
  destruct (@run_round_one_per_expert (fun _ t _ _ _ => Ok (lit "fine"))
              (fun _ => [1; 0]) 0 [expert_A []; expert_B []]
              (lit "A-shares?") no_context) as [analyses [Hr _]].
  - intros t expert _. now exists (lit "fine").
  - exists analyses. split; [exact Hr|].
    vm_compute in Hr. injection Hr as <-. reflexivity.
Defined.

Section RunFacts.
Variable lower : str -> str.
Variable HAS_STOCK_PLUGIN : bool.
Variable get_stock_context : str -> result str.
Variable plugin_search : nat -> str -> option str -> result (list SearchResult).
Variable llm_analyze : nat -> nat -> str -> str -> str -> result str.
Variable llm_generate : str -> result str.
Variable completion : nat -> list nat.

Local Abbreviation run :=
  (Chain.run lower HAS_STOCK_PLUGIN get_stock_context plugin_search
             llm_analyze llm_generate completion).

(** What a call of the chain that returns has gone through. *)
Lemma run_ok (self : AnalysisChain) (question : str)
      (expert_names : option (list str)) (r : AnalysisResult) :
  fst (run self question expert_names) = Ok r ->
  let experts := selected_experts lower self question expert_names in
  experts <> [] /\
  exists context0 st,
    Chain.rounds plugin_search llm_analyze completion self experts question
                 (seq 0 (Z.to_nat (Chain.max_iterations self)))
                 {| all_analyses := [];
                    found := Chain.search plugin_search 0 question false;
                    context := context0 |}
    = Ok st /\
    Chain.question r = question /\
    search_results r = found st /\
    expert_analyses r = all_analyses st /\
    iteration_count r = Chain.max_iterations self.
Proof.
  unfold Chain.run, selected_experts.
  destruct (match expert_names with
            | Some ((_ :: _) as names) =>
                lookup_names (expert_loader self) names
            | _ => find_relevant_experts lower (expert_loader self)
                                         question 4
            end) as [experts loader].
  cbn [fst]. destruct experts as [|e experts]; [discriminate|].
  cbn [nonempty negb fst].
  match goal with
  | |- context [Chain.rounds _ _ _ _ _ _ _ ?st0] =>
      destruct (Chain.rounds plugin_search llm_analyze completion self
                  (e :: experts) question
                  (seq 0 (Z.to_nat (Chain.max_iterations self))) st0)
        as [st|err] eqn:Hrounds; [|discriminate]
  end.
  cbn [bind].
  destruct (generate_consensus llm_generate question (all_analyses st))
    as [consensus|err]; [|discriminate].
  cbn [bind]. intros H. injection H as <-.
  split; [discriminate|].
  eexists _, st. split; [exact Hrounds|]. simpl. auto.
Qed.

(** The supplemental searches happen in all rounds but the last. *)
Lemma supplement_count (self : AnalysisChain) (question : str) :
  length (flat_map (supplement plugin_search self question)
                   (seq 0 (Z.to_nat (Chain.max_iterations self))))
  <= 3 * (Z.to_nat (Chain.max_iterations self) - 1).
Proof.
  assert (H : forall n a,
             length (flat_map (supplement plugin_search self question)
                              (seq a n))
             <= 3 * (Nat.min (a + n)
                             (Z.to_nat (Chain.max_iterations self) - 1) - a)).
  { induction n as [|n IH]; intros a; simpl; [lia|].
    rewrite length_app. specialize (IH (S a)).
    assert (Hs : length (supplement plugin_search self question a)
                 <= if (Z.of_nat a <? Chain.max_iterations self - 1)%Z
                    then 3 else 0).
    { unfold supplement.
      destruct (Z.of_nat a <? Chain.max_iterations self - 1)%Z;
        [|simpl; lia].
      rewrite slice_to_length. cbn [Z.leb Z.compare].
      change (Z.to_nat 3) with 3. lia. }
    destruct (Z.ltb_spec (Z.of_nat a) (Chain.max_iterations self - 1));
      lia. }
  specialize (H (Z.to_nat (Chain.max_iterations self)) 0). lia.
Qed.

(** The rounds run one after the other. *)
Lemma rounds_app (self : AnalysisChain) (experts : list Expert)
      (question : str) (its1 its2 : list nat) (st : round_state) :
  Chain.rounds plugin_search llm_analyze completion self experts question
               (its1 ++ its2) st
  = bind (Chain.rounds plugin_search llm_analyze completion self experts
                       question its1 st)
         (Chain.rounds plugin_search llm_analyze completion self experts
                       question its2).
Proof.
  revert st. induction its1 as [|i its1 IH]; intros st;
    cbn [Chain.rounds app].
  - reflexivity.
  - destruct (run_round llm_analyze completion i experts question
                        (context st)); cbn [bind]; [apply IH | reflexivity].
Qed.

(** The analyses kept are those of the last round, run in the context that
    the rounds before it leave. *)
Lemma rounds_last (self : AnalysisChain) (experts : list Expert)
      (question : str) (m : nat) (st0 st' : round_state) :
  Chain.rounds plugin_search llm_analyze completion self experts question
               (seq 0 (S m)) st0 = Ok st' ->
  exists st,
    Chain.rounds plugin_search llm_analyze completion self experts question
                 (seq 0 m) st0 = Ok st /\
    run_round llm_analyze completion m experts question (context st)
    = Ok (all_analyses st').
Proof.
  rewrite seq_S, rounds_app.
  destruct (Chain.rounds plugin_search llm_analyze completion self experts
                         question (seq 0 m) st0) as [st|e]; [|discriminate].
  cbn [bind Chain.rounds Nat.add].
  destruct (run_round llm_analyze completion m experts question (context st))
    as [analyses|e] eqn:E; [|discriminate].
  cbn [bind]. intros H. injection H as <-.
  exists st. split; [reflexivity|]. rewrite E. f_equal.
  destruct (Z.of_nat m <? Chain.max_iterations self - 1)%Z; [|reflexivity].
  now destruct (nonempty _).
Qed.

(** The rounds of a call that returns start from the first context. *)
Lemma run_first_context (self : AnalysisChain) (question : str)
      (expert_names : option (list str)) (r : AnalysisResult) :
  fst (run self question expert_names) = Ok r ->
  exists st,
    Chain.rounds plugin_search llm_analyze completion self
                 (selected_experts lower self question expert_names) question
                 (seq 0 (Z.to_nat (Chain.max_iterations self)))
                 {| all_analyses := [];
                    found := Chain.search plugin_search 0 question false;
                    context :=
                      first_context
                        (if HAS_STOCK_PLUGIN
                         then match get_stock_context question with
                              | Ok s => s
                              | Raise _ => []
                              end
                         else [])
                        (Chain.search plugin_search 0 question false) |}
    = Ok st /\
    expert_analyses r = all_analyses st.
Proof.
  unfold Chain.run, selected_experts.
  destruct (match expert_names with
            | Some ((_ :: _) as names) =>
                lookup_names (expert_loader self) names
            | _ => find_relevant_experts lower (expert_loader self)
                                         question 4
            end) as [experts loader].
  cbn [fst]. destruct experts as [|e experts]; [discriminate|].
  cbn [nonempty negb fst].
  match goal with
  | |- context [Chain.rounds _ _ _ _ _ _ _ ?st0] =>
      destruct (Chain.rounds plugin_search llm_analyze completion self
                  (e :: experts) question
                  (seq 0 (Z.to_nat (Chain.max_iterations self))) st0)
        as [st|err] eqn:Hrounds; [|discriminate]
  end.
  cbn [bind].
  destruct (generate_consensus llm_generate question (all_analyses st))
    as [consensus|err]; [|discriminate].
  cbn [bind]. intros H. injection H as <-.
  exists st. split; [exact Hrounds | reflexivity].
Qed.

End RunFacts.

(** X8. A call of the chain that returns holds the analyses of the last
    round only: one for each expert selected, in their order, each with the
    text that the model returned for that expert in the last round, on the
    question and the context that the rounds before it leave.  Its
    [iteration_count] is the number of rounds configured, and with no round
    configured it holds no analysis at all. *)
Theorem run_result_analyses (lower : str -> str) (HAS_STOCK_PLUGIN : bool)
        (get_stock_context : str -> result str)
        (plugin_search : nat -> str -> option str ->
                         result (list SearchResult))
        (llm_analyze : nat -> nat -> str -> str -> str -> result str)
        (llm_generate : str -> result str) (completion : nat -> list nat)
        (self : AnalysisChain) (question : str)
        (expert_names : option (list str)) (r : AnalysisResult) :
  fst (Chain.run lower HAS_STOCK_PLUGIN get_stock_context plugin_search
                 llm_analyze llm_generate completion self question
                 expert_names) = Ok r ->
  let experts := selected_experts lower self question expert_names in
  let last_round := Z.to_nat (Chain.max_iterations self) - 1 in
  let stock_context :=
    if HAS_STOCK_PLUGIN
    then match get_stock_context question with
         | Ok s => s
         | Raise _ => []
         end
    else [] in
  let first_search := Chain.search plugin_search 0 question false in
  experts <> [] /\
  iteration_count r = Chain.max_iterations self /\
  ((1 <= Chain.max_iterations self)%Z ->
   map expert_name (expert_analyses r) = map name experts /\
   map expert_emoji (expert_analyses r)
   = map (fun e => emoji (metadata e)) experts /\
   exists st,
     Chain.rounds plugin_search llm_analyze completion self experts question
                  (seq 0 last_round)
                  {| all_analyses := [];
                     found := first_search;
                     context := first_context stock_context first_search |}
     = Ok st /\
     forall t expert,
       nth_error experts t = Some expert ->
       exists a,
         nth_error (expert_analyses r) t = Some a /\
         llm_analyze last_round t question (system_prompt expert)
                     (context st)
         = Ok (analysis a)) /\
  ((Chain.max_iterations self <= 0)%Z -> expert_analyses r = []).
Proof.
  intros H.
  pose proof (run_first_context _ _ _ _ _ _ _ _ _ _ H) as [st1 [Hr1 Ha1]].
  apply run_ok in H as [Hne [context0 [st [Hr [_ [_ [Ha Hi]]]]]]].
  apply rounds_ok in Hr as [_ [Hnil Hcons]].
  intros experts last_round stock_context first_search.
  split; [exact Hne | split; [exact Hi | split]].
  - intros Hmax.
    destruct (Z.to_nat (Chain.max_iterations self)) as [|m] eqn:E; [lia|].
    destruct Hcons as [Hnames Hemoji]; [discriminate|].
    split; [now rewrite Ha|]. split; [now rewrite Ha|].
    apply rounds_last in Hr1 as [st0 [Hprev Hlast]].
    assert (Hm : last_round = m) by (unfold last_round; lia).
    rewrite Hm. exists st0. split; [exact Hprev|].
    intros t expert Hn. rewrite Ha1.
    apply run_round_ok in Hlast.
    assert (He : nth_error (enumerate experts) t = Some (t, expert)).
    { unfold enumerate. rewrite nth_error_combine_seq, Hn. reflexivity. }
    destruct (@Forall2_nth_error _ _ _ _ _ t (t, expert) Hlast He)
      as [a [Hnth HR]].
    exists a. split; [exact Hnth|].
    now apply analyze_with_expert_ok in HR as [H1 _].
  - intros Hmax. rewrite Ha, Hnil; [reflexivity|].
    replace (Z.to_nat (Chain.max_iterations self)) with 0 by lia.
    reflexivity.
Qed.

(** X9. The search results of a call that returns begin with the results
    of the first search, in their order, followed by at most 3 results for
    every round but the last. *)
Theorem run_result_search_results (lower : str -> str)
        (HAS_STOCK_PLUGIN : bool) (get_stock_context : str -> result str)
        (plugin_search : nat -> str -> option str ->
                         result (list SearchResult))
        (llm_analyze : nat -> nat -> str -> str -> str -> result str)
        (llm_generate : str -> result str) (completion : nat -> list nat)
        (self : AnalysisChain) (question : str)
        (expert_names : option (list str)) (r : AnalysisResult) :
  fst (Chain.run lower HAS_STOCK_PLUGIN get_stock_context plugin_search
                 llm_analyze llm_generate completion self question
                 expert_names) = Ok r ->
  exists added,
    search_results r
    = Chain.search plugin_search 0 question false ++ added /\
    length added <= 3 * (Z.to_nat (Chain.max_iterations self) - 1).
Proof.
  intros H. apply run_ok in H as [_ [context0 [st [Hr [_ [Hs _]]]]]].
  apply rounds_ok in Hr as [Hfound _]. simpl in Hfound.
  eexists. split; [rewrite Hs; exact Hfound|].
  apply supplement_count.
Qed.

Lemma run_result_analyses_witness :
  exists r,
    fst (Chain.run ascii_lower false (fun _ => Ok []) one_hit_search
           (fun _ _ _ _ _ => Ok (lit "fine")) (fun _ => Ok (lit "mixed"))
           (fun _ => []) example_chain (lit "stock outlook") None)
    = Ok r /\
    iteration_count r = 2%Z /\
    map expert_name (expert_analyses r) = [lit "A"; lit "B"].
Proof.
  eexists. split; [vm_compute; reflexivity|].
  destruct (@run_result_analyses ascii_lower false (fun _ => Ok [])
              one_hit_search (fun _ _ _ _ _ => Ok (lit "fine"))
              (fun _ => Ok (lit "mixed")) (fun _ => []) example_chain
              (lit "stock outlook") None _ eq_refl)
    as [_ [Hi [Hn _]]].
  split; [exact Hi|].
  exact (proj1 (Hn ltac:(vm_compute; discriminate))).
Defined.

Lemma run_result_search_results_witness :
  exists r added,
    fst (Chain.run ascii_lower false (fun _ => Ok []) one_hit_search
           (fun _ _ _ _ _ => Ok (lit "fine")) (fun _ => Ok (lit "mixed"))
           (fun _ => []) example_chain (lit "stock outlook") None)
    = Ok r /\
    search_results r = [one_hit] ++ added /\
    length added <= 3.
Proof.
  eexists.
  destruct (@run_result_search_results ascii_lower false (fun _ => Ok [])
              one_hit_search (fun _ _ _ _ _ => Ok (lit "fine"))
              (fun _ => Ok (lit "mixed")) (fun _ => []) example_chain
              (lit "stock outlook") None _ eq_refl)
    as [added [Hs Hl]].
  exists added. split; [reflexivity | split; [exact Hs | exact Hl]].
Defined.

Section NoExperts.
Variable lower : str -> str.

Lemma load_all_nothing (self : ExpertLoader) (reload : bool) :
  _cache self = [] -> catalog (dir self) = [] ->
  load_all self reload = ([], self).
Proof.
  destruct self as [d cache]. simpl. intros -> Hd.
  unfold load_all. simpl. destruct d as [|entries]; simpl; [reflexivity|].
  rewrite scan_parsed. simpl in Hd. now rewrite Hd.
Qed.

Lemma lookup_names_nothing (self : ExpertLoader) (names : list str) :
  _cache self = [] -> catalog (dir self) = [] ->
  lookup_names self names = ([], self).
Proof.
  intros Hc Hd. induction names as [|nm names IH]; simpl; [reflexivity|].
  unfold get_expert. rewrite Hc. cbn [nonempty].
  rewrite (load_all_nothing self false Hc Hd). cbn [snd].
  rewrite Hc. cbn [dict_get]. now rewrite IH.
Qed.

End NoExperts.

(** X10. With no expert to find (the directory is missing, or none of its
    entries parses) and nothing cached, the chain raises the [ValueError] of
    line 209 for every question, with or without names given, whatever the
    search providers and the model would answer. *)
Theorem run_no_experts (lower : str -> str) (HAS_STOCK_PLUGIN : bool)
        (get_stock_context : str -> result str)
        (plugin_search : nat -> str -> option str ->
                         result (list SearchResult))
        (llm_analyze : nat -> nat -> str -> str -> str -> result str)
        (llm_generate : str -> result str) (completion : nat -> list nat)
        (self : AnalysisChain) (question : str)
        (expert_names : option (list str)) :
  _cache (expert_loader self) = [] ->
  catalog (dir (expert_loader self)) = [] ->
  fst (Chain.run lower HAS_STOCK_PLUGIN get_stock_context plugin_search
                 llm_analyze llm_generate completion self question
                 expert_names)
  = Raise (ValueError no_experts_message).
Proof.
  intros Hc Hd. unfold Chain.run.
  assert (H : (match expert_names with
               | Some ((_ :: _) as names) =>
                   lookup_names (expert_loader self) names
               | _ => find_relevant_experts lower (expert_loader self)
                                            question 4
               end) = ([], expert_loader self)).
  { assert (Hf : find_relevant_experts lower (expert_loader self) question 4
                 = ([], expert_loader self)).
    { unfold find_relevant_experts.
      now rewrite (load_all_nothing (expert_loader self) false Hc Hd). }
    destruct expert_names as [[|nm names]|]; try exact Hf.
    now apply lookup_names_nothing. }
  rewrite H. reflexivity.
Qed.

Lemma run_no_experts_witness :
  fst (Chain.run ascii_lower true (fun _ => Ok (lit "quotes")) one_hit_search
         (fun _ _ _ _ _ => Ok (lit "fine")) (fun _ => Ok (lit "mixed"))
         (fun _ => [])
         {| expert_loader := new_loader (Directory [NotADir; NoExpertFile;
                                           ExpertFile (Raise (ValueError []))]);
            Chain.max_iterations := 3 |}
         (lit "stock outlook") (Some [lit "A"]))
  = Raise (ValueError no_experts_message).
Proof.
  apply run_no_experts; reflexivity.
Defined.

(** * The plugin manager *)

Section RegistryFacts.
Variable V : Type.
Variable key : V -> str.

Let assign (d : dict V) (v : V) : dict V := dict_set (key v) v d.

Lemma assigned_get (nm : str) (l : list V) (d : dict V) :
  dict_get nm (fold_left assign l d)
  = match List.find (fun v => str_eqb nm (key v)) (rev l) with
    | Some v => Some v
    | None => dict_get nm d
    end.
Proof.
  unfold assign. revert d. induction l as [|v l IH]; intros d; simpl.
  - reflexivity.
  - rewrite IH, find_app, dict_get_set. simpl.
    destruct (List.find _ (rev l)); [reflexivity|].
    now destruct (str_eqb nm (key v)).
Qed.

(** Assignments never move the first key of a dict. *)
Lemma assigned_head (l : list V) (k : str) (v : V) (d : dict V) :
  exists v' d', fold_left assign l ((k, v) :: d) = (k, v') :: d'.
Proof.
  unfold assign. revert v d. induction l as [|x l IH]; intros v d; simpl.
  - now exists v, d.
  - destruct (str_eqb (key x) k) eqn:E.
    + apply str_eqb_eq in E. rewrite E. apply IH.
    + apply IH.
Qed.

(** The first value of the dict that a sequence of assignments builds: the
    last value assigned under the key of the first. *)
Lemma assigned_first_value (first : V) (rest : list V) :
  exists v d',
    fold_left assign (first :: rest) [] = (key first, v) :: d' /\
    List.find (fun x => str_eqb (key first) (key x)) (rev (first :: rest))
    = Some v.
Proof.
  destruct (assigned_head rest (key first) first []) as [v [d' H]].
  exists v, d'. split; [exact H|].
  pose proof (assigned_get (key first) (first :: rest) []) as Hg.
  change (fold_left assign (first :: rest) [])
    with (fold_left assign rest [(key first, first)]) in Hg.
  rewrite H in Hg. simpl dict_get in Hg. rewrite str_eqb_refl in Hg.
  destruct (List.find _ (rev (first :: rest))) as [x|] eqn:E.
  - now injection Hg as ->.
  - discriminate.
Qed.

End RegistryFacts.

Lemma register_all_search_plugins (plugins : list Plugins.Plugin)
      (pm : Plugins.PluginManager) :
  Plugins._search_plugins (fold_left Plugins.register plugins pm)
  = fold_left (fun d p => dict_set (Plugins.name p) p d)
              (filter Plugins.is_search plugins)
              (Plugins._search_plugins pm).
Proof.
  revert pm. induction plugins as [|p plugins IH]; intros pm; simpl.
  - reflexivity.
  - rewrite IH. unfold Plugins.register.
    destruct (Plugins.is_search p); simpl; [reflexivity|].
    now destruct (Plugins.is_export p).
Qed.

(** X11. Registering a plugin makes it the plugin of its name and leaves
    the plugins of other names as they were.  A plugin that is no search
    plugin never changes the search plugins: a search plugin registered
    before under the same name stays the search engine of that name. *)
Theorem register_lookup (pm : Plugins.PluginManager) (p : Plugins.Plugin) :
  Plugins.get_plugin (Plugins.register pm p) (Plugins.name p) = Some p /\
  (forall nm, nm <> Plugins.name p ->
              Plugins.get_plugin (Plugins.register pm p) nm
              = Plugins.get_plugin pm nm) /\
  (Plugins.is_search p = true ->
   Plugins.get_search_plugin (Plugins.register pm p) (Plugins.name p)
   = Some p) /\
  (Plugins.is_search p = false ->
   forall nm, Plugins.get_search_plugin (Plugins.register pm p) nm
              = Plugins.get_search_plugin pm nm).
Proof.
  unfold Plugins.get_plugin, Plugins.get_search_plugin, Plugins.register.
  repeat split.
  - destruct (Plugins.is_search p); [|destruct (Plugins.is_export p)];
      simpl; now rewrite dict_get_set, str_eqb_refl.
  - intros nm Hnm.
    assert (E : str_eqb nm (Plugins.name p) = false).
    { destruct (str_eqb nm (Plugins.name p)) eqn:E; [|reflexivity].
      apply str_eqb_eq in E. contradiction. }
    destruct (Plugins.is_search p); [|destruct (Plugins.is_export p)];
      simpl; now rewrite dict_get_set, E.
  - intros ->. simpl. now rewrite dict_get_set, str_eqb_refl.
  - intros -> nm. now destruct (Plugins.is_export p).
Qed.

(** X12. Without an engine named, a search goes to the search plugin
    registered first; when plugins were registered again under that name,
    to the last of them.  With no search plugin registered it raises. *)
Theorem search_default_engine (plugins : list Plugins.Plugin) (k : nat)
        (query : str) (max_results : Z) :
  (filter Plugins.is_search plugins = [] ->
   Plugins.search (Plugins.register_all plugins) k query None max_results
   = Raise (ValueError (lit "No search plugins registered"))) /\
  (forall first rest,
      filter Plugins.is_search plugins = first :: rest ->
      exists p,
        List.find (fun x => str_eqb (Plugins.name first) (Plugins.name x))
                  (rev (first :: rest)) = Some p /\
        Plugins.search (Plugins.register_all plugins) k query None
                       max_results
        = Plugins.plugin_search p k query max_results).
Proof.
  unfold Plugins.search, Plugins.register_all.
  rewrite register_all_search_plugins. split.
  - intros ->. reflexivity.
  - intros first rest ->.
    destruct (assigned_first_value Plugins.name first rest)
      as [p [d' [Hd Hp]]].
    exists p. split; [exact Hp|].
    cbn [Plugins._search_plugins Plugins.empty].
    rewrite Hd. reflexivity.
Qed.

Lemma search_default_engine_witness :
  Plugins.search
    (Plugins.register_all [export_plugin (lit "wechat");
                           search_plugin (lit "duckduckgo") [];
                           search_plugin (lit "tavily") [];
                           search_plugin (lit "duckduckgo") [one_hit]])
    0 (lit "stock") None 10
  = Ok [one_hit].
Proof.
  destruct (proj2 (search_default_engine
                     [export_plugin (lit "wechat");
                      search_plugin (lit "duckduckgo") [];
                      search_plugin (lit "tavily") [];
                      search_plugin (lit "duckduckgo") [one_hit]]
                     0 (lit "stock") 10)
                  (search_plugin (lit "duckduckgo") [])
                  [search_plugin (lit "tavily") [];
                   search_plugin (lit "duckduckgo") [one_hit]] eq_refl)
    as [p [Hp Hs]].
  vm_compute in Hp. injection Hp as <-. exact Hs.
Defined.

(** X13. While no search plugin is registered under the name [tavily],
    every supplemental search of the chain comes back empty (the error of
    the manager is caught), so a call that returns holds the results of the
    first search and nothing else. *)
Theorem run_without_tavily (lower : str -> str) (HAS_STOCK_PLUGIN : bool)
        (get_stock_context : str -> result str)
        (pm : Plugins.PluginManager)
        (llm_analyze : nat -> nat -> str -> str -> str -> result str)
        (llm_generate : str -> result str) (completion : nat -> list nat)
        (self : AnalysisChain) (question : str)
        (expert_names : option (list str)) (r : AnalysisResult) :
  Plugins.get_search_plugin pm (lit "tavily") = None ->
  fst (Chain.run lower HAS_STOCK_PLUGIN get_stock_context
                 (fun k query engine => Plugins.search pm k query engine 10)
                 llm_analyze llm_generate completion self question
                 expert_names) = Ok r ->
  (forall k query, chain_search pm k query true = []) /\
  search_results r = chain_search pm 0 question false.
Proof.
  intros Hno Hrun.
  assert (Hempty : forall k query, chain_search pm k query true = []).
  { intros k query. unfold chain_search, Chain.search, Plugins.search.
    assert (Ht : lit "tavily" = [116; 97; 118; 105; 108; 121]%N)
      by reflexivity.
    rewrite Ht in *. cbv beta iota.
    unfold Plugins.get_search_plugin in *. now rewrite Hno. }
  split; [exact Hempty|].
  apply run_ok in Hrun as [_ [context0 [st [Hr [_ [Hs _]]]]]].
  apply rounds_ok in Hr as [Hfound _]. simpl in Hfound.
  rewrite Hs, Hfound. unfold chain_search.
  assert (Hnone :
            forall its,
              flat_map (supplement
                          (fun k query engine =>
                             Plugins.search pm k query engine 10)
                          self question) its = []).
  { induction its as [|i its IH]; simpl; [reflexivity|].
    rewrite IH, app_nil_r. unfold supplement.
    destruct (Z.of_nat i <? Chain.max_iterations self - 1)%Z;
      [|reflexivity].
    fold (chain_search pm (S i) (question ++ supplement_suffix) true).
    now rewrite Hempty. }
  now rewrite Hnone, app_nil_r.
Qed.

Lemma run_without_tavily_witness :
  exists r,
    fst (Chain.run ascii_lower false (fun _ => Ok [])
           (fun k query engine =>
              Plugins.search
                (Plugins.register_all
                   [search_plugin (lit "duckduckgo") [one_hit]])
                k query engine 10)
           (fun _ _ _ _ _ => Ok (lit "fine")) (fun _ => Ok (lit "mixed"))
           (fun _ => []) example_chain (lit "stock outlook") None)
    = Ok r /\
    search_results r = [one_hit].
Proof.
  eexists. split; [vm_compute; reflexivity|].
  exact (proj2 (@run_without_tavily ascii_lower false (fun _ => Ok [])
                  (Plugins.register_all
                     [search_plugin (lit "duckduckgo") [one_hit]])
                  (fun _ _ _ _ _ => Ok (lit "fine"))
                  (fun _ => Ok (lit "mixed")) (fun _ => []) example_chain
                  (lit "stock outlook") None _ eq_refl eq_refl)).
Defined.

(** X14. With names given, the chain takes the experts in the order of
    the names: a name is answered by the last expert of the directory that
    has it, and names that no parsed expert has are dropped without
    error. *)
Theorem lookup_names_known (d : experts_dir) (names : list str) :
  let found := fst (lookup_names (new_loader d) names) in
  map name found
  = filter (fun nm => existsb (str_eqb nm) (map name (catalog d))) names /\
  (forall e, In e found -> last_named (name e) (catalog d) = Some e).
Proof.
  remember (fold_left (fun c e => dict_set (name e) e c) (catalog d) [])
    as cache eqn:Hcache.
  assert (Hcg : forall nm, dict_get nm cache = last_named nm (catalog d)).
  { intros nm. rewrite Hcache, cache_get.
    now destruct (last_named nm (catalog d)). }
  assert (Hget : forall self nm,
             dir self = d -> (_cache self = [] \/ _cache self = cache) ->
             fst (get_expert self nm) = last_named nm (catalog d) /\
             dir (snd (get_expert self nm)) = d /\
             (_cache (snd (get_expert self nm)) = [] \/
              _cache (snd (get_expert self nm)) = cache)).
  { intros [d' c] nm Hd Hc. simpl in Hd, Hc. subst d'.
    unfold get_expert.
    assert (Hscan : fst (let self' := snd (load_all (new_loader d) false) in
                         (dict_get nm (_cache self'), self'))
                    = last_named nm (catalog d) /\
                    dir (snd (load_all (new_loader d) false)) = d /\
                    _cache (snd (load_all (new_loader d) false)) = cache).
    { rewrite load_all_new. cbn [fst snd _cache dir]. rewrite <- Hcache.
      now rewrite Hcg. }
    destruct Hc as [-> | ->].
    - fold (new_loader d). cbn [nonempty new_loader _cache].
      destruct Hscan as [H1 [H2 H3]]. cbn zeta in H1.
      split; [exact H1 | split; [exact H2 | now right]].
    - cbn [_cache]. destruct (nonempty cache) eqn:Ec.
      + cbn [fst snd _cache dir].
        split; [apply Hcg | split; auto].
      + assert (cache = []) as -> by (now destruct cache).
        fold (new_loader d).
        destruct Hscan as [H1 [H2 H3]]. cbn zeta in H1.
        split; [exact H1 | split; [exact H2 | now right]]. }
  assert (Hall : forall names self,
             dir self = d -> (_cache self = [] \/ _cache self = cache) ->
             map name (fst (lookup_names self names))
             = filter (fun nm => existsb (str_eqb nm) (map name (catalog d)))
                      names /\
             (forall e, In e (fst (lookup_names self names)) ->
                        last_named (name e) (catalog d) = Some e)).
  { clear names. induction names as [|nm names IH]; intros self Hd Hc.
    - simpl. split; [reflexivity | intros e []].
    - cbn [lookup_names filter].
      destruct (Hget self nm Hd Hc) as [Hf [Hd' Hc']].
      destruct (get_expert self nm) as [found loader1]. simpl in Hf, Hd', Hc'.
      destruct (IH loader1 Hd' Hc') as [IH1 IH2].
      destruct (lookup_names loader1 names) as [others loader2].
      simpl in IH1, IH2. cbn [fst]. subst found.
      destruct (last_named nm (catalog d)) as [e|] eqn:El.
      + assert (Hn : name e = nm).
        { unfold last_named in El. apply find_some in El as [_ E].
          apply str_eqb_eq in E. now symmetry. }
        assert (Hk : existsb (str_eqb nm) (map name (catalog d)) = true).
        { apply existsb_str_eqb. rewrite <- Hn. apply in_map.
          unfold last_named in El. apply find_some in El as [Hin _].
          now apply in_rev. }
        rewrite Hk. simpl. rewrite Hn, IH1. split; [reflexivity|].
        intros e' [<- | Hin]; [now rewrite Hn | now apply IH2].
      + assert (Hk : existsb (str_eqb nm) (map name (catalog d)) = false).
        { destruct (existsb _ _) eqn:E; [|reflexivity].
          apply existsb_str_eqb in E. apply in_map_iff in E as [e [<- Hin]].
          unfold last_named in El. apply in_rev in Hin.
          pose proof (find_none _ _ El e Hin) as Hf. simpl in Hf.
          now rewrite str_eqb_refl in Hf. }
        rewrite Hk. split; [exact IH1 | exact IH2]. }
  apply Hall; [reflexivity | now left].
Qed.

(** * More on the consensus score *)

Section ScoreFacts.
Variable lower : str -> str.

Let differ := [19981; 21516; 24847]%N.
Let same := [21516; 24847]%N.

(** The same overlap in Chinese: the disagreement keyword of three
    characters ends with the agreement keyword of two. *)
Lemma count_from_chinese_overlap (n : nat) (s : str) :
  length s <= n ->
  count_from differ s 0 <= count_from same s 0.
Proof.
  revert s. induction n as [|n IH]; intros s Hn.
  - destruct s; [simpl; lia | simpl in Hn; lia].
  - destruct s as [|c s]; [simpl; lia|].
    destruct (prefixb differ (c :: s)) eqn:Ed.
    + apply prefixb_split in Ed. simpl in Ed.
      injection Ed as -> Ed. rewrite Ed. cbn.
      apply le_n_S. apply IH.
      rewrite Ed in Hn. simpl in Hn. lia.
    + rewrite (count_from_miss _ _ _ Ed).
      destruct (prefixb same (c :: s)) eqn:Ea.
      * apply prefixb_split in Ea. simpl in Ea.
        injection Ea as -> Ea. rewrite Ea. cbn.
        apply le_S. apply IH.
        rewrite Ea in Hn. simpl in Hn. lia.
      * rewrite (count_from_miss _ _ _ Ea). apply IH.
        simpl in Hn. lia.
Qed.

Lemma half_plus_ratio (A n : Z) :
  (0 < n)%Z ->
  (4 # 5 <= (1 # 2) + inject_Z A / inject_Z n * (1 # 2))%Q
  <-> (3 * n <= 5 * A)%Z.
Proof.
  intros Hn. destruct n as [|p|p]; try lia.
  cbv [Qle Qplus Qmult Qdiv Qinv inject_Z Qnum Qden]. lia.
Qed.

Lemma list_sum_add {A} (f g : A -> nat) (l : list A) :
  list_sum (map (fun x => f x + g x) l)
  = list_sum (map f l) + list_sum (map g l).
Proof.
  induction l as [|x l IH]; simpl; [reflexivity|]. rewrite IH. lia.
Qed.

Lemma list_sum_perm (l l' : list nat) :
  Permutation l l' -> list_sum l = list_sum l'.
Proof.
  intros H. induction H; simpl; lia.
Qed.

End ScoreFacts.

(** X16. Both overlapping pairs of keywords count twice: over a round, the
    agreement total is at least the number of occurrences of the
    disagreement keywords [disagree] and (in Chinese) [bu tong yi] together,
    since each of them holds an agreement keyword. *)
Theorem agreement_counts_disagreement (lower : str -> str)
        (analyses : list ExpertAnalysis) :
  occurrences lower (lit "disagree") analyses
  + occurrences lower [19981; 21516; 24847]%N analyses
  <= fst (Iteration.keyword_totals lower analyses 0 0).
Proof.
  rewrite keyword_totals_sums. cbn [fst Nat.add]. unfold occurrences.
  rewrite <- list_sum_add. apply list_sum_le. intros x.
  rewrite count_all_sum. cbn [Nat.add].
  unfold Iteration.agreement_keywords. cbn [map list_sum fold_right].
  pose proof (count_disagree_agree (lower (analysis x))) as H1.
  pose proof (@count_from_chinese_overlap (length (lower (analysis x)))
                (lower (analysis x)) (le_n _)) as H2.
  change (count_from [19981; 21516; 24847]%N (lower (analysis x)) 0)
    with (count (lower (analysis x)) [19981; 21516; 24847]%N) in H2.
  change (count_from [21516; 24847]%N (lower (analysis x)) 0)
    with (count (lower (analysis x)) [21516; 24847]%N) in H2.
  lia.
Qed.

Lemma score_bounds (lower : str -> str) (analyses : list ExpertAnalysis) :
  (1 # 2 <= Iteration._calculate_consensus lower analyses)%Q /\
  (Iteration._calculate_consensus lower analyses <= 1)%Q.
Proof.
  destruct (Nat.lt_ge_cases (length analyses) 2) as [Hlt | Hge].
  - unfold Iteration._calculate_consensus.
    apply Nat.ltb_lt in Hlt. rewrite Hlt. split; discriminate.
  - split; [|apply Qlt_le_weak; now apply _calculate_consensus_lt_1].
    destruct (_calculate_consensus_shape lower analyses Hge)
      as [[_ ->] | [_ ->]]; [discriminate|].
    destruct (ratio_bounds (fst (Iteration.keyword_totals lower analyses 0 0))
                           (snd (Iteration.keyword_totals lower analyses 0 0)))
      as [Hr0 _].
    apply (Qle_trans _ ((1 # 2) + 0 * (1 # 2))); [discriminate|].
    apply Qplus_le_r. apply Qmult_le_compat_r; [exact Hr0 | discriminate].
Qed.

(** X17. The score lies between 0.5 and 1.0 for every round, and it is
    0.5 exactly for two or more analyses that hold disagreement keywords
    and no agreement keyword: the lower bound 0.0 of the clamp is never
    reached. *)
Theorem calculate_consensus_range (lower : str -> str)
        (analyses : list ExpertAnalysis) :
  (1 # 2 <= Iteration._calculate_consensus lower analyses)%Q /\
  (Iteration._calculate_consensus lower analyses <= 1)%Q /\
  (2 <= length analyses ->
   fst (Iteration.keyword_totals lower analyses 0 0) = 0 ->
   snd (Iteration.keyword_totals lower analyses 0 0) <> 0 ->
   (Iteration._calculate_consensus lower analyses == 1 # 2)%Q).
Proof.
  destruct (score_bounds lower analyses) as [H1 H2].
  split; [exact H1 | split; [exact H2|]].
  intros Hlen Ha Hd.
  destruct (_calculate_consensus_shape lower analyses Hlen)
    as [[H0 _] | [_ ->]]; [lia|].
  rewrite Ha, Nat.add_1_r. cbn [Z.of_nat].
  cbv [Qeq Qplus Qmult Qdiv Qinv inject_Z Qnum Qden]. lia.
Qed.

(** X18. The score does not depend on the order of the analyses. *)
Theorem calculate_consensus_permutation (lower : str -> str)
        (analyses analyses' : list ExpertAnalysis) :
  Permutation analyses analyses' ->
  Iteration._calculate_consensus lower analyses
  = Iteration._calculate_consensus lower analyses'.
Proof.
  intros H. unfold Iteration._calculate_consensus.
  rewrite (Permutation_length H).
  rewrite !keyword_totals_sums.
  rewrite (list_sum_perm (Permutation_map
             (fun x => Iteration.count_all (lower (analysis x))
                         Iteration.agreement_keywords 0) H)).
  rewrite (list_sum_perm (Permutation_map
             (fun x => Iteration.count_all (lower (analysis x))
                         Iteration.disagreement_keywords 0) H)).
  reflexivity.
Qed.

Lemma calculate_consensus_permutation_witness :
  Iteration._calculate_consensus ascii_lower
    [analysis_of (lit "I agree"); analysis_of (lit "we differ")]
  = Iteration._calculate_consensus ascii_lower
      [analysis_of (lit "we differ"); analysis_of (lit "I agree")].
Proof.
  apply calculate_consensus_permutation. apply perm_swap.
Defined.

(** X19. With the default threshold 0.8, a round of two or more analyses
    reaches consensus exactly when twice the agreement total is at least
    three times the disagreement total plus three; a round without any
    keyword (score 0.7) does not. *)
Theorem consensus_at_default_threshold (lower : str -> str)
        (analyses : list ExpertAnalysis) :
  2 <= length analyses ->
  let a := fst (Iteration.keyword_totals lower analyses 0 0) in
  let d := snd (Iteration.keyword_totals lower analyses 0 0) in
  Qle_bool (4 # 5) (Iteration._calculate_consensus lower analyses) = true
  <-> 3 * d + 3 <= 2 * a.
Proof.
  intros Hlen a d. rewrite Qle_bool_iff.
  destruct (_calculate_consensus_shape lower analyses Hlen)
    as [[H0 ->] | [H0 ->]]; fold a d in H0.
  - split; [intros H; exfalso; revert H; apply Qlt_not_le; reflexivity|].
    intros H. lia.
  - fold a d. clear H0. rewrite (half_plus_ratio (Z.of_nat a)); lia.
Qed.

Lemma consensus_at_default_threshold_witness :
  2 <= length [analysis_of (lit "agree, agree"); analysis_of (lit "similar")]
  /\
  Qle_bool (4 # 5)
    (Iteration._calculate_consensus ascii_lower
       [analysis_of (lit "agree, agree"); analysis_of (lit "similar")])
  = true.
Proof.
  assert (H : 2 <= length [analysis_of (lit "agree, agree");
                            analysis_of (lit "similar")]) by (simpl; lia).
  split; [exact H|].
  apply (proj2 (@consensus_at_default_threshold ascii_lower
                  [analysis_of (lit "agree, agree");
                   analysis_of (lit "similar")] H)).
  vm_compute. lia.
Defined.

(** * More on the iteration controller *)

Section ControllerMore.
Import Iteration.
Variable lower : str -> str.
Variable json_loads : str -> option json.
Variable llm_generate : nat -> str -> str -> result str.

Local Abbreviation loop := (Iteration.loop lower json_loads).
Local Abbreviation run := (Iteration.run lower json_loads).

(** A response without a JSON object between its braces gives no
    supplemental query. *)
Lemma parse_gaps_no_queries (response : str) :
  ~ Parseable json_loads response ->
  truthy (snd (parse_gaps json_loads response)) = false.
Proof.
  intros Hno. unfold parse_gaps.
  destruct ((0 <=? find (lit "{") response)%Z
            && (find (lit "{") response <? rfind (lit "}") response + 1)%Z)
    eqn:E; [|reflexivity].
  destruct (json_loads _) as [v|] eqn:Ej; [|reflexivity].
  destruct v; try reflexivity.
  exfalso. apply Hno. apply andb_true_iff in E as [H0 H1].
  apply Z.leb_le in H0. apply Z.ltb_lt in H1.
  split; [now split | now exists d].
Qed.

(** The branches of the body of the loop, for any [chain.run]. *)
Ltac branches chain_run self k iteration current_query experts query :=
  cbn [Iteration.loop];
  destruct (iteration <? max_iterations self)%Z eqn:Hguard;
  [ destruct (chain_run k current_query experts) as [r|e] eqn:Hchain;
    [ destruct (Qle_bool (consensus_threshold self)
                  (_calculate_consensus lower (expert_analyses r)))
               eqn:Hscore;
      [ | destruct (iteration + 1 <? max_iterations self)%Z eqn:Hmore;
          [ destruct (_identify_gaps json_loads llm_generate k query
                        (expert_analyses r))
              as [[gaps supplemental_queries]|e] eqn:Hgaps;
            [ destruct (negb (truthy supplemental_queries)) eqn:Hnone;
              [ | destruct (join_top2 supplemental_queries)
                    as [digest|e] eqn:Hjoin ]
            | ]
          | ] ]
    | ]
  | ].

Section OneChain.
Variable chain_run : nat -> str -> option (list str) -> result AnalysisResult.

(** How far a run gets, by the way it ends. *)
Lemma loop_rounds_by_state (self : IterativeAnalyzer) (query : str)
      (experts : option (list str)) (fuel k : nat) (iteration : Z)
      (current_query : str) (all_search_results : list SearchResult)
      (result_ : option AnalysisResult) :
  iteration = Z.of_nat k ->
  fuel + k = Z.to_nat (max_iterations self) ->
  let out := loop chain_run llm_generate self query experts fuel k iteration
                  current_query all_search_results result_ in
  let budget := Z.to_nat (max_iterations self) in
  rounds_executed out <= budget /\
  (state out = Some BUDGET_EXHAUSTED -> rounds_executed out = budget) /\
  (state out = Some NO_NEW_QUERIES ->
   1 <= rounds_executed out < budget) /\
  (state out = Some CONSENSUS_REACHED -> 1 <= rounds_executed out).
Proof.
  revert k iteration current_query all_search_results result_.
  induction fuel as [|fuel IH];
    intros k iteration current_query all_search_results result_ Hk Hfuel.
  - simpl. repeat split; try lia; discriminate.
  - branches chain_run self k iteration current_query experts query;
      try (apply Z.ltb_lt in Hguard);
      try (apply Z.ltb_lt in Hmore);
      try (apply IH; lia);
      simpl; repeat split; try lia; try discriminate.
Qed.

(** X20. The calls of [chain.run] never exceed the budget, whether the
    run returns or raises.  A run that ends on the budget has used all of
    it; a run that ends for want of supplemental queries has stopped at
    least one round short of it, since the gaps are asked for only when
    another round is allowed; a run that ends by consensus has run at least
    one round. *)
Theorem run_rounds_by_state (self : IterativeAnalyzer) (query : str)
        (experts : option (list str)) :
  let out := run chain_run llm_generate self query experts in
  let budget := Z.to_nat (max_iterations self) in
  rounds_executed out <= budget /\
  (state out = Some BUDGET_EXHAUSTED -> rounds_executed out = budget) /\
  (state out = Some NO_NEW_QUERIES ->
   1 <= rounds_executed out < budget) /\
  (state out = Some CONSENSUS_REACHED -> 1 <= rounds_executed out).
Proof.
  unfold Iteration.run. apply loop_rounds_by_state; [reflexivity | lia].
Qed.

(** X21. [run] returns [None] exactly when the budget is zero or
    negative; after a round it returns a result or raises. *)
Theorem run_returns_none_iff (self : IterativeAnalyzer) (query : str)
        (experts : option (list str)) :
  returned (run chain_run llm_generate self query experts) = Ok None
  <-> (max_iterations self <= 0)%Z.
Proof.
  unfold Iteration.run. split.
  - intros H.
    destruct (Z.to_nat (max_iterations self)) as [|fuel] eqn:Efuel; [lia|].
    exfalso. revert H.
    assert (Hfinish : forall r iteration all_search_results,
               finish r iteration all_search_results <> Ok None).
    { intros r iteration all_search_results. unfold finish.
      destruct (list_set all_search_results); simpl; discriminate. }
    branches chain_run self 0 0%Z query experts query;
      try (apply loop_returns_none; discriminate);
      simpl; try discriminate; try apply Hfinish.
    lia.
  - intros H. replace (Z.to_nat (max_iterations self)) with 0 by lia.
    reflexivity.
Qed.

(** X22. With a threshold of 0.5 or less, a run with a budget of at least
    one round ends by consensus after the first round that returns, and the
    gaps are never asked for. *)
Theorem run_low_threshold (self : IterativeAnalyzer) (query : str)
        (experts : option (list str)) (r : AnalysisResult) :
  (consensus_threshold self <= 1 # 2)%Q ->
  (1 <= max_iterations self)%Z ->
  chain_run 0 query experts = Ok r ->
  let out := run chain_run llm_generate self query experts in
  state out = Some CONSENSUS_REACHED /\
  rounds_executed out = 1 /\
  returned out = finish r 1 (search_results r).
Proof.
  intros Hthr Hmax Hchain. unfold Iteration.run.
  destruct (Z.to_nat (max_iterations self)) as [|fuel] eqn:Efuel; [lia|].
  cbn [Iteration.loop].
  destruct (Z.ltb_spec 0 (max_iterations self)); [|lia].
  rewrite Hchain.
  assert (Hs : Qle_bool (consensus_threshold self)
                 (_calculate_consensus lower (expert_analyses r)) = true).
  { apply Qle_bool_iff.
    apply (Qle_trans _ (1 # 2)); [exact Hthr | apply score_bounds]. }
  rewrite Hs. simpl. auto.
Qed.

(** X23. When no answer of the model to the gap critic holds a JSON
    object, a run never goes beyond its first round; with a budget of two
    rounds or more it does not end on the budget. *)
Theorem run_stops_without_queries (self : IterativeAnalyzer) (query : str)
        (experts : option (list str)) :
  (forall k prompt system response,
      llm_generate k prompt system = Ok response ->
      ~ Parseable json_loads response) ->
  let out := run chain_run llm_generate self query experts in
  rounds_executed out <= 1 /\
  ((2 <= max_iterations self)%Z -> state out <> Some BUDGET_EXHAUSTED).
Proof.
  intros Hllm. unfold Iteration.run.
  destruct (Z.to_nat (max_iterations self)) as [|fuel] eqn:Efuel.
  - simpl. split; [lia | intros Hm; exfalso; lia].
  - branches chain_run self 0 0%Z query experts query;
      try (apply Z.ltb_ge in Hguard);
      try (simpl; split; [lia | intros Hm; try discriminate; exfalso; lia]).
    + exfalso. unfold _identify_gaps in Hgaps.
      destruct (llm_generate 0 (gap_query query (expert_analyses r))
                  gap_prompt) as [response|e] eqn:Hresp; [|discriminate].
      simpl in Hgaps. injection Hgaps as Hgaps.
      pose proof (parse_gaps_no_queries (Hllm _ _ _ _ Hresp)) as Hq.
      rewrite Hgaps in Hq. simpl in Hq. rewrite Hq in Hnone. discriminate.
    + destruct fuel as [|fuel]; cbn [Iteration.loop]; rewrite ?Hmore;
        apply Z.ltb_ge in Hmore;
        (simpl; split; [lia | intros Hm; exfalso; lia]).
Qed.

(** X24. A failure of the model in the gap critic is not absorbed: when
    the first round misses the threshold, another round is allowed and the
    call of the model raises, the run raises the same exception and the
    result of the round is lost. *)
Theorem run_gap_failure_propagates (self : IterativeAnalyzer) (query : str)
        (experts : option (list str)) (r : AnalysisResult) (e : exn) :
  (2 <= max_iterations self)%Z ->
  chain_run 0 query experts = Ok r ->
  Qle_bool (consensus_threshold self)
           (_calculate_consensus lower (expert_analyses r)) = false ->
  llm_generate 0 (gap_query query (expert_analyses r)) gap_prompt
  = Raise e ->
  let out := run chain_run llm_generate self query experts in
  returned out = Raise e /\ rounds_executed out = 1 /\ state out = None.
Proof.
  intros Hmax Hchain Hscore Hllm. unfold Iteration.run.
  destruct (Z.to_nat (max_iterations self)) as [|fuel] eqn:Efuel; [lia|].
  cbn [Iteration.loop].
  destruct (Z.ltb_spec 0 (max_iterations self)); [|lia].
  rewrite Hchain, Hscore.
  destruct (Z.ltb_spec (0 + 1) (max_iterations self)); [|lia].
  unfold _identify_gaps. rewrite Hllm. simpl. auto.
Qed.

End OneChain.


(** Two providers of rounds that agree on the queries the controller can
    form give the same run. *)
Lemma loop_queries (chain_run chain_run' :
                      nat -> str -> option (list str) -> result AnalysisResult)
      (self : IterativeAnalyzer) (query : str)
      (experts : option (list str)) (fuel k : nat) (iteration : Z)
      (current_query : str) (all_search_results : list SearchResult)
      (result_ : option AnalysisResult) :
  (forall k q,
      (q = query \/ exists digest, q = query ++ supplement_heading ++ digest) ->
      chain_run k q experts = chain_run' k q experts) ->
  (current_query = query \/
   exists digest, current_query = query ++ supplement_heading ++ digest) ->
  loop chain_run llm_generate self query experts fuel k iteration
       current_query all_search_results result_
  = loop chain_run' llm_generate self query experts fuel k iteration
         current_query all_search_results result_.
Proof.
  intros Hsame.
  revert k iteration current_query all_search_results result_.
  induction fuel as [|fuel IH];
    intros k iteration current_query all_search_results result_ Hq.
  - reflexivity.
  - cbn [Iteration.loop]. rewrite <- (Hsame k current_query Hq).
    branches chain_run self k iteration current_query experts query;
      try reflexivity.
    + apply IH. right. now exists digest.
    + apply IH. exact Hq.
Qed.

(** X25. Every query that reaches [chain.run] is the question itself or
    the question followed by the heading and a digest of supplemental
    queries: two providers of rounds that agree on these queries, for the
    experts of the call, give the same run. *)
Theorem run_queries_extend_question
        (chain_run chain_run' :
           nat -> str -> option (list str) -> result AnalysisResult)
        (self : IterativeAnalyzer) (query : str)
        (experts : option (list str)) :
  (forall k q,
      (q = query \/ exists digest, q = query ++ supplement_heading ++ digest) ->
      chain_run k q experts = chain_run' k q experts) ->
  run chain_run llm_generate self query experts
  = run chain_run' llm_generate self query experts.
Proof.
  intros Hsame. unfold Iteration.run. apply loop_queries; [exact Hsame|].
  now left.
Qed.

End ControllerMore.

Lemma run_low_threshold_witness :
  (1 # 2 <= 1 # 2)%Q /\
  Iteration.state
    (Iteration.run ascii_lower no_json (canned_chain []) failing_llm
       (Iteration.__init__ (Some 5%Z) 3 (1 # 2)) (lit "A-shares?") None)
  = Some Iteration.CONSENSUS_REACHED.
Proof.
  assert (Ht : (Iteration.consensus_threshold
                  (Iteration.__init__ (Some 5%Z) 3 (1 # 2)) <= 1 # 2)%Q)
    by (simpl; apply Qle_refl).
  split; [exact Ht|].
  exact (proj1 (@run_low_threshold ascii_lower no_json failing_llm
                  (canned_chain [])
                  (Iteration.__init__ (Some 5%Z) 3 (1 # 2))
                  (lit "A-shares?") None _ Ht ltac:(simpl; lia) eq_refl)).
Defined.

Lemma run_stops_without_queries_witness :
  Iteration.rounds_executed
    (Iteration.run ascii_lower no_json (canned_chain [])
       (canned_llm (lit "not json at all"))
       (Iteration.__init__ (Some 5%Z) 3 (4 # 5)) (lit "A-shares?") None)
  <= 1.
Proof.
  refine (proj1 (@run_stops_without_queries ascii_lower no_json
                   (canned_llm (lit "not json at all")) (canned_chain [])
                   (Iteration.__init__ (Some 5%Z) 3 (4 # 5))
                   (lit "A-shares?") None _)).
  intros k prompt system response _ [_ [d Hd]]. discriminate.
Defined.

Lemma run_gap_failure_propagates_witness :
  Iteration.returned
    (Iteration.run ascii_lower no_json (canned_chain []) failing_llm
       (Iteration.__init__ (Some 5%Z) 3 (4 # 5)) (lit "A-shares?") None)
  = Raise (ProviderError 3).
Proof.
  refine (proj1 (@run_gap_failure_propagates ascii_lower no_json failing_llm
                   (canned_chain [])
                   (Iteration.__init__ (Some 5%Z) 3 (4 # 5))
                   (lit "A-shares?") None _ (ProviderError 3)
                   _ eq_refl _ eq_refl)).
  - simpl. lia.
  - reflexivity.
Defined.

Lemma run_queries_extend_question_witness :
  Iteration.run ascii_lower no_json (canned_chain [])
    (canned_llm (lit "not json at all"))
    (Iteration.__init__ (Some 5%Z) 3 (4 # 5)) (lit "A-shares?") None
  = Iteration.run ascii_lower no_json (picky_chain (lit "A-shares?"))
      (canned_llm (lit "not json at all"))
      (Iteration.__init__ (Some 5%Z) 3 (4 # 5)) (lit "A-shares?") None.
Proof.
  apply run_queries_extend_question.
  intros k q Hq. unfold picky_chain.
  assert (Hp : prefixb (lit "A-shares?") q = true).
  { apply prefixb_app. destruct Hq as [-> | [digest ->]].
    - exists []. now rewrite app_nil_r.
    - eexists. reflexivity. }
  now rewrite Hp.
Defined.

(** * The stock code of a question *)

Section StockFacts.
Import Stock.

Lemma digits_at_spec (n : nat) (s : str) :
  digits_at n s = true <->
  exists ds post, s = ds ++ post /\ length ds = n /\
                  forallb is_digit ds = true.
Proof.
  revert s. induction n as [|n IH]; intros s; simpl.
  - split; [|reflexivity]. intros _. now exists [], s.
  - destruct s as [|c s].
    + split; [discriminate|]. intros [ds [post [H [Hl _]]]].
      destruct ds; simpl in *; discriminate.
    + rewrite andb_true_iff, IH. split.
      * intros [Hc [ds [post [-> [Hl Hd]]]]].
        exists (c :: ds), post. simpl. rewrite Hc, Hd. auto.
      * intros [ds [post [H [Hl Hd]]]].
        destruct ds as [|c' ds]; [discriminate|].
        simpl in *. injection H as <- ->. apply andb_true_iff in Hd as [Hc Hd].
        split; [exact Hc|]. exists ds, post. auto.
Qed.

Lemma digits_at_fewer (n m : nat) (s : str) :
  digits_at (n + m) s = true -> digits_at n s = true.
Proof.
  revert s. induction n as [|n IH]; intros s; simpl; [reflexivity|].
  destruct s as [|c s]; [discriminate|].
  rewrite !andb_true_iff. intros [Hc H]. split; [exact Hc | now apply IH].
Qed.

(** The number pattern finds nothing exactly when no five digits stand in
    a row. *)
Lemma search_number_none (s : str) :
  search_number s = None <->
  ~ exists pre ds post, s = pre ++ ds ++ post /\ length ds = 5 /\
                        forallb is_digit ds = true.
Proof.
  induction s as [|c s IH].
  - simpl. split; [|reflexivity].
    intros _ [pre [ds [post [H [Hl _]]]]].
    destruct pre; [|discriminate]. destruct ds; discriminate.
  - cbn [search_number].
    destruct (digits_at 5 (c :: s)) eqn:E.
    + split; [discriminate|]. intros Hno. exfalso. apply Hno.
      apply digits_at_spec in E as [ds [post [H [Hl Hd]]]].
      exists [], ds, post. auto.
    + rewrite IH. split.
      * intros Hno [pre [ds [post [H [Hl Hd]]]]].
        destruct pre as [|c' pre].
        -- simpl in H.
           assert (digits_at 5 (c :: s) = true); [|congruence].
           apply digits_at_spec. exists ds, post. auto.
        -- injection H as _ H. apply Hno. exists pre, ds, post. auto.
      * intros Hno [pre [ds [post [H [Hl Hd]]]]].
        apply Hno. exists (c :: pre), ds, post. simpl. rewrite H. auto.
Qed.

Lemma firstn_two {A} (a b c : list A) :
  firstn (length a + length b) (a ++ b ++ c) = a ++ b.
Proof.
  rewrite app_assoc, <- length_app, firstn_app, Nat.sub_diag, firstn_all.
  simpl. now rewrite app_nil_r.
Qed.

Lemma firstn_one {A} (a b : list A) : firstn (length a) (a ++ b) = a.
Proof.
  rewrite firstn_app, Nat.sub_diag, firstn_all. simpl. apply app_nil_r.
Qed.

(** A match of a pattern of letters and digits: the letters, then the
    digits. *)
Lemma search_code_some (prefix : str) (n : nat) (s code : str) :
  search_code prefix n s = Some code ->
  exists pre ds post,
    s = pre ++ prefix ++ ds ++ post /\ code = prefix ++ ds /\
    length ds = n /\ forallb is_digit ds = true.
Proof.
  revert code. induction s as [|c s IH]; intros code.
  - cbn [search_code].
    destruct (prefixb prefix [] && digits_at n (skipn (length prefix) []))
      eqn:E; [|discriminate].
    apply andb_true_iff in E as [Hp Hd].
    apply prefixb_split in Hp. intros H. injection H as <-.
    apply digits_at_spec in Hd as [ds [post [Hs [Hl Hds]]]].
    exists [], ds, post. rewrite Hs in Hp.
    split; [exact Hp|]. split; [|auto].
    rewrite Hp, <- Hl. apply firstn_two.
  - cbn [search_code].
    destruct (prefixb prefix (c :: s)
              && digits_at n (skipn (length prefix) (c :: s))) eqn:E.
    + apply andb_true_iff in E as [Hp Hd].
      apply prefixb_split in Hp.
      remember (firstn (length prefix + n) (c :: s)) as found eqn:Hf.
      intros H. injection H as <-. rewrite Hf. clear Hf.
      apply digits_at_spec in Hd as [ds [post [Hs [Hl Hds]]]].
      exists [], ds, post. rewrite Hs in Hp.
      split; [exact Hp|]. split; [|auto].
      rewrite Hp, <- Hl. apply firstn_two.
    + intros H. destruct (IH _ H) as [pre [ds [post [Hs Hrest]]]].
      exists (c :: pre), ds, post. simpl. rewrite Hs. auto.
Qed.

Lemma search_number_some (s code : str) :
  search_number s = Some code ->
  (length code = 5 \/ length code = 6) /\ forallb is_digit code = true.
Proof.
  revert code. induction s as [|c s IH]; intros code; cbn [search_number].
  - simpl. discriminate.
  - destruct (digits_at 5 (c :: s)) eqn:E5; [|apply IH].
    remember (firstn 6 (c :: s)) as f6 eqn:Hf6.
    remember (firstn 5 (c :: s)) as f5 eqn:Hf5.
    destruct (digits_at 6 (c :: s)) eqn:E6; intros H; injection H as <-.
    + apply digits_at_spec in E6 as [ds [post [Hs [Hl Hd]]]].
      rewrite Hf6, Hs, <- Hl, (firstn_one ds post). auto.
    + apply digits_at_spec in E5 as [ds [post [Hs [Hl Hd]]]].
      rewrite Hf5, Hs, <- Hl, (firstn_one ds post). auto.
Qed.

Lemma search_patterns_none (s : str) :
  search_patterns s = None <-> search_number s = None.
Proof.
  unfold search_patterns. split.
  - destruct (search_code (lit "sh") 6 s); [discriminate|].
    destruct (search_code (lit "sz") 6 s); [discriminate|].
    destruct (search_code (lit "hk") 5 s); [discriminate|].
    now destruct (search_number s).
  - intros Hn. rewrite Hn.
    assert (Hcode : forall prefix m,
               search_code prefix (5 + m) s = None).
    { intros prefix m.
      destruct (search_code prefix (5 + m) s) as [code|] eqn:E;
        [|reflexivity].
      exfalso. apply search_number_none in Hn. apply Hn.
      apply search_code_some in E as [pre [ds [post [Hs [_ [Hl Hd]]]]]].
      exists (pre ++ prefix), (firstn 5 ds), (skipn 5 ds ++ post).
      split; [|split].
      - rewrite Hs, <- !app_assoc. do 2 f_equal.
        now rewrite app_assoc, firstn_skipn.
      - rewrite length_firstn. lia.
      - rewrite forallb_forall in *. intros x Hx. apply Hd.
        rewrite <- (firstn_skipn 5 ds). apply in_or_app. now left. }
    pose proof (Hcode (lit "sh") 1) as H1.
    pose proof (Hcode (lit "sz") 1) as H2.
    pose proof (Hcode (lit "hk") 0) as H3.
    cbn [Nat.add] in H1, H2, H3. now rewrite H1, H2, H3.
Qed.

Lemma find_alias_none (query : str) :
  List.find (fun '(alias, code) => contains alias query) STOCK_ALIASES = None
  <-> forall alias code, In (alias, code) STOCK_ALIASES ->
                         ~ Substring alias query.
Proof.
  split.
  - intros H alias code Hin Hs.
    pose proof (find_none _ _ H (alias, code) Hin) as Hf. simpl in Hf.
    apply contains_Substring in Hs. congruence.
  - intros H.
    destruct (List.find _ STOCK_ALIASES) as [[alias code]|] eqn:E;
      [|reflexivity].
    apply find_some in E as [Hin Hc].
    exfalso. apply (H alias code Hin). now apply contains_Substring.
Qed.

End StockFacts.

(** X26. No stock code is found exactly when the question holds none of
    the aliases and, in lower case, no five digits in a row; then the
    context of the quotes is empty and the quote service is not asked.  So
    any number of five digits or more in a question is taken for a stock
    code. *)
Theorem parse_stock_code_none (lower : str -> str) (query : str) :
  let plain :=
    (forall alias code, In (alias, code) Stock.STOCK_ALIASES ->
                        ~ Substring alias query) /\
    ~ (exists pre ds post,
          lower query = pre ++ ds ++ post /\ length ds = 5 /\
          forallb Stock.is_digit ds = true) in
  (Stock._parse_stock_code lower query = None <-> plain) /\
  (plain ->
   forall (D : Type) (fetch : str -> option D)
          (format_stock_info : D -> result str),
     Stock.get_stock_context fetch format_stock_info lower query = Ok []).
Proof.
  assert (H : Stock._parse_stock_code lower query = None <->
              (forall alias code, In (alias, code) Stock.STOCK_ALIASES ->
                                  ~ Substring alias query) /\
              ~ (exists pre ds post,
                    lower query = pre ++ ds ++ post /\ length ds = 5 /\
                    forallb Stock.is_digit ds = true)).
  { rewrite <- find_alias_none, <- search_number_none,
      <- search_patterns_none.
    unfold Stock._parse_stock_code.
    destruct (List.find _ Stock.STOCK_ALIASES) as [[alias code]|].
    - split; [discriminate | intros [H _]; discriminate].
    - split; [now split | now intros [_ H]]. }
  intros plain. split; [exact H|].
  intros Hplain D fetch format_stock_info.
  unfold Stock.get_stock_context, Stock.get_stock_data.
  now rewrite (proj2 H Hplain).
Qed.

(** X27. A code found by the patterns is [sh] or [sz] with six digits,
    [hk] with five digits, or six bare digits that begin with none of 0, 3
    and 6: a number of six digits with another first digit goes on without
    the prefix of a market. *)
Theorem search_patterns_shape (query_lower code : str) :
  Stock.search_patterns query_lower = Some code ->
  exists ds,
    forallb Stock.is_digit ds = true /\
    ((code = lit "sh" ++ ds /\ length ds = 6) \/
     (code = lit "sz" ++ ds /\ length ds = 6) \/
     (code = lit "hk" ++ ds /\ length ds = 5) \/
     (code = ds /\ length ds = 6 /\
      prefixb (lit "0") ds = false /\ prefixb (lit "3") ds = false /\
      prefixb (lit "6") ds = false)).
Proof.
  assert (Hletters : forall c1 c2 ds,
             Stock.is_digit c1 = false ->
             Stock.complete (c1 :: c2 :: ds) = c1 :: c2 :: ds).
  { intros c1 c2 ds Hc. unfold Stock.complete, Stock.isdigit.
    simpl. now rewrite Hc. }
  unfold Stock.search_patterns.
  destruct (Stock.search_code (lit "sh") 6 query_lower) as [c|] eqn:E1.
  { apply search_code_some in E1 as [_ [ds [_ [_ [-> [Hl Hd]]]]]].
    intros H. injection H as <-. exists ds. split; [exact Hd|].
    left. split; [|exact Hl]. now apply Hletters. }
  destruct (Stock.search_code (lit "sz") 6 query_lower) as [c|] eqn:E2.
  { apply search_code_some in E2 as [_ [ds [_ [_ [-> [Hl Hd]]]]]].
    intros H. injection H as <-. exists ds. split; [exact Hd|].
    right. left. split; [|exact Hl]. now apply Hletters. }
  destruct (Stock.search_code (lit "hk") 5 query_lower) as [c|] eqn:E3.
  { apply search_code_some in E3 as [_ [ds [_ [_ [-> [Hl Hd]]]]]].
    intros H. injection H as <-. exists ds. split; [exact Hd|].
    right. right. left. split; [|exact Hl]. now apply Hletters. }
  destruct (Stock.search_number query_lower) as [c|] eqn:E4; [|discriminate].
  apply search_number_some in E4 as [Hl Hd].
  intros H. injection H as <-.
  unfold Stock.complete, Stock.isdigit. rewrite Hd.
  assert (Hne : nonempty c = true)
    by (destruct c; [simpl in Hl; lia | reflexivity]).
  rewrite Hne. cbn [andb].
  destruct Hl as [Hl | Hl]; rewrite Hl; cbn [Nat.eqb].
  - exists c. split; [exact Hd|]. right. right. left. now split.
  - destruct (prefixb (lit "6") c) eqn:E6.
    + exists c. split; [exact Hd|]. left. now split.
    + destruct (prefixb (lit "0") c) eqn:E0; cbn [orb].
      * exists c. split; [exact Hd|]. right. left. now split.
      * destruct (prefixb (lit "3") c) eqn:E3'.
        -- exists c. split; [exact Hd|]. right. left. now split.
        -- exists c. split; [exact Hd|]. right. right. right. auto.
Qed.

Lemma search_patterns_shape_witness :
  Stock.search_patterns (lit "price 1234567") = Some (lit "123456") /\
  exists ds,
    forallb Stock.is_digit ds = true /\
    ((lit "123456" = lit "sh" ++ ds /\ length ds = 6) \/
     (lit "123456" = lit "sz" ++ ds /\ length ds = 6) \/
     (lit "123456" = lit "hk" ++ ds /\ length ds = 5) \/
     (lit "123456" = ds /\ length ds = 6 /\
      prefixb (lit "0") ds = false /\ prefixb (lit "3") ds = false /\
      prefixb (lit "6") ds = false)).
Proof.
  assert (H : Stock.search_patterns (lit "price 1234567")
              = Some (lit "123456")) by reflexivity.
  split; [exact H|].
  exact (@search_patterns_shape (lit "price 1234567") (lit "123456") H).
Defined.

Lemma parse_stock_code_none_witness :
  Stock._parse_stock_code ascii_lower (lit "How is the weather in 2024?")
  = None /\
  Stock.get_stock_context (fun _ => Some tt) (fun _ => Ok (lit "quotes"))
    ascii_lower (lit "How is the weather in 2024?") = Ok [].
Proof.
  assert (H : Stock._parse_stock_code ascii_lower
                (lit "How is the weather in 2024?") = None) by reflexivity.
  split; [exact H|].
  destruct (parse_stock_code_none ascii_lower
              (lit "How is the weather in 2024?")) as [Hiff Hctx].
  exact (Hctx (proj1 Hiff H) unit (fun _ => Some tt)
              (fun _ => Ok (lit "quotes"))).
Defined.

(** * The report *)

Section ReportFacts.

Lemma reference_lines_length (i : Z) (results : list SearchResult) :
  length (reference_lines i results) = length results.
Proof.
  revert i. induction results as [|r results IH]; intros i; simpl.
  - reflexivity.
  - now rewrite IH.
Qed.

Lemma flat_map_length_const {A B} (f : A -> list B) (n : nat) (l : list A) :
  (forall x, length (f x) = n) -> length (flat_map f l) = n * length l.
Proof.
  intros H. induction l as [|x l IH]; simpl; [lia|].
  rewrite length_app, H, IH. lia.
Qed.

Lemma slice_to_slice_to {A} (n : nat) (l : list A) :
  slice_to (Z.of_nat n) (firstn n l) = slice_to (Z.of_nat n) l.
Proof.
  unfold slice_to. destruct (Z.leb_spec 0 (Z.of_nat n)); [|lia].
  rewrite Nat2Z.id. rewrite firstn_firstn. f_equal. lia.
Qed.

End ReportFacts.

(** X28. The report names five search results at most: it has 22 fixed
    lines, four lines for each analysis and one line for each of the first
    five results, and the results behind the fifth do not change it. *)
Theorem to_markdown_references (timestamp : str) (self : AnalysisResult) :
  length (to_markdown_lines timestamp self)
  = 22 + 4 * length (expert_analyses self)
    + Nat.min 5 (length (search_results self)) /\
  to_markdown timestamp
    {| question := question self;
       search_results := firstn 5 (search_results self);
       expert_analyses := expert_analyses self;
       consensus := consensus self;
       iteration_count := iteration_count self |}
  = to_markdown timestamp self.
Proof.
  split.
  - unfold to_markdown_lines. rewrite !length_app, reference_lines_length.
    rewrite (@flat_map_length_const _ _ _ 4) by reflexivity.
    rewrite slice_to_length. cbn [Z.leb Z.compare length].
    change (Z.to_nat 5) with 5. lia.
  - unfold to_markdown, to_markdown_lines. cbn [question search_results
      expert_analyses consensus iteration_count].
    now rewrite (slice_to_slice_to 5).
Qed.

(** * The analysis of the interface *)

Section InterfaceFacts.
Variable lower : str -> str.
Variable get_stock_context : str -> result str.
Variable plugin_search : nat -> str -> option str -> result (list SearchResult).
Variable llm_analyze : nat -> nat -> str -> str -> str -> result str.
Variable llm_generate : str -> result str.

(** [l[-n:]] is the end of [l] for a positive [n]. *)
Lemma slice_from_last {A} (pre last : list A) :
  last <> [] ->
  slice_from (- Z.of_nat (length last)) (pre ++ last) = last.
Proof.
  intros Hne. unfold slice_from.
  assert (0 < length last) by (destruct last; simpl; [congruence | lia]).
  destruct (Z.leb_spec 0 (- Z.of_nat (length last))); [lia|].
  rewrite Z.opp_involutive, Nat2Z.id, length_app.
  replace (length pre + length last - length last) with (length pre + 0)
    by lia.
  rewrite skipn_app, Nat.add_0_r, skipn_all.
  replace (length pre - length pre) with 0 by lia. reflexivity.
Qed.

(** The analyses gathered by the rounds [its] end with those of the last
    round, one call of the model after the other. *)
Lemma analyze_rounds_ok (experts : list Expert) (question context : str)
      (its : list nat) (acc all : list ExpertAnalysis) :
  analyze_rounds llm_analyze experts question context its acc = Ok all ->
  (its = [] -> all = acc) /\
  (its <> [] ->
   exists pre last_analyses,
     all = pre ++ last_analyses /\
     Forall2 (fun '(t, expert) a =>
                analyze_with_expert llm_analyze (last its 0) t expert
                                    question context
                = Ok a)
             (enumerate experts) last_analyses).
Proof.
  revert acc. induction its as [|i its IH]; intros acc;
    cbn [analyze_rounds].
  - intros H. injection H as <-. split; congruence.
  - destruct (collect (map (fun '(t, expert) =>
                              analyze_with_expert llm_analyze i t expert
                                                  question context)
                           (enumerate experts)))
      as [analyses|e] eqn:Hround; [|discriminate].
    cbn [bind]. intros H. apply IH in H as [Hnil Hcons].
    split; [discriminate|]. intros _.
    destruct its as [|i' its].
    + exists acc, analyses. split; [now apply Hnil|].
      apply collect_ok, Forall2_map_l in Hround.
      cbn [last]. eapply Forall2_impl; [|exact Hround].
      now intros [t expert] a.
    + change (last (i :: i' :: its) 0) with (last (i' :: its) 0).
      apply Hcons. discriminate.
Qed.

End InterfaceFacts.

(** X29. An analysis of the interface that returns searches once: its
    search results are those of the first search and nothing is added to
    them in the rounds.  It holds the analyses of the last round only: one
    for each expert selected, in their order, each with the text that the
    model returned for that expert in the last round, on the question and
    the context built before the rounds.  Its [iteration_count] is the
    number of rounds configured, and with no round configured it holds no
    analysis at all. *)
Theorem run_analysis_async_result (lower : str -> str)
        (get_stock_context : str -> result str)
        (plugin_search : nat -> str -> option str ->
                         result (list SearchResult))
        (llm_analyze : nat -> nat -> str -> str -> str -> result str)
        (llm_generate : str -> result str)
        (chain : AnalysisChain) (question : str)
        (selected : list str) (r : AnalysisResult) :
  fst (_run_analysis_async lower get_stock_context plugin_search
                           llm_analyze llm_generate chain question selected)
  = Ok r ->
  let experts := selected_experts lower chain question (Some selected) in
  let last_round := Z.to_nat (Chain.max_iterations chain) - 1 in
  let stock_context :=
    match get_stock_context question with
    | Ok s => s
    | Raise _ => []
    end in
  let first_search := Chain.search plugin_search 0 question false in
  experts <> [] /\
  search_results r = first_search /\
  iteration_count r = Chain.max_iterations chain /\
  ((1 <= Chain.max_iterations chain)%Z ->
   map expert_name (expert_analyses r) = map name experts /\
   map expert_emoji (expert_analyses r)
   = map (fun e => emoji (metadata e)) experts /\
   forall t expert,
     nth_error experts t = Some expert ->
     exists a,
       nth_error (expert_analyses r) t = Some a /\
       llm_analyze last_round t question (system_prompt expert)
                   (interface_context stock_context first_search)
       = Ok (analysis a)) /\
  ((Chain.max_iterations chain <= 0)%Z -> expert_analyses r = []).
Proof.
  unfold _run_analysis_async, selected_experts.
  destruct (match selected with
            | _ :: _ => lookup_names (expert_loader chain) selected
            | [] => find_relevant_experts lower (expert_loader chain)
                                          question 4
            end) as [experts loader].
  cbn [fst]. destruct experts as [|e experts]; [discriminate|].
  cbn [nonempty negb fst].
  match goal with
  | |- context [analyze_rounds _ _ _ ?c ?its ?acc] =>
      change c
        with (interface_context
                match get_stock_context question with
                | Ok s => s
                | Raise _ => []
                end
                (Chain.search plugin_search 0 question false));
      destruct (analyze_rounds llm_analyze (e :: experts) question
                  (interface_context
                     match get_stock_context question with
                     | Ok s => s
                     | Raise _ => []
                     end
                     (Chain.search plugin_search 0 question false))
                  its acc)
        as [all|err] eqn:Hrounds; [|discriminate]
  end.
  cbn [bind].
  destruct (generate_consensus llm_generate question
              (slice_from (- Z.of_nat (length (e :: experts))) all))
    as [consensus|err]; [|discriminate].
  cbn [bind]. intros H. injection H as <-.
  cbn [search_results iteration_count expert_analyses].
  apply analyze_rounds_ok in Hrounds as [Hnil Hcons].
  split; [discriminate|]. split; [reflexivity|]. split; [reflexivity|].
  split.
  - intros Hmax.
    destruct (Z.to_nat (Chain.max_iterations chain)) as [|m] eqn:E; [lia|].
    destruct Hcons as [pre [last_analyses [-> HF]]]; [discriminate|].
    rewrite seq_S, last_last in HF. cbn [Nat.add] in HF.
    replace (S m - 1) with m by lia.
    assert (Hlen : length (e :: experts) = length last_analyses).
    { apply Forall2_length in HF. rewrite <- HF. unfold enumerate.
      rewrite length_combine, length_seq. lia. }
    change (Z.neg (Pos.of_succ_nat (length experts)))
      with (- Z.of_nat (length (e :: experts)))%Z.
    rewrite Hlen, slice_from_last
      by (destruct last_analyses; [discriminate Hlen | discriminate]).
    assert (Hper : forall t expert,
               nth_error (e :: experts) t = Some expert ->
               exists a,
                 nth_error last_analyses t = Some a /\
                 analyze_with_expert llm_analyze m t expert question
                   (interface_context
                      match get_stock_context question with
                      | Ok s => s
                      | Raise _ => []
                      end
                      (Chain.search plugin_search 0 question false))
                 = Ok a).
    { intros t expert Hn.
      assert (He : nth_error (enumerate (e :: experts)) t
                   = Some (t, expert)).
      { unfold enumerate. rewrite nth_error_combine_seq, Hn. reflexivity. }
      exact (@Forall2_nth_error _ _ _ _ _ t (t, expert) HF He). }
    assert (Hnames : map expert_name last_analyses = map name (e :: experts)
                     /\ map expert_emoji last_analyses
                        = map (fun e => emoji (metadata e)) (e :: experts)).
    { apply (@run_round_names llm_analyze (fun _ => []) m (e :: experts)
               question
               (interface_context
                  match get_stock_context question with
                  | Ok s => s
                  | Raise _ => []
                  end
                  (Chain.search plugin_search 0 question false))
               last_analyses).
      now apply run_round_ok. }
    split; [exact (proj1 Hnames)|]. split; [exact (proj2 Hnames)|].
    intros t expert Hn. destruct (Hper t expert Hn) as [a [Ha HR]].
    exists a. split; [exact Ha|].
    now apply analyze_with_expert_ok in HR as [H1 _].
  - intros Hmax. rewrite Hnil.
    + unfold slice_from. now destruct (_ <=? _)%Z.
    + replace (Z.to_nat (Chain.max_iterations chain)) with 0 by lia.
      reflexivity.
Qed.

Lemma run_analysis_async_result_witness :
  exists r,
    fst (_run_analysis_async ascii_lower (fun _ => Ok []) one_hit_search
           (fun _ _ _ _ _ => Ok (lit "fine")) (fun _ => Ok (lit "mixed"))
           example_chain (lit "stock outlook") [lit "B"; lit "A"])
    = Ok r /\
    search_results r = [one_hit] /\
    iteration_count r = 2%Z /\
    map expert_name (expert_analyses r) = [lit "B"; lit "A"].
Proof.
  eexists. split; [vm_compute; reflexivity|].
  destruct (@run_analysis_async_result ascii_lower (fun _ => Ok [])
              one_hit_search (fun _ _ _ _ _ => Ok (lit "fine"))
              (fun _ => Ok (lit "mixed")) example_chain
              (lit "stock outlook") [lit "B"; lit "A"] _ eq_refl)
    as [_ [Hs [Hi [Hn _]]]].
  split; [exact Hs|]. split; [exact Hi|].
  exact (proj1 (Hn ltac:(vm_compute; discriminate))).
Defined.
